(** * ldebug: the classification/normalisation pipeline and the retrieval engine

    A shallow embedding of the server actions [saveLogEntry]
    (with [getOrCreateDomain] and [getOrCreateActivity]), [saveChatMessage],
    [getRelatedLogs], [getLogsByDateRange], [getRecentLogs] and of the
    context merge of [ChatPage.handleSendMessage], followed by the
    properties of the specification that concern them.

    Conventions.
    - A JavaScript string is a [string]: a sequence of code units.  The
      methods that work on code units ([charAt], [slice], [includes],
      [split], [join]) are functions of the module [JS].  The methods whose
      result depends on the Unicode tables of the runtime ([trim],
      [toLowerCase], [toUpperCase]) are the fields of the class
      [StringMethods]: the write path is written over any such methods, of
      which only the result on a string of ASCII code units is fixed.
    - A JavaScript number is a rational ([Q]): the one that its decimal
      representation denotes (the shortest that reads back as the number,
      which is what [toString] prints and what is sent to the database);
      NaN and the infinities are outside the model.  A count, an id or a
      time stamp is a [Z].
    - A payload is a value of the type [IncomingLogData] of saveLog.ts.
    - [null] and [undefined] are both [None].
    - The database is an explicit [Store] threaded through a state monad;
      every statement sent to it is recorded in [issued].  A call that may
      throw has an [Outcome].  Whether a statement of [saveLogEntry] is
      accepted, for the values it carries, is the decision of the storage
      collaborator ([Storage]). *)

From Stdlib Require Import ZArith QArith Qround Qminmax Ascii String List.
From Stdlib Require Import Sorting.Sorted Sorting.Permutation.
From stdpp Require Import base option list sorting gmap strings.

Local Open Scope Z_scope.
Local Open Scope string_scope.

(** ** JavaScript string primitives *)

Module JS.

Definition isUpperAscii (c : ascii) : bool :=
  let n := nat_of_ascii c in (65 <=? n)%nat && (n <=? 90)%nat.

Definition isLowerAscii (c : ascii) : bool :=
  let n := nat_of_ascii c in (97 <=? n)%nat && (n <=? 122)%nat.

Definition lowerChar (c : ascii) : ascii :=
  if isUpperAscii c then ascii_of_nat (nat_of_ascii c + 32) else c.

Definition upperChar (c : ascii) : ascii :=
  if isLowerAscii c then ascii_of_nat (nat_of_ascii c - 32) else c.

Fixpoint mapChars (f : ascii -> ascii) (s : string) : string :=
  match s with
  | EmptyString => EmptyString
  | String c r => String (f c) (mapChars f r)
  end.

(** A string of ASCII code units (below 128). *)
Definition isAsciiChar (c : ascii) : bool := (nat_of_ascii c <? 128)%nat.

Fixpoint isAscii (s : string) : bool :=
  match s with
  | EmptyString => true
  | String c r => isAsciiChar c && isAscii r
  end.

(** [s.toLowerCase()] and [s.toUpperCase()] of a string of ASCII code
    units: the letters A to Z and a to z are mapped, nothing else is. *)
Definition toLowerCase (s : string) : string := mapChars lowerChar s.
Definition toUpperCaseAscii (s : string) : string := mapChars upperChar s.

(** The ASCII white space: TAB, LF, VT, FF, CR and SPACE. *)
Definition isWhite (c : ascii) : bool :=
  let n := nat_of_ascii c in
  ((9 <=? n)%nat && (n <=? 13)%nat) || (n =? 32)%nat.

Fixpoint trimStart (s : string) : string :=
  match s with
  | EmptyString => EmptyString
  | String c r => if isWhite c then trimStart r else s
  end.

(** Drops the white space that ends the string: a white character is kept
    exactly when something is left after it. *)
Fixpoint trimEnd (s : string) : string :=
  match s with
  | EmptyString => EmptyString
  | String c r =>
      match trimEnd r with
      | EmptyString => if isWhite c then EmptyString else String c EmptyString
      | r' => String c r'
      end
  end.

(** [s.trim()] of a string of ASCII code units *)
Definition trimAscii (s : string) : string := trimEnd (trimStart s).

(** [s.charAt(0)]: the first code unit as a string, the empty string on the empty string *)
Definition charAt0 (s : string) : string :=
  match s with
  | EmptyString => EmptyString
  | String c _ => String c EmptyString
  end.

(** [s.slice(1)] *)
Definition slice1 (s : string) : string :=
  match s with
  | EmptyString => EmptyString
  | String _ r => r
  end.

(** [s.substring(0, n)] *)
Fixpoint substring0 (n : nat) (s : string) : string :=
  match n, s with
  | S k, String c r => String c (substring0 k r)
  | _, _ => EmptyString
  end.

Fixpoint startsWith (p s : string) : bool :=
  match p, s with
  | EmptyString, _ => true
  | String a p', String b s' => if Ascii.eqb a b then startsWith p' s' else false
  | String _ _, EmptyString => false
  end.

(** [s.includes(p)] *)
Fixpoint includes (s p : string) : bool :=
  startsWith p s ||
  match s with
  | EmptyString => false
  | String _ r => includes r p
  end.

(** [s.split(' ')]: cut at every single SPACE; never the empty array. *)
Fixpoint splitSpace (s : string) : list string :=
  match s with
  | EmptyString => [EmptyString]
  | String c r =>
      if Ascii.eqb c " "%char then EmptyString :: splitSpace r
      else match splitSpace r with
           | w :: ws => String c w :: ws
           | [] => [String c EmptyString]
           end
  end.

(** [a.join(sep)] *)
Fixpoint join (sep : string) (a : list string) : string :=
  match a with
  | [] => EmptyString
  | [w] => w
  | w :: ws => w ++ sep ++ join sep ws
  end.

(** Truthiness of a string: the empty string is falsy. *)
Definition truthyStr (s : string) : bool :=
  match s with EmptyString => false | _ => true end.

(** [o || d] for an optional string [o] and a default [d] *)
Definition orStr (o : option string) (d : string) : string :=
  match o with
  | Some s => if truthyStr s then s else d
  | None => d
  end.

(** Truthiness of an optional object: present objects are truthy. *)
Definition present {A} (o : option A) : bool :=
  match o with Some _ => true | None => false end.

(** [a.includes(x)] on an array of strings *)
Definition arrayIncludes (a : list string) (x : string) : bool :=
  existsb (String.eqb x) a.

(** [Math.round(Math.max(1, Math.min(10, x)))]; [Math.round] rounds half up. *)
Definition clampRound (x : Q) : Z :=
  Qfloor (Qplus (Qmax (1#1) (Qmin (10#1) x)) (1#2)).

End JS.

(** ** The string methods of the runtime *)

(** [s.trim()], [s.toLowerCase()] and [s.toUpperCase()] follow the Unicode
    tables of the runtime (white space such as U+00A0, letters beyond A to
    Z).  They are taken as they come; what is fixed is their result on a
    string of ASCII code units. *)
Class StringMethods : Type := mkStringMethods
  { trim : string -> string;
    toLowerCase : string -> string;
    toUpperCase : string -> string;
    trim_ascii : forall s, JS.isAscii s = true -> trim s = JS.trimAscii s;
    toLowerCase_ascii :
      forall s, JS.isAscii s = true -> toLowerCase s = JS.toLowerCase s;
    toUpperCase_ascii :
      forall s, JS.isAscii s = true -> toUpperCase s = JS.toUpperCaseAscii s }.

(** The methods that leave every code unit above 127 alone. *)
Definition asciiStrings : StringMethods :=
  {| trim := JS.trimAscii;
     toLowerCase := JS.toLowerCase;
     toUpperCase := JS.toUpperCaseAscii;
     trim_ascii := fun _ _ => eq_refl;
     toLowerCase_ascii := fun _ _ => eq_refl;
     toUpperCase_ascii := fun _ _ => eq_refl |}.

(** ** Data model *)

Set Warnings "-register-all".

(** A JavaScript value held in a [Record<string, unknown>]. *)
Inductive jsval : Type :=
  | VNull
  | VBool (b : bool)
  | VNum (n : Q)
  | VStr (s : string)
  | VDate (ms : Z)
  | VArr (a : list jsval)
  | VObj (o : gmap string jsval).

(** [Record<string, unknown>] *)
Abbreviation jsobj := (gmap string jsval).

(** [Object.keys(o).length > 0] *)
Definition hasKeys (o : jsobj) : bool := negb (Nat.eqb (size o) 0).

(** What [domainColors[key] || '#6B7280'] evaluates to: a colour string, or,
    for a key that the object literal inherits from [Object.prototype], that
    inherited member (a truthy non-string: a function, or, under
    [__proto__], the object [Object.prototype] itself). *)
Inductive ColorValue : Type :=
  | Hex (s : string)
  | Inherited (key : string).

(** Rows of the table [domains] (schema.ts); [color] is nullable. *)
Module DomainRow.
Record t : Type := mk
  { id : Z; name : string; color : option ColorValue; isActive : option bool }.
End DomainRow.

(** Rows of the table [activities]; [domainId] is nullable. *)
Module ActivityRow.
Record t : Type := mk
  { id : Z; name : string; domainId : option Z; isActive : option bool }.
End ActivityRow.

(** The payload type [IncomingLogData] of [saveLogEntry].  Every part is
    optional here, as the code reads it ([data.log?.description?.trim()]). *)
Module IncomingLogData.
Record Log : Type := mkLog
  { description : option string; user_input : option string }.
Record Classification : Type := mkClassification
  { domain : option string; activity : option string }.
Record Action : Type := mkAction
  { action_ : option string; priority : option string }.
Record t : Type := mk
  { log : option Log;
    classification : option Classification;
    metadata : option jsobj;
    context : option jsobj;
    action : option Action;
    moodScore : option Q;
    energyLevel : option Q;
    productivityScore : option Q;
    stressLevel : option Q;
    satisfactionScore : option Q;
    location : option string;
    timeOfDay : option string;
    durationMinutes : option Q;
    amount : option Q;
    currency : option string;
    sentiment : option string;
    relatedLogIds : option (list Z);
    goalId : option Z }.
End IncomingLogData.

(** The object [insertData] that [saveLogEntry] hands to [db.insert(logs)].
    [amount] is the number whose decimal rendering ([toString]) is stored in
    the [decimal] column. *)
Module InsertData.
Record t : Type := mk
  { content : string;
    description : string;
    userInput : string;
    domainId : Z;
    activityId : Z;
    moodScore : Z;
    energyLevel : Z;
    productivityScore : Z;
    priority : string;
    stressLevel : option Z;
    satisfactionScore : option Z;
    location : option string;
    timeOfDay : option string;
    durationMinutes : option Q;
    amount : option Q;
    currency : option string;
    sentiment : option string;
    relatedLogIds : option (list Z);
    goalId : option Z;
    metadata : option jsobj;
    aiAction : option string }.
End InsertData.

(** Rows of the table [logs]: the inserted values with the [serial] id and
    the [defaultNow()] creation time. *)
Module LogRow.
Record t : Type := mk
  { id : Z; values : InsertData.t; createdAt : option Z }.
End LogRow.

(** A statement sent to the storage collaborator. *)
Inductive Statement : Type :=
  | Select (table : string)
  | Insert (table : string).

(** The storage collaborator: three tables with their [serial] sequences,
    its clock ([defaultNow()]) and the statements received so far. *)
Record Store : Type := mkStore
  { domains : list DomainRow.t;
    domainSeq : Z;
    activities : list ActivityRow.t;
    activitySeq : Z;
    logs : list LogRow.t;
    logSeq : Z;
    dbNow : Z;
    issued : list Statement }.

(** ** The state monad of the server actions *)

Definition DB (A : Type) : Type := Store -> A * Store.

Definition ret {A} (a : A) : DB A := fun st => (a, st).

Definition bind {A B} (c : DB A) (k : A -> DB B) : DB B :=
  fun st => let (a, st') := c st in k a st'.

Declare Scope db_scope.
Delimit Scope db_scope with db.
Notation "x <~ c ;; k" := (bind c (fun x => k))
  (at level 100, c at next level, right associativity) : db_scope.

(** Recording a statement. *)
Definition send (q : Statement) (st : Store) : Store :=
  mkStore (domains st) (domainSeq st) (activities st) (activitySeq st)
          (logs st) (logSeq st) (dbNow st) (issued st ++ [q]).

(** What a call that may throw gives: the value it returns, or the
    exception (which [saveLogEntry] catches). *)
Inductive Outcome (A : Type) : Type :=
  | Returned (a : A)
  | Threw.

Arguments Returned {A} a.
Arguments Threw {A}.

(** A statement that the resolvers of [saveLogEntry] send, with the values
    it carries. *)
Inductive Query : Type :=
  | SelectDomain (name : string)
  | InsertDomain (name : string) (color : option ColorValue)
  | SelectActivity (name : string) (domainId : Z)
  | InsertActivity (name : string) (domainId : Z).

(** The answer of the storage collaborator to an insert into [logs]: the
    row is accepted, or rejected; a rejection may still have consumed a value
    of the [serial] sequence (a violated foreign key or a text too long for
    an index does, a value of the wrong type does not). *)
Inductive Verdict : Type :=
  | Accepted
  | Rejected (consumed : bool).

(** The storage collaborator accepts or rejects a statement for the values
    it carries: a text that it cannot hold or index (one with the code unit
    0, one too long for an index), a number that a column cannot hold
    (schema.ts: an [integer] for [durationMinutes], a [decimal(12,2)] for
    [amount]), a reference to a row that does not exist ([goalId] refers to
    [goals]).  Its rules and the tables behind them are not part of this
    model: the decisions are taken as they come.  A statement of a resolver
    is judged by its values alone ([accepts]; [consumes] tells whether an
    insert that is rejected has taken a value of the sequence all the same);
    a row of [logs] also by the tables. *)
Class Storage : Type := mkStorage
  { accepts : Query -> bool;
    consumes : Query -> bool;
    checkInsert : Store -> InsertData.t -> Verdict }.

(** [await] of a statement: its result when the collaborator accepts it;
    else the statement is sent, no row is read or written ([skipped] is
    what a rejected insert may still do to the sequence), and the call
    throws. *)
Definition attempt {SC : Storage} {A} (q : Query) (sent : Statement)
    (skipped : Store -> Store) (c : DB A) : DB (Outcome A) :=
  fun st =>
    if accepts q
    then (Returned (fst (c st)), snd (c st))
    else (Threw, send sent (if consumes q then skipped st else st)).

(** A select takes no value of a sequence. *)
Definition nothingSkipped (st : Store) : Store := st.

(** A value of the sequence of [domains], respectively [activities], taken
    by an insert that failed. *)
Definition skipDomainId (st : Store) : Store :=
  mkStore (domains st) (domainSeq st + 1) (activities st) (activitySeq st)
          (logs st) (logSeq st) (dbNow st) (issued st).

Definition skipActivityId (st : Store) : Store :=
  mkStore (domains st) (domainSeq st) (activities st) (activitySeq st + 1)
          (logs st) (logSeq st) (dbNow st) (issued st).

Local Open Scope db_scope.

(** ** Taxonomy resolver (saveLog.ts) *)

(** [db.select().from(domains).where(eq(domains.name, n)).limit(k)] *)
Definition selectDomainsByName (n : string) (k : nat) : DB (list DomainRow.t) :=
  fun st =>
    (take k (List.filter (fun r => String.eqb (DomainRow.name r) n) (domains st)),
     send (Select "domains") st).

(** [db.insert(domains).values({name, color, isActive}).returning()]: the row
    gets the next value of the [serial] sequence, and [is_active] its default
    [true] when no value is supplied. *)
Definition insertDomain (n : string) (c : option ColorValue) (a : option bool)
  : DB DomainRow.t :=
  fun st =>
    let row := DomainRow.mk (domainSeq st) n c (Some (default true a)) in
    (row,
     send (Insert "domains")
       (mkStore (domains st ++ [row]) (domainSeq st + 1) (activities st)
          (activitySeq st) (logs st) (logSeq st) (dbNow st) (issued st))).

(** The own keys of the object literal [domainColors]. *)
Definition domainColors : list (string * string) :=
  [ ("work", "#3B82F6"); ("health", "#EF4444"); ("finance", "#F59E0B");
    ("social", "#10B981"); ("growth", "#8B5CF6"); ("leisure", "#EC4899");
    ("general", "#6B7280") ].

(** The members every object literal inherits from [Object.prototype]. *)
Definition objectPrototypeKeys : list string :=
  [ "constructor"; "__proto__"; "hasOwnProperty"; "isPrototypeOf";
    "propertyIsEnumerable"; "toLocaleString"; "toString"; "valueOf";
    "__defineGetter__"; "__defineSetter__"; "__lookupGetter__";
    "__lookupSetter__" ].

Fixpoint assoc (k : string) (table : list (string * string)) : option string :=
  match table with
  | [] => None
  | (k', v) :: rest => if String.eqb k k' then Some v else assoc k rest
  end.

(** [domainColors[normalized] || '#6B7280'] *)
Definition domainColorOf (normalized : string) : ColorValue :=
  match assoc normalized domainColors with
  | Some c => Hex c
  | None =>
      if JS.arrayIncludes objectPrototypeKeys normalized
      then Inherited normalized
      else Hex "#6B7280"
  end.

(** A value that [db.insert(domains).values({color, ...})] can take as a
    colour: a string, or a function (sent as its text).  The object
    [Object.prototype] has no prototype, and the query builder throws on it
    before any statement is sent. *)
Definition sendable (c : ColorValue) : bool :=
  match c with
  | Hex _ => true
  | Inherited key => negb (String.eqb key "__proto__")
  end.

Section Resolver.

Context {SM : StringMethods}.

(** [domainName.trim().charAt(0).toUpperCase()
     + domainName.trim().slice(1).toLowerCase()] *)
Definition capitalized (domainName : string) : string :=
  toUpperCase (JS.charAt0 (trim domainName))
  ++ toLowerCase (JS.slice1 (trim domainName)).

Context {SC : Storage}.

(** [getOrCreateDomain]: the id of the first row named [capitalized], else
    that of a new row; the insert throws when the colour cannot be sent,
    and either statement when the collaborator rejects it. *)
Definition getOrCreateDomain (domainName : string) : DB (Outcome Z) :=
  let normalized := toLowerCase (trim domainName) in
  existing <~ attempt (SelectDomain (capitalized domainName)) (Select "domains")
                nothingSkipped (selectDomainsByName (capitalized domainName) 1) ;;
  match existing with
  | Threw => ret Threw
  | Returned (row :: _) => ret (Returned (DomainRow.id row))
  | Returned [] =>
      if sendable (domainColorOf normalized)
      then newDomain <~ attempt
                          (InsertDomain (capitalized domainName)
                             (Some (domainColorOf normalized)))
                          (Insert "domains") skipDomainId
                          (insertDomain (capitalized domainName)
                             (Some (domainColorOf normalized)) (Some true)) ;;
           match newDomain with
           | Threw => ret Threw
           | Returned row => ret (Returned (DomainRow.id row))
           end
      else ret Threw
  end.

End Resolver.

(** At most one row of [domains] per name (the column is [unique()]). *)
Definition uniqueDomainNames (st : Store) : Prop :=
  List.NoDup (List.map DomainRow.name (domains st)).

(** Every row named [n] has the colour [c]. *)
Definition domainColored (n : string) (c : ColorValue) (st : Store) : Prop :=
  forall r, In r (domains st) -> DomainRow.name r = n -> DomainRow.color r = Some c.

(** [eq] of a nullable integer column with a number: NULL matches nothing. *)
Definition eqCol (col : option Z) (v : Z) : bool :=
  match col with
  | Some c => Z.eqb c v
  | None => false
  end.

(** [db.select().from(activities)
      .where(and(eq(activities.name, n), eq(activities.domainId, d))).limit(k)] *)
Definition selectActivitiesByNameDomain (n : string) (d : Z) (k : nat)
  : DB (list ActivityRow.t) :=
  fun st =>
    (take k (List.filter
               (fun r => String.eqb (ActivityRow.name r) n
                         && eqCol (ActivityRow.domainId r) d)
               (activities st)),
     send (Select "activities") st).

(** [db.select().from(activities).where(eq(activities.name, n)).limit(k)] *)
Definition selectActivitiesByName (n : string) (k : nat) : DB (list ActivityRow.t) :=
  fun st =>
    (take k (List.filter (fun r => String.eqb (ActivityRow.name r) n)
               (activities st)),
     send (Select "activities") st).

(** [db.insert(activities).values({name, domainId, isActive}).returning()] *)
Definition insertActivity (n : string) (d : Z) (a : option bool)
  : DB ActivityRow.t :=
  fun st =>
    let row := ActivityRow.mk (activitySeq st) n (Some d) (Some (default true a)) in
    (row,
     send (Insert "activities")
       (mkStore (domains st) (domainSeq st) (activities st ++ [row])
          (activitySeq st + 1) (logs st) (logSeq st) (dbNow st) (issued st))).

Definition getOrCreateActivity {SM : StringMethods} {SC : Storage}
    (activityName : string) (domainId : Z) : DB (Outcome Z) :=
  let normalized := trim activityName in
  existing <~ attempt (SelectActivity normalized domainId) (Select "activities")
                nothingSkipped (selectActivitiesByNameDomain normalized domainId 1) ;;
  match existing with
  | Threw => ret Threw
  | Returned (row :: _) => ret (Returned (ActivityRow.id row))
  | Returned [] =>
      newActivity <~ attempt (InsertActivity normalized domainId)
                       (Insert "activities") skipActivityId
                       (insertActivity normalized domainId (Some true)) ;;
      match newActivity with
      | Threw => ret Threw
      | Returned row => ret (Returned (ActivityRow.id row))
      end
  end.

(** [db.insert(logs).values(v)] of a row that the table holds as it is
    given (as the rows of [saveChatMessage], which have neither amount, nor
    duration, nor goal) *)
Definition insertLog (v : InsertData.t) : DB unit :=
  fun st =>
    let row := LogRow.mk (logSeq st) v (Some (dbNow st)) in
    (tt,
     send (Insert "logs")
       (mkStore (domains st) (domainSeq st) (activities st) (activitySeq st)
          (logs st ++ [row]) (logSeq st + 1) (dbNow st) (issued st))).

(** A collaborator that accepts every statement. *)
Definition lenientStorage : Storage :=
  {| accepts := fun _ => true;
     consumes := fun _ => false;
     checkInsert := fun _ _ => Accepted |}.

(** A collaborator that rejects a duration that is not an integer, as an
    [integer] column does. *)
Definition integerDurations : Storage :=
  {| accepts := fun _ => true;
     consumes := fun _ => false;
     checkInsert := fun _ v =>
       match InsertData.durationMinutes v with
       | Some d => if Z.eqb (Qceiling d) (Qfloor d) then Accepted else Rejected false
       | None => Accepted
       end |}.

(** A value as the column [decimal(12,2)] holds it: rounded to two decimals,
    half away from zero. *)
Definition decimal2 (x : Q) : Q :=
  if Qle_bool 0 x
  then Qfloor (Qplus (Qmult x (100 # 1)) (1 # 2)) # 100
  else Qopp (Qfloor (Qplus (Qmult (Qopp x) (100 # 1)) (1 # 2)) # 100).

(** The values of a row of [logs] for the inserted object [v]: the amount is
    held by a [decimal(12,2)] column.  The metadata is kept as the object
    that was handed over: the [jsonb] column holds its JSON rendering, which
    for a payload parsed from JSON is the object itself. *)
Definition storedValues (v : InsertData.t) : InsertData.t :=
  {| InsertData.content := InsertData.content v;
     InsertData.description := InsertData.description v;
     InsertData.userInput := InsertData.userInput v;
     InsertData.domainId := InsertData.domainId v;
     InsertData.activityId := InsertData.activityId v;
     InsertData.moodScore := InsertData.moodScore v;
     InsertData.energyLevel := InsertData.energyLevel v;
     InsertData.productivityScore := InsertData.productivityScore v;
     InsertData.priority := InsertData.priority v;
     InsertData.stressLevel := InsertData.stressLevel v;
     InsertData.satisfactionScore := InsertData.satisfactionScore v;
     InsertData.location := InsertData.location v;
     InsertData.timeOfDay := InsertData.timeOfDay v;
     InsertData.durationMinutes := InsertData.durationMinutes v;
     InsertData.amount := decimal2 <$> InsertData.amount v;
     InsertData.currency := InsertData.currency v;
     InsertData.sentiment := InsertData.sentiment v;
     InsertData.relatedLogIds := InsertData.relatedLogIds v;
     InsertData.goalId := InsertData.goalId v;
     InsertData.metadata := InsertData.metadata v;
     InsertData.aiAction := InsertData.aiAction v |}.

(** [await db.insert(logs).values(insertData)] in [saveLogEntry]: the row is
    appended when the collaborator accepts it; else the call throws and no
    row is written. *)
Definition insertLogRow {SC : Storage} (v : InsertData.t) : DB (Outcome unit) :=
  fun st =>
    match checkInsert st v with
    | Accepted => (Returned tt, snd (insertLog (storedValues v) st))
    | Rejected consumed =>
        (Threw,
         send (Insert "logs")
           (mkStore (domains st) (domainSeq st) (activities st) (activitySeq st)
              (logs st) (if consumed then logSeq st + 1 else logSeq st)
              (dbNow st) (issued st)))
    end.

(** ** Score inferencer and log normaliser (saveLogEntry) *)

Section Normaliser.

Import IncomingLogData.

Context {SM : StringMethods}.

Variable data : IncomingLogData.t.

(** [data.log?.description?.trim() || ''] *)
Definition description0 : string :=
  JS.orStr (trim <$> (log data ≫= IncomingLogData.description)) EmptyString.

(** [data.log?.user_input?.trim() || ''] *)
Definition userInput0 : string :=
  JS.orStr (trim <$> (log data ≫= user_input)) EmptyString.

(** [description] after the first fallback *)
Definition description1 : string :=
  if negb (JS.truthyStr description0) || String.eqb description0 EmptyString
  then (if JS.truthyStr userInput0 then userInput0 else "No description provided")
  else description0.

(** [userInput] after the second fallback *)
Definition userInput1 : string :=
  if negb (JS.truthyStr userInput0) || String.eqb userInput0 EmptyString
  then description1
  else userInput0.

Definition domainName : string :=
  JS.orStr (classification data ≫= domain) "General".

Definition activityName : string :=
  JS.orStr (classification data ≫= activity) "General".

(** [moodScore] before clamping: the supplied value or the inferred one *)
Definition moodScore0 : Q :=
  match moodScore data with
  | Some v => v
  | None =>
      let desc := toLowerCase description1 in
      if JS.includes desc "exhausted" || JS.includes desc "tired"
         || JS.includes desc "guilty" || JS.includes desc "sad"
         || JS.includes desc "depressed"
      then 3#1
      else if JS.includes desc "good" || JS.includes desc "happy"
              || JS.includes desc "won" || JS.includes desc "excited"
              || JS.includes desc "great"
      then 8#1
      else if JS.includes desc "okay" || JS.includes desc "fine"
              || JS.includes desc "normal"
      then 6#1
      else 5#1
  end.

Definition energyLevel0 : Q :=
  match energyLevel data with
  | Some v => v
  | None =>
      let desc := toLowerCase description1 in
      if JS.includes desc "exhausted" || JS.includes desc "tired"
         || JS.includes desc "drained" || JS.includes desc "worn out"
      then 2#1
      else if JS.includes desc "energetic" || JS.includes desc "excited"
              || JS.includes desc "active" || JS.includes desc "pumped"
      then 8#1
      else 5#1
  end.

Definition productivityScore0 : Q :=
  match productivityScore data with
  | Some v => v
  | None =>
      let desc := toLowerCase description1 in
      if JS.includes desc "working" || JS.includes desc "solved"
         || JS.includes desc "completed" || JS.includes desc "won"
         || JS.includes desc "finished"
      then 8#1
      else if JS.includes desc "bug" || JS.includes desc "couldn't"
              || JS.includes desc "failed" || JS.includes desc "stuck"
      then 3#1
      else 5#1
  end.

(** [data.action?.action || 'acknowledge'] *)
Definition aiActionOf : string := JS.orStr (action data ≫= action_) "acknowledge".

(** [data.action?.priority || 'medium'] *)
Definition aiPriorityOf : string := JS.orStr (action data ≫= priority) "medium".

(** [if (data.context && Object.keys(data.context).length > 0)
      metadata.aiContext = data.context] *)
Definition attachContext (m : jsobj) : jsobj :=
  match context data with
  | Some c => if hasKeys c then <["aiContext" := VObj c]> m else m
  | None => m
  end.

(** The local variable [metadata] once the two branches have run. *)
Definition assembledMetadata : option jsobj :=
  let minimal (base : jsobj) :=
    attachContext
      (<["aiPriority" := VStr aiPriorityOf]>
         (<["aiAction" := VStr aiActionOf]> base)) in
  if match metadata data with Some m => hasKeys m | None => false end
  then Some (minimal (default ∅ (metadata data)))
  else if JS.present (action data) || JS.present (context data)
  then Some (minimal ∅)
  else None.

End Normaliser.

(** The currency stored with a kept amount:
    [(data.currency && data.currency.trim() !== '') ? data.currency.toUpperCase() : 'INR'] *)
Definition currencyOf {SM : StringMethods} (c : option string) : string :=
  match c with
  | Some c => if String.eqb (trim c) EmptyString then "INR" else toUpperCase c
  | None => "INR"
  end.

(** The condition under which [saveLogEntry] builds a metadata object: the
    payload's metadata has a key, or an action or a context is present. *)
Definition buildsMetadata (data : IncomingLogData.t) : bool :=
  match IncomingLogData.metadata data with Some m => hasKeys m | None => false end
  || JS.present (IncomingLogData.action data)
  || JS.present (IncomingLogData.context data).

(** The object the analysis keys are added to: the payload's metadata when
    it has a key, else the empty object. *)
Definition metadataBase (data : IncomingLogData.t) : jsobj :=
  match IncomingLogData.metadata data with
  | Some m => if hasKeys m then m else ∅
  | None => ∅
  end.

(** [x > 0] on numbers *)
Definition positive (x : Q) : bool := negb (Qle_bool x 0).

Definition validTimeOfDay : list string :=
  ["morning"; "afternoon"; "evening"; "night"].

Definition validSentiments : list string := ["positive"; "negative"; "neutral"].

(** An enum column: kept lowercased when its lowercasing is in [valid]. *)
Definition enumColumn {SM : StringMethods}
    (valid : list string) (v : option string) : option string :=
  match v with
  | Some s =>
      if JS.truthyStr s && JS.arrayIncludes valid (toLowerCase s)
      then Some (toLowerCase s)
      else None
  | None => None
  end.

(** The value of [insertData.metadata] *)
Definition storedMetadata (m : option jsobj) : option jsobj :=
  match m with
  | Some o => if hasKeys o then Some o else None
  | None => None
  end.

(** The object [insertData] at the point of [db.insert(logs).values(insertData)]. *)
Definition insertData {SM : StringMethods}
    (data : IncomingLogData.t) (domainId activityId : Z) : InsertData.t :=
  {| InsertData.content := userInput1 data;
     InsertData.description := description1 data;
     InsertData.userInput := userInput1 data;
     InsertData.domainId := domainId;
     InsertData.activityId := activityId;
     InsertData.moodScore := JS.clampRound (moodScore0 data);
     InsertData.energyLevel := JS.clampRound (energyLevel0 data);
     InsertData.productivityScore := JS.clampRound (productivityScore0 data);
     InsertData.priority := aiPriorityOf data;
     InsertData.stressLevel := JS.clampRound <$> IncomingLogData.stressLevel data;
     InsertData.satisfactionScore :=
       JS.clampRound <$> IncomingLogData.satisfactionScore data;
     InsertData.location :=
       match IncomingLogData.location data with
       | Some l =>
           if JS.truthyStr l && negb (String.eqb (trim l) EmptyString)
           then Some (trim l) else None
       | None => None
       end;
     InsertData.timeOfDay :=
       enumColumn validTimeOfDay (IncomingLogData.timeOfDay data);
     InsertData.durationMinutes :=
       match IncomingLogData.durationMinutes data with
       | Some d => if positive d then Some d else None
       | None => None
       end;
     InsertData.amount :=
       match IncomingLogData.amount data with
       | Some a => if positive a then Some a else None
       | None => None
       end;
     InsertData.currency :=
       match IncomingLogData.amount data with
       | Some a =>
           if positive a
           then match IncomingLogData.currency data with
                | Some c =>
                    if JS.truthyStr c && negb (String.eqb (trim c) EmptyString)
                    then Some (toUpperCase c) else Some "INR"
                | None => Some "INR"
                end
           else None
       | None => None
       end;
     InsertData.sentiment :=
       enumColumn validSentiments (IncomingLogData.sentiment data);
     InsertData.relatedLogIds :=
       match IncomingLogData.relatedLogIds data with
       | Some (i :: ids) => Some (i :: ids)
       | _ => None
       end;
     InsertData.goalId :=
       match IncomingLogData.goalId data with
       | Some g => if Z.eqb g 0 then None else Some g
       | None => None
       end;
     InsertData.metadata := storedMetadata (assembledMetadata data);
     InsertData.aiAction := None |}.

(** What [saveLogEntry] returns: [{success: true, domainId, activityId}] or
    [{success: false, error}]. *)
Inductive SaveResult : Type :=
  | Saved (domainId activityId : Z)
  | Failed (error : string).

(** What [saveChatMessage] returns: [{success: true}] or
    [{success: false, error}]. *)
Inductive ChatResult : Type :=
  | ChatSaved
  | ChatFailed (error : string).

(** [saveLogEntry]: the body of the [try], in which the resolver or the
    insert may throw, and the [catch], which answers
    [{success: false, error: "Database rejected the log"}].  What was written
    before the exception stays written. *)
Definition saveLogEntry {SM : StringMethods} {SC : Storage}
    (data : IncomingLogData.t) : DB SaveResult :=
  domainId <~ getOrCreateDomain (domainName data) ;;
  match domainId with
  | Threw => ret (Failed "Database rejected the log")
  | Returned domainId =>
      activityId <~ getOrCreateActivity (activityName data) domainId ;;
      match activityId with
      | Threw => ret (Failed "Database rejected the log")
      | Returned activityId =>
          inserted <~ insertLogRow (insertData data domainId activityId) ;;
          match inserted with
          | Threw => ret (Failed "Database rejected the log")
          | Returned _ => ret (Saved domainId activityId)
          end
      end
  end.

(** ** Chat messages (saveChat.ts) *)

Module ChatMessage.
Inductive Role : Type := user | assistant.
Record t : Type := mk { role : Role; content : string; timestamp : Z }.
Definition roleName (r : Role) : string :=
  match r with user => "user" | assistant => "assistant" end.
End ChatMessage.

(** The [metadata] object of a chat log. *)
Definition chatMetadata (message : ChatMessage.t)
    (conversationContext : option (list ChatMessage.t)) : jsobj :=
  let base : jsobj :=
    <["isChatMessage" := VBool true]>
      (<["chatRole" := VStr (ChatMessage.roleName (ChatMessage.role message))]> ∅) in
  match conversationContext with
  | Some (m :: ms) =>
      <["conversationContext" :=
          VArr (List.map
                  (fun m : ChatMessage.t =>
                     VObj (<["timestamp" := VDate (ChatMessage.timestamp m)]>
                          (<["content" := VStr (JS.substring0 200 (ChatMessage.content m))]>
                          (<["role" := VStr (ChatMessage.roleName (ChatMessage.role m))]> ∅))))
                  (m :: ms))]> base
  | _ => base
  end.

Definition chatInsertData (message : ChatMessage.t)
    (conversationContext : option (list ChatMessage.t)) (domainId activityId : Z)
  : InsertData.t :=
  {| InsertData.content := ChatMessage.content message;
     InsertData.description :=
       match ChatMessage.role message with
       | ChatMessage.user =>
           "User chat: " ++ JS.substring0 100 (ChatMessage.content message)
       | ChatMessage.assistant =>
           "AI response: " ++ JS.substring0 100 (ChatMessage.content message)
       end;
     InsertData.userInput := ChatMessage.content message;
     InsertData.domainId := domainId;
     InsertData.activityId := activityId;
     InsertData.moodScore := 5;
     InsertData.energyLevel := 5;
     InsertData.productivityScore := 5;
     InsertData.priority := "low";
     InsertData.stressLevel := None;
     InsertData.satisfactionScore := None;
     InsertData.location := None;
     InsertData.timeOfDay := None;
     InsertData.durationMinutes := None;
     InsertData.amount := None;
     InsertData.currency := None;
     InsertData.sentiment := None;
     InsertData.relatedLogIds := None;
     InsertData.goalId := None;
     InsertData.metadata := Some (chatMetadata message conversationContext);
     InsertData.aiAction :=
       Some match ChatMessage.role message with
            | ChatMessage.user => "question"
            | ChatMessage.assistant => "insight"
            end |}.

(** [saveChatMessage]: the domain is looked up by the name ['General'], the
    activity by the name ['Chat'] alone. *)
Definition saveChatMessage (message : ChatMessage.t)
    (conversationContext : option (list ChatMessage.t)) : DB ChatResult :=
  chatDomain <~ selectDomainsByName "General" 1 ;;
  chatDomain <~ match chatDomain with
                | [] => newDomain <~ insertDomain "General" None None ;;
                        ret [newDomain]
                | _ => ret chatDomain
                end ;;
  match chatDomain with
  | [] => ret (ChatFailed "Failed to save chat message")
  | d :: _ =>
      let domainId := DomainRow.id d in
      chatActivity <~ selectActivitiesByName "Chat" 1 ;;
      chatActivity <~ match chatActivity with
                      | [] => newActivity <~ insertActivity "Chat" domainId None ;;
                              ret [newActivity]
                      | _ => ret chatActivity
                      end ;;
      match chatActivity with
      | [] => ret (ChatFailed "Failed to save chat message")
      | a :: _ =>
          let activityId := ActivityRow.id a in
          _ <~ insertLog (chatInsertData message conversationContext
                            domainId activityId) ;;
          ret ChatSaved
      end
  end.

(** ** Retrieval engine (getMemory.ts, getLogs.ts) *)

(** An element of the array [contextLogs]: a search result, or a recent log
    converted to the same format (its [content], [userInput], [location] and
    [amount] are then undefined). *)
Module LogSummary.
Record t : Type := mk
  { id : Z;
    date : option Z;
    content : option string;
    description : string;
    userInput : option string;
    domain : option string;
    activity : option string;
    moodScore : Z;
    energyLevel : Z;
    productivityScore : Z;
    metadata : option jsobj;
    location : option string;
    amount : option Q }.
End LogSummary.

(** The type [LogEntry] of getLogs.ts *)
Module LogEntry.
Record t : Type := mk
  { id : Z;
    content : string;
    description : string;
    userInput : string;
    domainName : option string;
    activityName : option string;
    moodScore : Z;
    energyLevel : Z;
    productivityScore : Z;
    stressLevel : option Z;
    satisfactionScore : option Z;
    metadata : option jsobj;
    location : option string;
    timeOfDay : option string;
    durationMinutes : option Q;
    amount : option Q;
    currency : option string;
    sentiment : option string;
    priority : option string;
    createdAt : option Z }.
End LogEntry.

(** [leftJoin(domains, eq(logs.domainId, domains.id))], selecting
    [domains.name]; [id] is the primary key, so a log has at most one partner. *)
Definition domainNameOf (st : Store) (r : LogRow.t) : option string :=
  DomainRow.name <$>
    List.find (fun d => Z.eqb (DomainRow.id d) (InsertData.domainId (LogRow.values r)))
      (domains st).

(** [leftJoin(activities, eq(logs.activityId, activities.id))], selecting
    [activities.name] *)
Definition activityNameOf (st : Store) (r : LogRow.t) : option string :=
  ActivityRow.name <$>
    List.find (fun a => Z.eqb (ActivityRow.id a) (InsertData.activityId (LogRow.values r)))
      (activities st).

(** [orderBy(desc(logs.createdAt))]: later rows first, NULL before all. *)
Definition laterOrEqual (a b : option Z) : bool :=
  match a, b with
  | None, _ => true
  | Some _, None => false
  | Some x, Some y => Z.leb y x
  end.

Definition newerFirst (r1 r2 : LogRow.t) : Prop :=
  laterOrEqual (LogRow.createdAt r1) (LogRow.createdAt r2) = true.

#[global] Instance newerFirst_dec : RelDecision newerFirst.
Proof. intros r1 r2. unfold newerFirst. apply _. Defined.

(** Descending creation time on the entries of a result. *)
Definition entriesNewerFirst (e1 e2 : LogEntry.t) : Prop :=
  laterOrEqual (LogEntry.createdAt e1) (LogEntry.createdAt e2) = true.

(** The document that the search predicate indexes:
    [description || ' ' || user_input || ' ' || content] *)
Definition searchDocument (r : LogRow.t) : string :=
  InsertData.description (LogRow.values r) ++ " "
  ++ InsertData.userInput (LogRow.values r) ++ " "
  ++ InsertData.content (LogRow.values r).

(** A row of the search as [getRelatedLogs] returns it. *)
Definition toSummary (st : Store) (r : LogRow.t) : LogSummary.t :=
  let v := LogRow.values r in
  {| LogSummary.id := LogRow.id r;
     LogSummary.date := LogRow.createdAt r;
     LogSummary.content := Some (InsertData.content v);
     LogSummary.description := InsertData.description v;
     LogSummary.userInput := Some (InsertData.userInput v);
     LogSummary.domain := Some (JS.orStr (domainNameOf st r) "Unknown");
     LogSummary.activity := Some (JS.orStr (activityNameOf st r) "Unknown");
     LogSummary.moodScore := InsertData.moodScore v;
     LogSummary.energyLevel := InsertData.energyLevel v;
     LogSummary.productivityScore := InsertData.productivityScore v;
     LogSummary.metadata := InsertData.metadata v;
     LogSummary.location := InsertData.location v;
     LogSummary.amount := InsertData.amount v |}.

(** A row of the date-range query as [getLogsByDateRange] returns it. *)
Definition toLogEntry (st : Store) (r : LogRow.t) : LogEntry.t :=
  let v := LogRow.values r in
  {| LogEntry.id := LogRow.id r;
     LogEntry.content := InsertData.content v;
     LogEntry.description := InsertData.description v;
     LogEntry.userInput := InsertData.userInput v;
     LogEntry.domainName := domainNameOf st r;
     LogEntry.activityName := activityNameOf st r;
     LogEntry.moodScore := InsertData.moodScore v;
     LogEntry.energyLevel := InsertData.energyLevel v;
     LogEntry.productivityScore := InsertData.productivityScore v;
     LogEntry.stressLevel := InsertData.stressLevel v;
     LogEntry.satisfactionScore := InsertData.satisfactionScore v;
     LogEntry.metadata := InsertData.metadata v;
     LogEntry.location := InsertData.location v;
     LogEntry.timeOfDay := InsertData.timeOfDay v;
     LogEntry.durationMinutes := InsertData.durationMinutes v;
     LogEntry.amount := InsertData.amount v;
     LogEntry.currency := InsertData.currency v;
     LogEntry.sentiment := InsertData.sentiment v;
     LogEntry.priority := Some (InsertData.priority v);
     LogEntry.createdAt := LogRow.createdAt r |}.

Section Search.

(** The text search of the storage collaborator: [to_tsquery('english', s)]
    parses the joined terms ([None] on a syntax error, which fails the
    statement), and [doc @@ q] matches a parsed query with the
    [to_tsvector] of a document. *)
Variable tsquery : Type.
Variable to_tsquery : string -> option tsquery.
Variable matches : string -> tsquery -> bool.

(** [userQuery.split(' ').filter(w => w.length > 3).join(' | ')] *)
Definition searchTerms (userQuery : string) : string :=
  JS.join " | "
    (List.filter (fun w => (3 <? String.length w)%nat) (JS.splitSpace userQuery)).

Definition getRelatedLogs (userQuery : string) : DB (list LogSummary.t) :=
  if negb (JS.truthyStr (searchTerms userQuery)) then ret []
  else
    fun st =>
      match to_tsquery (searchTerms userQuery) with
      | Some q =>
          (List.map (toSummary st)
             (take 5
                (merge_sort newerFirst
                   (List.filter (fun r => matches (searchDocument r) q) (logs st)))),
           send (Select "logs") st)
      | None => ([], send (Select "logs") st)
      end.

End Search.

(** [and(gte(logs.createdAt, startDate), lte(logs.createdAt, endDate))];
    a NULL [createdAt] satisfies neither comparison. *)
Definition inRange (startDate endDate : Z) (r : LogRow.t) : bool :=
  match LogRow.createdAt r with
  | Some c => Z.leb startDate c && Z.leb c endDate
  | None => false
  end.

Definition getLogsByDateRange (startDate endDate : Z) : DB (list LogEntry.t) :=
  fun st =>
    (List.map (toLogEntry st)
       (merge_sort newerFirst (List.filter (inRange startDate endDate) (logs st))),
     send (Select "logs") st).

Definition msPerDay : Z := 86400000.

(** [d.setHours(0, 0, 0, 0)] for a date [d] with time value [t], in a local
    zone that is [tz] milliseconds ahead of UTC throughout. *)
Definition startOfDay (tz t : Z) : Z := (t + tz) / msPerDay * msPerDay - tz.

(** [d.setHours(23, 59, 59, 999)] *)
Definition endOfDay (tz t : Z) : Z := startOfDay tz t + msPerDay - 1.

(** [getRecentLogs(days)], the two [new Date()] of which read the time value
    [now]: [setDate(getDate() - days)] moves the date back by [days] calendar
    days, [setHours] then moves it to the first instant of that day.  This is
    the function on dates that are valid ([recentDatesValid] below), as they
    are for the 2 and 3 days of the chat page; a number of days that takes
    the date out of the range of [Date] is outside this definition. *)
Definition getRecentLogs (tz now : Z) (days : Z) : DB (list LogEntry.t) :=
  let startDate := startOfDay tz (now - days * msPerDay) in
  let endDate := endOfDay tz now in
  getLogsByDateRange startDate endDate.

(** The time value of a valid [Date]: at most 8.64e15 milliseconds from the
    epoch.  Beyond, [setDate] and [setHours] give an invalid [Date]. *)
Definition validTime (t : Z) : Prop :=
  -8640000000000000 <= t <= 8640000000000000.

(** The four dates that [getRecentLogs(days)] builds are valid: the two
    [new Date()], the date [days] days earlier and its first instant, and
    the last instant of today. *)
Definition recentDatesValid (tz now days : Z) : Prop :=
  validTime now
  /\ validTime (now - days * msPerDay)
  /\ validTime (startOfDay tz (now - days * msPerDay))
  /\ validTime (endOfDay tz now).

(** ** Context merge of the chat page (ChatPage.handleSendMessage, step 4) *)

(** [r.id || (r.date ? r.date.getTime() : 0)] *)
Definition summaryKey (r : LogSummary.t) : Z :=
  if Z.eqb (LogSummary.id r) 0
  then match LogSummary.date r with Some t => t | None => 0 end
  else LogSummary.id r.

(** [log.id || (log.createdAt ? new Date(log.createdAt).getTime() : 0)] *)
Definition entryKey (log : LogEntry.t) : Z :=
  if Z.eqb (LogEntry.id log) 0
  then match LogEntry.createdAt log with Some t => t | None => 0 end
  else LogEntry.id log.

(** [new Set(searchResults.map(...))] *)
Definition searchResultIds (searchResults : list LogSummary.t) : gset Z :=
  list_to_set (List.map summaryKey searchResults).

(** [recentLogs.filter(log => !searchResultIds.has(logId))] *)
Definition uniqueRecentLogs (searchResults : list LogSummary.t)
    (recentLogs : list LogEntry.t) : list LogEntry.t :=
  List.filter
    (fun log => negb (bool_decide (entryKey log ∈ searchResultIds searchResults)))
    recentLogs.

(** [s || null] on a nullable string *)
Definition orNull (o : option string) : option string :=
  match o with
  | Some s => if JS.truthyStr s then Some s else None
  | None => None
  end.

(** A recent log in the format of the search results. *)
Definition formatRecent (log : LogEntry.t) : LogSummary.t :=
  {| LogSummary.id := LogEntry.id log;
     LogSummary.date := LogEntry.createdAt log;
     LogSummary.content := None;
     LogSummary.description :=
       if JS.truthyStr (LogEntry.description log)
       then LogEntry.description log else LogEntry.content log;
     LogSummary.userInput := None;
     LogSummary.domain := orNull (LogEntry.domainName log);
     LogSummary.activity := orNull (LogEntry.activityName log);
     LogSummary.moodScore := LogEntry.moodScore log;
     LogSummary.energyLevel := LogEntry.energyLevel log;
     LogSummary.productivityScore := LogEntry.productivityScore log;
     LogSummary.metadata := LogEntry.metadata log;
     LogSummary.location := None;
     LogSummary.amount := None |}.

(** [contextLogs = [...searchResults, ...formattedRecentLogs]] *)
Definition contextLogs (searchResults : list LogSummary.t)
    (recentLogs : list LogEntry.t) : list LogSummary.t :=
  searchResults ++ List.map formatRecent (uniqueRecentLogs searchResults recentLogs).

Section ChatContext.

Variable tsquery : Type.
Variable to_tsquery : string -> option tsquery.
Variable matches : string -> tsquery -> bool.

(** Steps 2 to 4 of [handleSendMessage]: search, fetch the last two days
    when the search found something and the last three otherwise, merge. *)
Definition chatContext (tz now : Z) (searchQuery : string)
  : DB (list LogSummary.t) :=
  searchResults <~ getRelatedLogs tsquery to_tsquery matches searchQuery ;;
  let recentDays := if (0 <? length searchResults)%nat then 2 else 3 in
  recentLogs <~ getRecentLogs tz now recentDays ;;
  ret (contextLogs searchResults recentLogs).

End ChatContext.

(** ** Sample data *)

(** The empty database, at time 0. *)
Definition emptyStore : Store := mkStore [] 1 [] 1 [] 1 0 [].

(** A log record with neutral scores. *)
Definition sampleValues (text : string) : InsertData.t :=
  InsertData.mk text text text 1 1 5 5 5 "medium"
    None None None None None None None None None None None None.

(** Noon of the third day after the epoch, and six in the morning of the
    first day. *)
Definition sampleNow : Z := 2 * msPerDay + 12 * 3600000.


(** A stand-in for the text search of the storage collaborator: the joined
    terms are the query, and a document matches when it contains them. *)
Definition plainQuery (terms : string) : option string := Some terms.
Definition plainMatches (doc q : string) : bool := JS.includes doc q.

(** The payload that supplies nothing. *)
Definition emptyPayload : IncomingLogData.t :=
  IncomingLogData.mk None None None None None None None None None None
    None None None None None None None None.

(** The payload [{metadata: {}}]. *)
Definition emptyMetadataPayload : IncomingLogData.t :=
  IncomingLogData.mk None None (Some ∅) None None None None None None None
    None None None None None None None None.

(** The payload [{context: {}}]: an empty context and nothing else. *)
Definition emptyContextPayload : IncomingLogData.t :=
  IncomingLogData.mk None None None (Some ∅) None None None None None None
    None None None None None None None None.

(** The payload [{metadata: {aiContext: "mine"}}]. *)
Definition ownContextPayload : IncomingLogData.t :=
  IncomingLogData.mk None None (Some (<["aiContext" := VStr "mine"]> ∅)) None None
    None None None None None None None None None None None None None.

(** The payload [{action: {action: ""}}]: an action whose name is empty. *)
Definition blankActionPayload : IncomingLogData.t :=
  IncomingLogData.mk None None None None
    (Some (IncomingLogData.mkAction (Some EmptyString) None))
    None None None None None None None None None None None None None.

(** The payload [{amount: a, currency: c}]. *)
Definition amountPayload (a : option Q) (c : option string) : IncomingLogData.t :=
  IncomingLogData.mk None None None None None None None None None None
    None None None a c None None None.

(** The payload [{timeOfDay: t, sentiment: s}]. *)
Definition enumPayload (t s : option string) : IncomingLogData.t :=
  IncomingLogData.mk None None None None None None None None None None
    None t None None None s None None.

(** A store with the domains "Work" (id 1) and "General" (id 2), and one
    activity, "Chat", under "Work". *)
Definition chatUnderWorkStore : Store :=
  mkStore
    [ DomainRow.mk 1 "Work" (Some (Hex "#3B82F6")) (Some true);
      DomainRow.mk 2 "General" (Some (Hex "#6B7280")) (Some true) ]
    3
    [ ActivityRow.mk 1 "Chat" (Some 1) (Some true) ]
    2 [] 1 0 [].

Definition helloMessage : ChatMessage.t :=
  ChatMessage.mk ChatMessage.user "hello" 0.

(** Two logs of the same morning, the later one about a parser. *)
Definition parserLog : LogRow.t :=
  LogRow.mk 7 (sampleValues "fixed the parser") (Some (sampleNow - 3600000)).
Definition runLog : LogRow.t :=
  LogRow.mk 8 (sampleValues "went running") (Some (sampleNow - 7200000)).

Definition twoLogStore : Store :=
  mkStore [DomainRow.mk 1 "Work" (Some (Hex "#3B82F6")) (Some true)] 2
    [ActivityRow.mk 1 "Coding" (Some 1) (Some true)] 2
    [runLog; parserLog] 9 sampleNow [].

(** The search results and the recent logs of a chat about the parser. *)
Definition sampleSearch : list LogSummary.t := [toSummary twoLogStore parserLog].
Definition sampleRecent : list LogEntry.t :=
  [toLogEntry twoLogStore parserLog; toLogEntry twoLogStore runLog].

(** The payload of the specification's end-to-end example. *)
Definition solvedPayload : IncomingLogData.t :=
  IncomingLogData.mk
    (Some (IncomingLogData.mkLog
             (Some "I finally solved the bug and feel great")
             (Some "I finally solved the bug and feel great")))
    None None None None None None None None None
    None None None None None None None None.

(** ** The keyword tables of the specification (section 4.2)

    These definitions follow the specification's table, not the code; they
    are compared with the code's conditionals below. *)

(** One rule: a set of keywords and the score they give. *)
Definition Rule : Type := (list string * Z)%type.

Definition spec_moodRules : list Rule :=
  [ (["exhausted"; "tired"; "guilty"; "sad"; "depressed"], 3);
    (["good"; "happy"; "won"; "excited"; "great"], 8);
    (["okay"; "fine"; "normal"], 6) ].

Definition spec_energyRules : list Rule :=
  [ (["exhausted"; "tired"; "drained"; "worn out"], 2);
    (["energetic"; "excited"; "active"; "pumped"], 8) ].

Definition spec_productivityRules : list Rule :=
  [ (["working"; "solved"; "completed"; "won"; "finished"], 8);
    (["bug"; "couldn't"; "failed"; "stuck"], 3) ].

(** A rule matches a text that contains any of its keywords. *)
Definition spec_ruleMatches (text : string) (r : Rule) : bool :=
  existsb (JS.includes text) (fst r).

(** The first matching rule wins, checked in the listed order over the
    lowercased description; else the neutral default 5. *)
Definition spec_inferScore {SM : StringMethods}
    (rules : list Rule) (description : string) : Z :=
  match List.find (spec_ruleMatches (toLowerCase description)) rules with
  | Some r => snd r
  | None => 5
  end.

(** ** The other reads of getLogs.ts and getMemory.ts *)

(** [getAllLogs]: every log, newest first. *)
Definition getAllLogs : DB (list LogEntry.t) :=
  fun st =>
    (List.map (toLogEntry st) (merge_sort newerFirst (logs st)),
     send (Select "logs") st).

(** [getLogsByDate(date)]: the logs between the first and the last
    millisecond of the local calendar day of [date]. *)
Definition getLogsByDate (tz date : Z) : DB (list LogEntry.t) :=
  let startOfDay_ := startOfDay tz date in
  let endOfDay_ := endOfDay tz date in
  getLogsByDateRange startOfDay_ endOfDay_.

(** What [getLogsWithPagination] returns; [totalPages] is [None] when
    [Math.ceil(total / limit)] is not a finite number ([limit] is 0). *)
Module Page.
Record t : Type := mk
  { logs : list LogEntry.t;
    total : Z;
    page : Z;
    limit : Z;
    totalPages : option Z }.
End Page.

(** [Math.ceil(a / b)] for integers [a] and [b]; the quotient by 0 is not a
    finite number. *)
Definition ceilDiv (a b : Z) : option Z :=
  match b with
  | Z0 => None
  | Zpos p => Some (Qceiling (a # p))
  | Zneg p => Some (Qceiling (- a # p))
  end.

(** [.limit(n)] of the query builder on rows in their order: a negative
    [n] is left out of the statement, which then has no LIMIT. *)
Definition limitRows {A} (n : Z) (rows : list A) : list A :=
  if Z.ltb n 0 then rows else take (Z.to_nat n) rows.

(** [getLogsWithPagination(page = 1, limit = 20)].  The storage collaborator
    rejects a negative OFFSET: the first statement then fails, the second is
    not sent and the [catch] branch returns the empty first page.
    [total] is the number of rows that the count statement reports. *)
Definition getLogsWithPagination (page limit : option Z) : DB Page.t :=
  fun st =>
    let page := default 1 page in
    let limit := default 20 limit in
    let offset := (page - 1) * limit in
    if Z.ltb offset 0
    then (Page.mk [] 0 1 limit (Some 0), send (Select "logs") st)
    else
      let results :=
        List.map (toLogEntry st)
          (limitRows limit
             (drop (Z.to_nat offset) (merge_sort newerFirst (logs st)))) in
      let count := Z.of_nat (length (logs st)) in
      (Page.mk results count page limit (ceilDiv count limit),
       send (Select "logs") (send (Select "logs") st)).

(** [getLogsByDomain(domainName, limit = 10)]: the newest [limit] logs whose
    domain row has that name. *)
Definition getLogsByDomain (domainName : string) (limit : option Z)
  : DB (list LogRow.t) :=
  fun st =>
    let limit := default 10 limit in
    (limitRows limit
       (merge_sort newerFirst
          (List.filter
             (fun r => match domainNameOf st r with
                       | Some n => String.eqb n domainName
                       | None => false
                       end)
             (logs st))),
     send (Select "logs") st).

(** ** Keywords of a chat message (ChatPage.extractKeywords) *)

Definition commonWords : list string :=
  [ "the"; "was"; "were"; "this"; "that"; "with"; "from"; "have"; "has"; "had";
    "what"; "when"; "where"; "how"; "why"; "did"; "do"; "does"; "about"; "last";
    "week"; "month"; "year"; "day"; "time"; "tell"; "me"; "you"; "your"; "my";
    "i"; "am"; "is"; "are"; "can"; "could"; "would"; "should"; "will"; "shall" ].

(** The class [\w] of a regular expression: letters, digits and [_]. *)
Definition isWordChar (c : ascii) : bool :=
  let n := nat_of_ascii c in
  JS.isUpperAscii c || JS.isLowerAscii c
  || ((48 <=? n)%nat && (n <=? 57)%nat) || (n =? 95)%nat.

(** [s.replace(/[^\w\s]/g, ' ')] *)
Definition replacePunctuation (s : string) : string :=
  JS.mapChars (fun c => if isWordChar c || JS.isWhite c then c else " "%char) s.

(** [s.split(/\s+/)]: cut at every run of white space; a run at either end
    leaves an empty string there.  [inRun] tells that the previous
    character was white. *)
Fixpoint splitWhite (inRun : bool) (s : string) : list string :=
  match s with
  | EmptyString => [EmptyString]
  | String c r =>
      if JS.isWhite c
      then (if inRun then splitWhite true r else EmptyString :: splitWhite true r)
      else match splitWhite false r with
           | w :: ws => String c w :: ws
           | [] => [String c EmptyString]
           end
  end.

Definition isKeyword (word : string) : bool :=
  (2 <? String.length word)%nat && negb (JS.arrayIncludes commonWords word).

Definition extractKeywords (userMessage : string) : list string :=
  List.filter isKeyword
    (splitWhite false (replacePunctuation (JS.toLowerCase userMessage))).

(** [searchKeywords.length > 0 ? searchKeywords.join(' ') : userMessage] *)
Definition searchQueryOf (userMessage : string) : string :=
  let searchKeywords := extractKeywords userMessage in
  if (0 <? length searchKeywords)%nat then JS.join " " searchKeywords
  else userMessage.


Section SendMessage.

Variable tsquery : Type.
Variable to_tsquery : string -> option tsquery.
Variable matches : string -> tsquery -> bool.

(** Steps 1 to 4 of [handleSendMessage] for the trimmed input
    [userMessage]: the context handed to the generator. *)
Definition messageContext (tz now : Z) (userMessage : string)
  : DB (list LogSummary.t) :=
  chatContext tsquery to_tsquery matches tz now (searchQueryOf userMessage).

End SendMessage.


(** ** Well-formed stores *)

(** The ids of a table with a [serial] primary key: distinct, and below the
    next value of the sequence. *)
Definition keysBelow (ids : list Z) (seq : Z) : Prop :=
  List.NoDup ids /\ Forall (fun i => i < seq) ids.

Definition wellFormed (st : Store) : Prop :=
  keysBelow (List.map DomainRow.id (domains st)) (domainSeq st)
  /\ keysBelow (List.map ActivityRow.id (activities st)) (activitySeq st)
  /\ keysBelow (List.map LogRow.id (logs st)) (logSeq st).

(** At most one activity per name and domain. *)
Definition uniqueActivities (st : Store) : Prop :=
  List.NoDup
    (List.map (fun r => (ActivityRow.name r, ActivityRow.domainId r)) (activities st)).

(** A payload that names its domain and activity. *)
Definition classifiedPayload (text : string) (d a : option string) : IncomingLogData.t :=
  IncomingLogData.mk
    (Some (IncomingLogData.mkLog (Some text) (Some text)))
    (Some (IncomingLogData.mkClassification d a))
    None None None None None None None None None None None None None None None None.

Definition replyMessage : ChatMessage.t :=
  ChatMessage.mk ChatMessage.assistant "hi, how can I help?" 1.

(** Every domain row has the colour that [domainColors] gives its name. *)
Definition coloredByName (st : Store) : Prop :=
  forall r, In r (domains st) ->
            DomainRow.color r = Some (domainColorOf (JS.toLowerCase (DomainRow.name r))).

(** A run of five kilometres, classified under "health" and "Running", and
    the store that saving it in [twoLogStore] leaves when every row is
    accepted. *)
Definition healthPayload : IncomingLogData.t :=
  classifiedPayload "ran 5 km" (Some "health") (Some "Running").

Definition healthStore : Store :=
  snd (saveLogEntry (SM := asciiStrings) (SC := lenientStorage) healthPayload twoLogStore).

(** A payload with a description and a duration. *)
Definition durationPayload (text : string) (minutes : Q) : IncomingLogData.t :=
  IncomingLogData.mk
    (Some (IncomingLogData.mkLog (Some text) (Some text)))
    None None None None None None None None None None None (Some minutes)
    None None None None None.

(** The canonical names of the seven preset domains, with their colours. *)
Definition presetDomains : list (string * string) :=
  [ ("Work", "#3B82F6"); ("Health", "#EF4444"); ("Finance", "#F59E0B");
    ("Social", "#10B981"); ("Growth", "#8B5CF6"); ("Leisure", "#EC4899");
    ("General", "#6B7280") ].

(** Every character of a string satisfies [p]. *)
Fixpoint allChars (p : ascii -> bool) (s : string) : bool :=
  match s with
  | EmptyString => true
  | String c r => p c && allChars p r
  end.

(** A lowercase letter, a digit or [_]. *)
Definition isKeywordChar (c : ascii) : bool :=
  let n := nat_of_ascii c in
  JS.isLowerAscii c || ((48 <=? n)%nat && (n <=? 57)%nat) || (n =? 95)%nat.

(** * Properties *)

(** ** Context merge *)

Lemma summaryKey_formatRecent (log : LogEntry.t) :
  summaryKey (formatRecent log) = entryKey log.
Proof. reflexivity. Qed.

Lemma elem_of_searchResultIds (S : list LogSummary.t) (k : Z) :
  k ∈ searchResultIds S <-> In k (List.map summaryKey S).
Proof.
  unfold searchResultIds. rewrite elem_of_list_to_set. apply list_elem_of_In.
Qed.

Lemma In_uniqueRecentLogs (S : list LogSummary.t) (R : list LogEntry.t) (log : LogEntry.t) :
  In log (uniqueRecentLogs S R) <->
  In log R /\ ~ In (entryKey log) (List.map summaryKey S).
Proof.
  unfold uniqueRecentLogs. rewrite filter_In, negb_true_iff.
  rewrite bool_decide_eq_false, elem_of_searchResultIds. reflexivity.
Qed.

(** A non-zero id is its own identity. *)
Lemma summaryKey_id (r : LogSummary.t) :
  LogSummary.id r <> 0 -> summaryKey r = LogSummary.id r.
Proof.
  intros Hid. unfold summaryKey.
  destruct (Z.eqb_spec (LogSummary.id r) 0); congruence.
Qed.

(** The entries that come from the recency fetch carry no identity of a
    search result. *)
Lemma recent_part_fresh (S : list LogSummary.t) (R : list LogEntry.t) (k : Z) :
  In k (List.map summaryKey S) ->
  ~ In k (List.map summaryKey (List.map formatRecent (uniqueRecentLogs S R))).
Proof.
  intros Hk Hin. rewrite List.map_map in Hin.
  apply in_map_iff in Hin as (log & Hkey & Hlog).
  rewrite summaryKey_formatRecent in Hkey. subst k.
  apply In_uniqueRecentLogs in Hlog as [_ Hfresh]. contradiction.
Qed.

(** Nor do they carry the non-zero id of a search result. *)
Lemma recent_part_fresh_id (S : list LogSummary.t) (R : list LogEntry.t) (k : Z) :
  k <> 0 -> In k (List.map LogSummary.id S) ->
  ~ In k (List.map LogSummary.id (List.map formatRecent (uniqueRecentLogs S R))).
Proof.
  intros Hk0 Hk Hin.
  apply in_map_iff in Hk as (s & Hs & HsS).
  apply in_map_iff in Hin as (x & Hx & HxR).
  apply (recent_part_fresh S R k).
  - apply in_map_iff. exists s. split; [|exact HsS].
    rewrite summaryKey_id; congruence.
  - apply in_map_iff. exists x. split; [|exact HxR].
    rewrite summaryKey_id; congruence.
Qed.

Lemma contextLogs_count_id (S : list LogSummary.t) (R : list LogEntry.t) (k : Z) :
  k <> 0 -> In k (List.map LogSummary.id S) ->
  count_occ Z.eq_dec (List.map LogSummary.id (contextLogs S R)) k
  = count_occ Z.eq_dec (List.map LogSummary.id S) k.
Proof.
  intros Hk0 Hk. unfold contextLogs.
  rewrite List.map_app, count_occ_app.
  rewrite (proj1 (count_occ_not_In Z.eq_dec _ k) (recent_part_fresh_id S R k Hk0 Hk)).
  lia.
Qed.

Lemma NoDup_map_filter {A B} (f : A -> B) (p : A -> bool) (l : list A) :
  List.NoDup (List.map f l) -> List.NoDup (List.map f (List.filter p l)).
Proof.
  induction l as [|x l IH]; simpl; [auto|].
  intros Hnd. apply List.NoDup_cons_iff in Hnd as [Hx Hl].
  destruct (p x); simpl; [|auto].
  constructor; [|auto].
  intros Hin. apply Hx. apply in_map_iff in Hin as (y & Hy & Hin).
  apply filter_In in Hin as [Hin _]. apply in_map_iff. eauto.
Qed.

(** The rows a search selects: at most five of the matching logs. *)
Lemma search_rows_distinct (p : LogRow.t -> bool) (st : Store) :
  List.NoDup (List.map LogRow.id (logs st)) ->
  List.NoDup (List.map LogRow.id
                (take 5 (merge_sort newerFirst (List.filter p (logs st)))))
  /\ incl (take 5 (merge_sort newerFirst (List.filter p (logs st)))) (logs st).
Proof.
  intros Hnd.
  set (sorted := merge_sort newerFirst (List.filter p (logs st))).
  assert (Hperm : sorted ≡ₚ List.filter p (logs st)) by apply merge_sort_Permutation.
  split.
  - apply (NoDup_app_remove_r _ (List.map LogRow.id (drop 5 sorted))).
    rewrite <- List.map_app, take_drop.
    apply (Permutation_NoDup (Permutation_map LogRow.id (Permutation_sym Hperm))).
    apply NoDup_map_filter, Hnd.
  - intros r Hr. apply (incl_filter p).
    apply (Permutation_in _ Hperm).
    rewrite <- (take_drop 5 sorted). apply in_or_app. left. exact Hr.
Qed.

Section SearchResults.

Variable tsquery : Type.
Variable to_tsquery : string -> option tsquery.
Variable matches : string -> tsquery -> bool.

(** The search results are a result set: their ids are ids of the table
    [logs], distinct when those of the table are (the primary key). *)
Lemma getRelatedLogs_result_set (q : string) (st : Store) :
  List.NoDup (List.map LogRow.id (logs st)) ->
  List.NoDup (List.map LogSummary.id
                (fst (getRelatedLogs tsquery to_tsquery matches q st)))
  /\ incl (List.map LogSummary.id
             (fst (getRelatedLogs tsquery to_tsquery matches q st)))
          (List.map LogRow.id (logs st)).
Proof.
  intros Hnd. unfold getRelatedLogs.
  destruct (negb (JS.truthyStr (searchTerms q)));
    [simpl; split; [constructor|intros k []]|].
  destruct (to_tsquery (searchTerms q)) as [tq|];
    [|simpl; split; [constructor|intros k []]].
  simpl. rewrite List.map_map. simpl.
  destruct (search_rows_distinct (fun r => matches (searchDocument r) tq) st Hnd)
    as [Hdistinct Hincl].
  split; [exact Hdistinct|].
  intros k Hk. apply in_map_iff in Hk as (r & <- & Hr).
  apply in_map, Hincl, Hr.
Qed.

(** The chat context is the merge of the search results with the logs of
    the last two or three days. *)
Lemma chatContext_is_merge (tz now : Z) (q : string) (st : Store) :
  exists days,
    (days = 2 \/ days = 3)
    /\ fst (chatContext tsquery to_tsquery matches tz now q st)
       = contextLogs (fst (getRelatedLogs tsquery to_tsquery matches q st))
           (fst (getRecentLogs tz now days
                   (snd (getRelatedLogs tsquery to_tsquery matches q st)))).
Proof.
  unfold chatContext, bind.
  destruct (getRelatedLogs tsquery to_tsquery matches q st) as [S st1]. simpl.
  destruct (0 <? length S)%nat; [exists 2|exists 3]; auto.
Qed.

End SearchResults.

(** C1. The merged context is the search results followed by the recent logs
    whose identity (id, falling back to the time stamp) is not that of a
    search result.  Hence the search results occupy the first positions,
    whatever the time stamps, every later entry derives from a recent log,
    an identity (and a non-zero id) of a search result occurs in the output
    exactly as often as among the search results, so exactly once when the
    search results are a result set without repeated ids, as those of
    [getRelatedLogs] are over a table [logs] whose ids are distinct and not
    zero: in the context of a chat every id of a search result occurs once. *)
Theorem contextLogs_search_first_once (S : list LogSummary.t) (R : list LogEntry.t) :
  contextLogs S R
  = (S ++ List.map formatRecent
           (List.filter
              (fun log => negb (bool_decide (entryKey log ∈ List.map summaryKey S)))
              R))%list
  /\ (forall i s, S !! i = Some s -> contextLogs S R !! i = Some s)
  /\ (forall i x, (length S <= i)%nat -> contextLogs S R !! i = Some x ->
        exists log, In log R /\ x = formatRecent log
                    /\ ~ In (entryKey log) (List.map summaryKey S))
  /\ (forall k, In k (List.map summaryKey S) ->
        count_occ Z.eq_dec (List.map summaryKey (contextLogs S R)) k
        = count_occ Z.eq_dec (List.map summaryKey S) k)
  /\ (forall k, k <> 0 -> In k (List.map LogSummary.id S) ->
        count_occ Z.eq_dec (List.map LogSummary.id (contextLogs S R)) k
        = count_occ Z.eq_dec (List.map LogSummary.id S) k)
  /\ (List.NoDup (List.map LogSummary.id S) ->
      forall k, k <> 0 -> In k (List.map LogSummary.id S) ->
        count_occ Z.eq_dec (List.map LogSummary.id (contextLogs S R)) k = 1%nat)
  /\ (forall (tsquery : Type) (to_tsquery : string -> option tsquery)
             (matches : string -> tsquery -> bool) (tz now : Z) (q : string)
             (st : Store),
        List.NoDup (List.map LogRow.id (logs st)) ->
        ~ In 0 (List.map LogRow.id (logs st)) ->
        forall k,
          In k (List.map LogSummary.id
                  (fst (getRelatedLogs tsquery to_tsquery matches q st))) ->
          count_occ Z.eq_dec
            (List.map LogSummary.id
               (fst (chatContext tsquery to_tsquery matches tz now q st))) k
          = 1%nat).
Proof.
  pose proof (contextLogs_count_id S R) as Hcount.
  split; [|split; [|split; [|split; [|split; [|split]]]]].
  - unfold contextLogs, uniqueRecentLogs. do 2 f_equal.
    apply filter_ext. intros log. f_equal.
    apply bool_decide_ext. rewrite elem_of_searchResultIds.
    symmetry. apply list_elem_of_In.
  - intros i s Hi. unfold contextLogs. rewrite lookup_app_l; [exact Hi|].
    eapply lookup_lt_Some, Hi.
  - intros i x Hi Hx. unfold contextLogs in Hx.
    rewrite lookup_app_r in Hx by exact Hi.
    apply list_elem_of_lookup_2, list_elem_of_In, in_map_iff in Hx
      as (log & Hfmt & Hlog).
    apply In_uniqueRecentLogs in Hlog as [HR Hfresh].
    exists log. auto.
  - intros k Hk. unfold contextLogs.
    rewrite List.map_app, count_occ_app.
    rewrite (proj1 (count_occ_not_In Z.eq_dec _ k) (recent_part_fresh S R k Hk)).
    lia.
  - exact Hcount.
  - intros Hnd k Hk0 Hk. rewrite Hcount by assumption.
    apply (proj1 (NoDup_count_occ' Z.eq_dec _)); assumption.
  - intros tsquery to_tsquery matches tz now q st Hnd Hzero k Hk.
    destruct (getRelatedLogs_result_set tsquery to_tsquery matches q st Hnd)
      as [Hdistinct Hincl].
    destruct (chatContext_is_merge tsquery to_tsquery matches tz now q st)
      as (days & _ & ->).
    rewrite contextLogs_count_id; [|intros ->; apply Hzero, Hincl, Hk|exact Hk].
    apply (proj1 (NoDup_count_occ' Z.eq_dec _)); assumption.
Qed.

(** ** Score inference *)

Lemma clampRound_integer (n : Z) : 1 <= n <= 10 -> JS.clampRound (n # 1) = n.
Proof.
  intros Hn. unfold JS.clampRound.
  assert (Hmin : Qmin (10 # 1) (n # 1) == n # 1).
  { apply Q.min_r. unfold Qle. simpl. lia. }
  assert (Hmax : Qmax (1 # 1) (Qmin (10 # 1) (n # 1)) == n # 1).
  { rewrite Hmin. apply Q.max_r. unfold Qle. simpl. lia. }
  rewrite Hmax.
  unfold Qfloor, Qplus. simpl.
  change (Z.pos (1 * 2)) with 2.
  symmetry. apply (Z.div_unique _ 2 n 1); lia.
Qed.

(** A case analysis on the keywords that occur in [desc], which stops at the
    first that does. *)
Ltac split_keywords desc :=
  repeat match goal with
         | |- context [JS.includes desc ?k] =>
             destruct (JS.includes desc k);
             rewrite ?orb_true_r, ?orb_true_l, ?orb_false_r, ?orb_false_l;
             cbn iota; try reflexivity
         end.

Section Scores.

Context {SM : StringMethods}.

(** Every score of the three tables is between 1 and 10. *)
Lemma spec_inferScore_range (rules : list Rule) (description : string) :
  Forall (fun r => 1 <= snd r <= 10) rules ->
  1 <= spec_inferScore rules description <= 10.
Proof.
  intros Hall. unfold spec_inferScore.
  destruct (List.find _ rules) as [r|] eqn:Hfind; [|lia].
  apply find_some in Hfind as [Hin _].
  rewrite List.Forall_forall in Hall. apply Hall, Hin.
Qed.

Lemma moodScore0_table (data : IncomingLogData.t) :
  IncomingLogData.moodScore data = None ->
  moodScore0 data = (spec_inferScore spec_moodRules (description1 data) # 1).
Proof.
  intros Hnone. unfold moodScore0, spec_inferScore, spec_moodRules,
    spec_ruleMatches. rewrite Hnone. cbn [List.find existsb fst snd].
  set (desc := toLowerCase (description1 data)).
  rewrite !orb_false_r. split_keywords desc.
Qed.

Lemma energyLevel0_table (data : IncomingLogData.t) :
  IncomingLogData.energyLevel data = None ->
  energyLevel0 data = (spec_inferScore spec_energyRules (description1 data) # 1).
Proof.
  intros Hnone. unfold energyLevel0, spec_inferScore, spec_energyRules,
    spec_ruleMatches. rewrite Hnone. cbn [List.find existsb fst snd].
  set (desc := toLowerCase (description1 data)).
  rewrite !orb_false_r. split_keywords desc.
Qed.

Lemma productivityScore0_table (data : IncomingLogData.t) :
  IncomingLogData.productivityScore data = None ->
  productivityScore0 data
  = (spec_inferScore spec_productivityRules (description1 data) # 1).
Proof.
  intros Hnone. unfold productivityScore0, spec_inferScore,
    spec_productivityRules, spec_ruleMatches. rewrite Hnone.
  cbn [List.find existsb fst snd].
  set (desc := toLowerCase (description1 data)).
  rewrite !orb_false_r. split_keywords desc.
Qed.

Lemma description1_of_description (data : IncomingLogData.t) (s : string) :
  IncomingLogData.log data ≫= IncomingLogData.description = Some s ->
  trim s <> EmptyString ->
  description1 data = trim s.
Proof.
  intros Hd Hne. unfold description1, description0. rewrite Hd. simpl.
  destruct (trim s) as [|c r]; [congruence|reflexivity].
Qed.

End Scores.

(** ** What [saveLogEntry] writes *)

Lemma logs_send (q : Statement) (st : Store) : logs (send q st) = logs st.
Proof. reflexivity. Qed.

Lemma find_filter {A} (f : A -> bool) (l : list A) :
  List.find f l = match List.filter f l with x :: _ => Some x | [] => None end.
Proof.
  induction l as [|y l IH]; simpl; [reflexivity|].
  destruct (f y); [reflexivity|exact IH].
Qed.

Lemma find_In_true {A} (f : A -> bool) (l : list A) (x : A) :
  List.find f l = Some x -> In x l /\ f x = true.
Proof. apply find_some. Qed.

(** The one inherited colour that cannot be sent is the one of the key
    [__proto__]. *)
Lemma sendable_domainColorOf (normalized : string) :
  sendable (domainColorOf normalized) = false <-> normalized = "__proto__".
Proof.
  unfold domainColorOf. split.
  - destruct (assoc normalized domainColors); [discriminate|].
    destruct (JS.arrayIncludes objectPrototypeKeys normalized); [|discriminate].
    simpl. intros H. apply negb_false_iff, String.eqb_eq in H. exact H.
  - intros ->. reflexivity.
Qed.

(** The case analysis on the outcomes of a resolver. *)
Ltac resolver_cases :=
  repeat match goal with
         | |- context [if ?b then _ else _] => destruct b eqn:?
         | |- context [match List.find ?f ?l with _ => _ end] =>
             destruct (List.find f l) eqn:?
         end.

Section Writes.

Context {SM : StringMethods} {SC : Storage}.

(** [getOrCreateDomain], outcome by outcome: the lookup is rejected and the
    call throws; or the first row of the canonical name is found and
    nothing is written; or there is none and the colour cannot be sent, and
    the call throws with nothing written; or there is none and a row is
    appended, with the next id of the sequence, the canonical name and the
    preset-or-default colour; or the insert is rejected and the call
    throws. *)
Lemma getOrCreateDomain_store (d : string) (st : Store) :
  getOrCreateDomain d st
  = if accepts (SelectDomain (capitalized d))
    then match List.find (fun r => String.eqb (DomainRow.name r) (capitalized d))
                 (domains st) with
         | Some row => (Returned (DomainRow.id row), send (Select "domains") st)
         | None =>
             if sendable (domainColorOf (toLowerCase (trim d)))
             then if accepts (InsertDomain (capitalized d)
                                (Some (domainColorOf (toLowerCase (trim d)))))
                  then (Returned (domainSeq st),
                        send (Insert "domains")
                          (mkStore
                             (domains st
                              ++ [DomainRow.mk (domainSeq st) (capitalized d)
                                    (Some (domainColorOf (toLowerCase (trim d))))
                                    (Some true)])
                             (domainSeq st + 1) (activities st) (activitySeq st)
                             (logs st) (logSeq st) (dbNow st)
                             (issued st ++ [Select "domains"])))
                  else (Threw,
                        send (Insert "domains")
                          (if consumes (InsertDomain (capitalized d)
                                          (Some (domainColorOf (toLowerCase (trim d)))))
                           then skipDomainId (send (Select "domains") st)
                           else send (Select "domains") st))
             else (Threw, send (Select "domains") st)
         end
    else (Threw, send (Select "domains") st).
Proof.
  rewrite find_filter.
  unfold getOrCreateDomain, bind, attempt, selectDomainsByName.
  destruct (accepts (SelectDomain (capitalized d)));
    [|destruct (consumes _); reflexivity]. simpl.
  destruct (List.filter _ (domains st)) as [|row rest]; simpl; [|reflexivity].
  destruct (sendable (domainColorOf (toLowerCase (trim d)))); [|reflexivity].
  destruct (accepts (InsertDomain _ _)); reflexivity.
Qed.

(** [getOrCreateActivity], outcome by outcome. *)
Lemma getOrCreateActivity_store (n : string) (d : Z) (st : Store) :
  getOrCreateActivity n d st
  = if accepts (SelectActivity (trim n) d)
    then match List.find (fun r => String.eqb (ActivityRow.name r) (trim n)
                                   && eqCol (ActivityRow.domainId r) d)
                 (activities st) with
         | Some row => (Returned (ActivityRow.id row), send (Select "activities") st)
         | None =>
             if accepts (InsertActivity (trim n) d)
             then (Returned (activitySeq st),
                   send (Insert "activities")
                     (mkStore (domains st) (domainSeq st)
                        (activities st
                         ++ [ActivityRow.mk (activitySeq st) (trim n) (Some d)
                               (Some true)])
                        (activitySeq st + 1) (logs st) (logSeq st) (dbNow st)
                        (issued st ++ [Select "activities"])))
             else (Threw,
                   send (Insert "activities")
                     (if consumes (InsertActivity (trim n) d)
                      then skipActivityId (send (Select "activities") st)
                      else send (Select "activities") st))
         end
    else (Threw, send (Select "activities") st).
Proof.
  rewrite find_filter.
  unfold getOrCreateActivity, bind, attempt, selectActivitiesByNameDomain.
  destruct (accepts (SelectActivity (trim n) d));
    [|destruct (consumes _); reflexivity]. simpl.
  destruct (List.filter _ (activities st)) as [|row rest]; simpl; [|reflexivity].
  destruct (accepts (InsertActivity _ _)); reflexivity.
Qed.

Lemma getOrCreateDomain_logs (n : string) (st : Store) :
  logs (snd (getOrCreateDomain n st)) = logs st
  /\ logSeq (snd (getOrCreateDomain n st)) = logSeq st
  /\ dbNow (snd (getOrCreateDomain n st)) = dbNow st
  /\ activities (snd (getOrCreateDomain n st)) = activities st
  /\ activitySeq (snd (getOrCreateDomain n st)) = activitySeq st.
Proof.
  rewrite getOrCreateDomain_store. resolver_cases; simpl; auto.
Qed.

Lemma getOrCreateActivity_logs (n : string) (d : Z) (st : Store) :
  logs (snd (getOrCreateActivity n d st)) = logs st
  /\ logSeq (snd (getOrCreateActivity n d st)) = logSeq st
  /\ dbNow (snd (getOrCreateActivity n d st)) = dbNow st
  /\ domains (snd (getOrCreateActivity n d st)) = domains st
  /\ domainSeq (snd (getOrCreateActivity n d st)) = domainSeq st.
Proof.
  rewrite getOrCreateActivity_store. resolver_cases; simpl; auto.
Qed.

(** [saveLogEntry], step by step: the resolver of the domain, that of the
    activity, the insert. *)
Lemma saveLogEntry_steps (data : IncomingLogData.t) (st : Store) :
  let st1 := snd (getOrCreateDomain (domainName data) st) in
  match fst (getOrCreateDomain (domainName data) st) with
  | Threw => saveLogEntry data st = (Failed "Database rejected the log", st1)
  | Returned d =>
      let st2 := snd (getOrCreateActivity (activityName data) d st1) in
      match fst (getOrCreateActivity (activityName data) d st1) with
      | Threw => saveLogEntry data st = (Failed "Database rejected the log", st2)
      | Returned a =>
          match checkInsert st2 (insertData data d a) with
          | Accepted =>
              saveLogEntry data st
              = (Saved d a, snd (insertLog (storedValues (insertData data d a)) st2))
          | Rejected consumed =>
              saveLogEntry data st
              = (Failed "Database rejected the log",
                 send (Insert "logs")
                   (mkStore (domains st2) (domainSeq st2) (activities st2)
                      (activitySeq st2) (logs st2)
                      (if consumed then logSeq st2 + 1 else logSeq st2)
                      (dbNow st2) (issued st2)))
          end
      end
  end.
Proof.
  cbv zeta. unfold saveLogEntry, bind.
  destruct (getOrCreateDomain (domainName data) st) as [[d|] st1]; simpl;
    [|reflexivity].
  destruct (getOrCreateActivity (activityName data) d st1) as [[a|] st2]; simpl;
    [|reflexivity].
  unfold insertLogRow.
  destruct (checkInsert st2 (insertData data d a)); reflexivity.
Qed.

(** When [saveLogEntry] answers [{success: true, domainId, activityId}], the
    two resolvers returned these ids, the collaborator accepted the row, and
    the table [logs] has one row more: the object [insertData] as its
    columns hold it, under the next id of the sequence. *)
Lemma saveLogEntry_saved (data : IncomingLogData.t) (st st' : Store) (d a : Z) :
  saveLogEntry data st = (Saved d a, st') ->
  let st1 := snd (getOrCreateDomain (domainName data) st) in
  let st2 := snd (getOrCreateActivity (activityName data) d st1) in
  fst (getOrCreateDomain (domainName data) st) = Returned d
  /\ fst (getOrCreateActivity (activityName data) d st1) = Returned a
  /\ checkInsert st2 (insertData data d a) = Accepted
  /\ st' = snd (insertLog (storedValues (insertData data d a)) st2)
  /\ domains st' = domains st1
  /\ activities st' = activities st2
  /\ logs st'
     = (logs st ++ [LogRow.mk (logSeq st) (storedValues (insertData data d a))
                      (Some (dbNow st))])%list.
Proof.
  intros Hsave. cbv zeta.
  pose proof (saveLogEntry_steps data st) as Hsteps. cbv zeta in Hsteps.
  pose proof (getOrCreateDomain_logs (domainName data) st) as (Hl1 & Hs1 & Hn1 & _).
  destruct (fst (getOrCreateDomain (domainName data) st)) as [d0|];
    [|rewrite Hsteps in Hsave; discriminate].
  set (st1 := snd (getOrCreateDomain (domainName data) st)) in *.
  pose proof (getOrCreateActivity_logs (activityName data) d0 st1)
    as (Hl2 & Hs2 & Hn2 & Hd2 & _).
  destruct (fst (getOrCreateActivity (activityName data) d0 st1)) as [a0|] eqn:Ha;
    [|rewrite Hsteps in Hsave; discriminate].
  set (st2 := snd (getOrCreateActivity (activityName data) d0 st1)) in *.
  destruct (checkInsert st2 (insertData data d0 a0)) eqn:Hcheck;
    rewrite Hsteps in Hsave; [|discriminate].
  injection Hsave as <- <- <-.
  split; [reflexivity|]. split; [exact Ha|]. split; [exact Hcheck|].
  split; [reflexivity|].
  simpl. rewrite Hd2, Hl2, Hs2, Hn2, Hl1, Hs1, Hn1. auto.
Qed.

End Writes.

(** C2. For a payload whose description is "I finally solved the bug and
    feel great" and which supplies no score, the record that the normaliser
    hands to the store has moodScore 8 ("great" is a keyword of mood rule
    2, no keyword of mood rule 1 occurs), energyLevel 5 (no energy rule
    matches) and productivityScore 8 ("solved" belongs to productivity rule
    1, which precedes the rule of "bug", which matches too).  For every
    payload that leaves a metric out, the score of the record is the one of
    the first matching rule of the metric's table over the lowercased
    description, else 5.  Whenever [saveLogEntry] reports success, the row
    it has appended holds these scores. *)
Theorem solved_bug_great_scores {SM : StringMethods} (data : IncomingLogData.t) :
  IncomingLogData.log data ≫= IncomingLogData.description
    = Some "I finally solved the bug and feel great" ->
  IncomingLogData.moodScore data = None ->
  IncomingLogData.energyLevel data = None ->
  IncomingLogData.productivityScore data = None ->
  (forall domainId activityId : Z,
      InsertData.moodScore (insertData data domainId activityId) = 8
      /\ InsertData.energyLevel (insertData data domainId activityId) = 5
      /\ InsertData.productivityScore (insertData data domainId activityId) = 8)
  /\ (let desc := toLowerCase (description1 data) in
      List.map (spec_ruleMatches desc) spec_moodRules = [false; true; false]
      /\ JS.includes desc "great" = true
      /\ List.map (spec_ruleMatches desc) spec_energyRules = [false; false]
      /\ List.map (spec_ruleMatches desc) spec_productivityRules = [true; true]
      /\ JS.includes desc "solved" = true
      /\ JS.includes desc "bug" = true)
  /\ (forall (data' : IncomingLogData.t) (domainId activityId : Z),
        let v := insertData data' domainId activityId in
        (IncomingLogData.moodScore data' = None ->
         InsertData.moodScore v
         = spec_inferScore spec_moodRules (InsertData.description v))
        /\ (IncomingLogData.energyLevel data' = None ->
            InsertData.energyLevel v
            = spec_inferScore spec_energyRules (InsertData.description v))
        /\ (IncomingLogData.productivityScore data' = None ->
            InsertData.productivityScore v
            = spec_inferScore spec_productivityRules (InsertData.description v)))
  /\ (forall (SC : Storage) (st st' : Store) (domainId activityId : Z),
        saveLogEntry data st = (Saved domainId activityId, st') ->
        exists row,
          logs st' = (logs st ++ [row])%list
          /\ InsertData.moodScore (LogRow.values row) = 8
          /\ InsertData.energyLevel (LogRow.values row) = 5
          /\ InsertData.productivityScore (LogRow.values row) = 8).
Proof.
  intros Hdesc Hmood Henergy Hprod.
  assert (Htrim : trim "I finally solved the bug and feel great"
                  = "I finally solved the bug and feel great")
    by (rewrite trim_ascii; reflexivity).
  assert (Hd1 : description1 data = "I finally solved the bug and feel great").
  { rewrite (description1_of_description data _ Hdesc); rewrite Htrim;
      [reflexivity|discriminate]. }
  assert (Hlow : toLowerCase (description1 data)
                 = "i finally solved the bug and feel great")
    by (rewrite Hd1, toLowerCase_ascii; reflexivity).
  assert (Hscores : forall d a : Z,
             InsertData.moodScore (insertData data d a) = 8
             /\ InsertData.energyLevel (insertData data d a) = 5
             /\ InsertData.productivityScore (insertData data d a) = 8).
  { intros d a. simpl.
    rewrite (moodScore0_table data Hmood), (energyLevel0_table data Henergy),
      (productivityScore0_table data Hprod).
    unfold spec_inferScore. rewrite Hlow. vm_compute. auto. }
  split; [exact Hscores|]. split; [|split].
  - cbv zeta. rewrite Hlow. vm_compute. auto 10.
  - intros data' d a. cbv zeta. simpl.
    split; [|split]; intros Hnone.
    + rewrite (moodScore0_table data' Hnone).
      apply clampRound_integer, spec_inferScore_range.
      repeat constructor; simpl; lia.
    + rewrite (energyLevel0_table data' Hnone).
      apply clampRound_integer, spec_inferScore_range.
      repeat constructor; simpl; lia.
    + rewrite (productivityScore0_table data' Hnone).
      apply clampRound_integer, spec_inferScore_range.
      repeat constructor; simpl; lia.
  - intros SC st st' d a Hsave.
    apply saveLogEntry_saved in Hsave as (_ & _ & _ & _ & _ & _ & Hlogs).
    eexists. split; [exact Hlogs|]. exact (Hscores d a).
Qed.

(** ** Taxonomy resolver *)

Lemma take1_nil {A} (l : list A) : take 1 l = [] -> l = [].
Proof. destruct l; [reflexivity|discriminate]. Qed.

Lemma find_name_none (n : string) (rows : list DomainRow.t) :
  List.find (fun r => String.eqb (DomainRow.name r) n) rows = None
  <-> ~ In n (List.map DomainRow.name rows).
Proof.
  split.
  - intros Hnone Hin. apply in_map_iff in Hin as (r & Hname & Hr).
    apply (find_none _ _ Hnone) in Hr. rewrite Hname, String.eqb_refl in Hr.
    discriminate.
  - intros Hnin. destruct (List.find _ rows) as [row|] eqn:Hf; [|reflexivity].
    apply find_In_true in Hf as [Hin Hname]. apply String.eqb_eq in Hname.
    destruct Hnin. apply in_map_iff. eauto.
Qed.

(** *** Strings of ASCII code units *)

Lemma isAscii_trimStart (s : string) :
  JS.isAscii s = true -> JS.isAscii (JS.trimStart s) = true.
Proof.
  induction s as [|c r IH]; simpl; [auto|].
  intros H. destruct (JS.isWhite c); [|exact H].
  apply andb_true_iff in H as [_ Hr]. auto.
Qed.

Lemma isAscii_trimEnd (s : string) :
  JS.isAscii s = true -> JS.isAscii (JS.trimEnd s) = true.
Proof.
  induction s as [|c r IH]; simpl; [auto|].
  intros H. apply andb_true_iff in H as [Hc Hr]. specialize (IH Hr).
  destruct (JS.trimEnd r) as [|c' r'].
  - destruct (JS.isWhite c); simpl; [reflexivity|]. rewrite Hc. reflexivity.
  - change (JS.isAsciiChar c && JS.isAscii (String c' r') = true).
    rewrite Hc, IH. reflexivity.
Qed.

Lemma isAscii_trimAscii (s : string) :
  JS.isAscii s = true -> JS.isAscii (JS.trimAscii s) = true.
Proof. intros H. apply isAscii_trimEnd, isAscii_trimStart, H. Qed.

Lemma isAscii_charAt0 (s : string) :
  JS.isAscii s = true -> JS.isAscii (JS.charAt0 s) = true.
Proof.
  destruct s as [|c r]; simpl; [auto|].
  intros H. apply andb_true_iff in H as [-> _]. reflexivity.
Qed.

Lemma isAscii_slice1 (s : string) :
  JS.isAscii s = true -> JS.isAscii (JS.slice1 s) = true.
Proof.
  destruct s as [|c r]; simpl; [auto|].
  intros H. apply andb_true_iff in H as [_ Hr]. exact Hr.
Qed.

Lemma upper_W_lower_w (c : ascii) :
  JS.upperChar c = "W"%char -> JS.lowerChar c = "w"%char.
Proof.
  destruct c as [[] [] [] [] [] [] [] []]; vm_compute; intros H;
    solve [reflexivity | discriminate H].
Qed.

Lemma capitalized_Work_ascii (d : string) :
  capitalized (SM := asciiStrings) d = "Work" ->
  JS.toLowerCase (JS.trimAscii d) = "work".
Proof.
  unfold capitalized. cbn [trim toUpperCase toLowerCase asciiStrings].
  destruct (JS.trimAscii d) as [|c r]; [discriminate|].
  simpl. intros H. injection H as Hc Hr.
  change (JS.toLowerCase r = "ork") in Hr.
  change (String (JS.lowerChar c) (JS.toLowerCase r) = "work").
  rewrite Hr, (upper_W_lower_w c Hc). reflexivity.
Qed.

Section Taxonomy.

Context {SM : StringMethods}.

(** On a name of ASCII code units the canonical form and the key of the
    colour table are those of the ASCII methods. *)
Lemma names_ascii (d : string) :
  JS.isAscii d = true ->
  capitalized d = capitalized (SM := asciiStrings) d
  /\ toLowerCase (trim d) = JS.toLowerCase (JS.trimAscii d).
Proof.
  intros Hd. unfold capitalized. cbn [trim toUpperCase toLowerCase asciiStrings].
  pose proof (isAscii_trimAscii d Hd) as Ht.
  rewrite (trim_ascii d Hd).
  rewrite (toUpperCase_ascii _ (isAscii_charAt0 _ Ht)).
  rewrite (toLowerCase_ascii _ (isAscii_slice1 _ Ht)).
  rewrite (toLowerCase_ascii _ Ht). auto.
Qed.

Lemma capitalized_WORK :
  capitalized "  WORK " = "Work" /\ toLowerCase (trim "  WORK ") = "work".
Proof.
  destruct (names_ascii "  WORK " eq_refl) as [-> ->]. split; reflexivity.
Qed.

Lemma capitalized_proto :
  capitalized "__proto__" = "__proto__"
  /\ toLowerCase (trim "__proto__") = "__proto__".
Proof.
  destruct (names_ascii "__proto__" eq_refl) as [-> ->]. split; reflexivity.
Qed.

Context {SC : Storage}.

(** When [getOrCreateDomain] returns an id, the lookup was accepted, and the
    id is that of a row of the canonical name: the first one that the table
    had, or, when it had none, a new row. *)
Lemma getOrCreateDomain_row (d : string) (st : Store) (i : Z) :
  fst (getOrCreateDomain d st) = Returned i ->
  accepts (SelectDomain (capitalized d)) = true
  /\ exists row,
       In row (domains (snd (getOrCreateDomain d st)))
       /\ DomainRow.id row = i
       /\ DomainRow.name row = capitalized d
       /\ (forall row', List.find (fun r => String.eqb (DomainRow.name r) (capitalized d))
                          (domains st) = Some row' ->
                        row = row'
                        /\ getOrCreateDomain d st
                           = (Returned i, send (Select "domains") st))
       /\ (~ In (capitalized d) (List.map DomainRow.name (domains st)) ->
           i = domainSeq st
           /\ DomainRow.color row = Some (domainColorOf (toLowerCase (trim d)))
           /\ DomainRow.isActive row = Some true
           /\ domains (snd (getOrCreateDomain d st)) = (domains st ++ [row])%list).
Proof.
  rewrite getOrCreateDomain_store.
  destruct (accepts (SelectDomain (capitalized d))); [|discriminate].
  destruct (List.find _ (domains st)) as [row|] eqn:Hf.
  - simpl. intros [= <-]. split; [reflexivity|].
    pose proof Hf as Hfind.
    apply find_In_true in Hf as [Hin Hname]. apply String.eqb_eq in Hname.
    exists row. split; [exact Hin|]. split; [reflexivity|]. split; [exact Hname|].
    split; [intros row' [= <-]; auto|].
    intros Habsent. apply find_name_none in Habsent. congruence.
  - destruct (sendable _); [|discriminate].
    destruct (accepts (InsertDomain _ _)); [|discriminate].
    simpl. intros [= <-]. split; [reflexivity|].
    eexists. split; [apply in_or_app; right; left; reflexivity|].
    simpl. split; [reflexivity|]. split; [reflexivity|].
    split; [discriminate|]. intros _. repeat split; reflexivity.
Qed.

Lemma getOrCreateDomain_colored (n : string) (c : ColorValue) (d : string) (st : Store) :
  (capitalized d = n -> domainColorOf (toLowerCase (trim d)) = c) ->
  domainColored n c st ->
  domainColored n c (snd (getOrCreateDomain d st)).
Proof.
  intros Hpreset Hcol.
  rewrite getOrCreateDomain_store. resolver_cases; simpl; try exact Hcol.
  unfold domainColored. simpl. intros r Hin Hname.
  apply in_app_or in Hin as [Hin|[Hin|[]]]; [apply Hcol; assumption|].
  subst r. simpl in *. rewrite Hpreset; auto.
Qed.

Lemma uniqueDomainNames_getOrCreateDomain (d : string) (st : Store) :
  uniqueDomainNames st -> uniqueDomainNames (snd (getOrCreateDomain d st)).
Proof.
  intros Huniq.
  rewrite getOrCreateDomain_store. resolver_cases; simpl; try exact Huniq.
  unfold uniqueDomainNames. simpl. rewrite List.map_app. simpl.
  apply NoDup_ListNoDup, NoDup_app. split; [apply NoDup_ListNoDup, Huniq|].
  split; [|apply NoDup_singleton].
  intros n Hn Hn'. apply list_elem_of_In in Hn.
  apply list_elem_of_In in Hn' as [<-|[]].
  match goal with H : List.find _ _ = None |- _ => apply find_name_none in H end.
  contradiction.
Qed.

(** Two rows of the same name, in a table with one row per name, are the
    same row. *)
Lemma same_name_same_row (l : list DomainRow.t) (x y : DomainRow.t) :
  List.NoDup (List.map DomainRow.name l) -> In x l -> In y l ->
  DomainRow.name x = DomainRow.name y -> x = y.
Proof.
  induction l as [|z l IH]; simpl; [intros _ []|].
  intros Hnd Hx Hy Hxy. apply List.NoDup_cons_iff in Hnd as [Hz Hnd].
  destruct Hx as [->|Hx], Hy as [->|Hy]; auto.
  - destruct Hz. rewrite Hxy. apply in_map, Hy.
  - destruct Hz. rewrite <- Hxy. apply in_map, Hx.
Qed.

End Taxonomy.

(** C3. The input on which [getOrCreateDomain] breaks the claim.  The key
    that "__proto__" gives for the colour table is "__proto__", which the
    object literal [domainColors] inherits: the colour is [Object.prototype],
    which cannot be sent.  So, in a store without a domain of that name,
    [getOrCreateDomain] of "__proto__" throws after its lookup, returns no
    id and writes no row, the first time and every time after, whatever
    the storage collaborator accepts; a payload classified under that domain
    makes [saveLogEntry] answer [{success: false}] with nothing stored.
    The name "constructor", which the object literal inherits too, resolves
    to a new row. *)
Theorem getOrCreateDomain_proto_throws :
  (forall (SM : StringMethods) (SC : Storage) (st : Store),
      ~ In "__proto__" (List.map DomainRow.name (domains st)) ->
      capitalized "__proto__" = "__proto__"
      /\ domainColorOf (toLowerCase (trim "__proto__")) = Inherited "__proto__"
      /\ getOrCreateDomain "__proto__" st = (Threw, send (Select "domains") st)
      /\ getOrCreateDomain "__proto__" (snd (getOrCreateDomain "__proto__" st))
         = (Threw, send (Select "domains") (send (Select "domains") st))
      /\ (forall data : IncomingLogData.t,
            domainName data = "__proto__" ->
            saveLogEntry data st
            = (Failed "Database rejected the log", send (Select "domains") st)))
  /\ fst (getOrCreateDomain (SM := asciiStrings) (SC := lenientStorage)
            "__proto__" emptyStore) = Threw
  /\ domains (snd (getOrCreateDomain (SM := asciiStrings) (SC := lenientStorage)
                     "__proto__" emptyStore)) = []
  /\ fst (saveLogEntry (SM := asciiStrings) (SC := lenientStorage)
            (classifiedPayload "note" (Some "__proto__") None) emptyStore)
     = Failed "Database rejected the log"
  /\ logs (snd (saveLogEntry (SM := asciiStrings) (SC := lenientStorage)
                  (classifiedPayload "note" (Some "__proto__") None) emptyStore))
     = []
  /\ fst (getOrCreateDomain (SM := asciiStrings) (SC := lenientStorage)
            "constructor" emptyStore)
     = Returned 1.
Proof.
  split; [|vm_compute; auto 10].
  intros SM SC st Habsent.
  destruct (@capitalized_proto SM) as [Hcap Hkey].
  assert (Hthrow : forall st0 : Store,
             domains st0 = domains st ->
             getOrCreateDomain "__proto__" st0 = (Threw, send (Select "domains") st0)).
  { intros st0 Hdom. rewrite getOrCreateDomain_store, Hcap, Hkey, Hdom.
    apply find_name_none in Habsent. rewrite Habsent.
    destruct (accepts (SelectDomain "__proto__")); reflexivity. }
  split; [exact Hcap|]. split; [rewrite Hkey; reflexivity|].
  split; [apply Hthrow; reflexivity|].
  split; [rewrite (Hthrow st eq_refl); apply Hthrow; reflexivity|].
  intros data Hname.
  pose proof (saveLogEntry_steps data st) as Hsteps. cbv zeta in Hsteps.
  rewrite Hname, (Hthrow st eq_refl) in Hsteps. exact Hsteps.
Qed.

(** X24. [getOrCreateDomain] looks up and inserts under the canonical form
    of its argument.  From a store with at most one row per name, when the
    resolver returns an id for a string, it returns the same id for every
    string of the same canonical form (the second call writes nothing, and
    the store still has at most one row per name).  When the storage
    collaborator accepts its statements, it returns an id unless no row has
    the canonical name and the key of the colour table is "__proto__".
    "  WORK " has the canonical form "Work"; when resolving it returns an
    id, that is the id of a row named "Work", which has the colour
    "#3B82F6" when it is created by this call, and when every earlier row
    named "Work" has it, which every call of the resolver on a name of
    ASCII code units preserves. *)
Theorem getOrCreateDomain_same_form_same_id {SM : StringMethods} {SC : Storage}
    (st : Store) (d1 d2 : string)
    (Huniq : uniqueDomainNames st) (Hcanon : capitalized d1 = capitalized d2) :
  (forall i : Z,
      fst (getOrCreateDomain d1 st) = Returned i ->
      let st1 := snd (getOrCreateDomain d1 st) in
      getOrCreateDomain d2 st1 = (Returned i, send (Select "domains") st1)
      /\ uniqueDomainNames st1
      /\ exists row, In row (domains st1)
                     /\ DomainRow.id row = i
                     /\ DomainRow.name row = capitalized d1)
  /\ (accepts (SelectDomain (capitalized d1)) = true ->
      accepts (InsertDomain (capitalized d1)
                 (Some (domainColorOf (toLowerCase (trim d1))))) = true ->
      (fst (getOrCreateDomain d1 st) = Threw
       <-> ~ In (capitalized d1) (List.map DomainRow.name (domains st))
           /\ toLowerCase (trim d1) = "__proto__"))
  /\ capitalized "  WORK " = "Work"
  /\ (forall (st0 : Store) (i : Z),
        fst (getOrCreateDomain "  WORK " st0) = Returned i ->
        exists row,
          In row (domains (snd (getOrCreateDomain "  WORK " st0)))
          /\ DomainRow.id row = i
          /\ DomainRow.name row = "Work"
          /\ (~ In "Work" (List.map DomainRow.name (domains st0))
              \/ domainColored "Work" (Hex "#3B82F6") st0 ->
              DomainRow.color row = Some (Hex "#3B82F6")))
  /\ (forall st0 : Store,
        accepts (SelectDomain "Work") = true ->
        accepts (InsertDomain "Work" (Some (Hex "#3B82F6"))) = true ->
        exists i, fst (getOrCreateDomain "  WORK " st0) = Returned i)
  /\ (forall (d : string) (st0 : Store),
        JS.isAscii d = true ->
        domainColored "Work" (Hex "#3B82F6") st0 ->
        domainColored "Work" (Hex "#3B82F6") (snd (getOrCreateDomain d st0))).
Proof.
  destruct capitalized_WORK as [HWork Hwork].
  split; [|split; [|split; [exact HWork|split; [|split]]]].
  - intros i Hres. cbv zeta.
    destruct (getOrCreateDomain_row d1 st i Hres)
      as (Hacc & row1 & Hin1 & Hid1 & Hname1 & _).
    set (st1 := snd (getOrCreateDomain d1 st)) in *.
    assert (Hu1 : uniqueDomainNames st1)
      by (apply uniqueDomainNames_getOrCreateDomain, Huniq).
    assert (Hfind : List.find (fun r => String.eqb (DomainRow.name r) (capitalized d2))
                      (domains st1) = Some row1).
    { destruct (List.find _ (domains st1)) as [row|] eqn:Hf.
      - apply find_In_true in Hf as [Hin Hname]. apply String.eqb_eq in Hname.
        f_equal. apply (same_name_same_row (domains st1)); auto. congruence.
      - apply find_name_none in Hf. destruct Hf. rewrite <- Hcanon, <- Hname1.
        apply in_map, Hin1. }
    split; [|split; [exact Hu1|exists row1; auto]].
    rewrite getOrCreateDomain_store, <- Hcanon, Hacc.
    rewrite Hcanon, Hfind, Hid1. reflexivity.
  - intros Hsel Hins. rewrite getOrCreateDomain_store, Hsel.
    destruct (List.find _ (domains st)) as [row|] eqn:Hf.
    + simpl. split; [discriminate|]. intros [Habsent _].
      apply find_name_none in Habsent. congruence.
    + destruct (sendable _) eqn:Hs.
      * rewrite Hins. simpl. split; [discriminate|]. intros [_ He].
        apply sendable_domainColorOf in He. congruence.
      * simpl. split; [|reflexivity]. intros _.
        split; [apply find_name_none, Hf|apply sendable_domainColorOf, Hs].
  - intros st0 i Hres.
    destruct (getOrCreateDomain_row "  WORK " st0 i Hres)
      as (_ & row & Hin & Hid & Hname & Hfound & Hnew).
    rewrite HWork in Hname, Hnew.
    exists row. split; [exact Hin|]. split; [exact Hid|]. split; [exact Hname|].
    intros [Habsent|Hcol].
    + apply Hnew in Habsent as (_ & Hc & _). rewrite Hc, Hwork. reflexivity.
    + assert (Hcol' : domainColored "Work" (Hex "#3B82F6")
                        (snd (getOrCreateDomain "  WORK " st0))).
      { apply getOrCreateDomain_colored; [|exact Hcol].
        intros _. rewrite Hwork. reflexivity. }
      apply Hcol'; assumption.
  - intros st0 Hsel Hins. rewrite getOrCreateDomain_store, HWork, Hwork, Hsel.
    change (domainColorOf "work") with (Hex "#3B82F6"). rewrite Hins. simpl.
    destruct (List.find _ (domains st0)); eexists; reflexivity.
  - intros d st0 Hd Hcol. apply getOrCreateDomain_colored; [|exact Hcol].
    destruct (names_ascii d Hd) as [-> ->].
    intros Hw. rewrite (capitalized_Work_ascii d Hw). reflexivity.
Qed.

(** ** Recency fetch *)

#[global] Instance newerFirst_total : Total newerFirst.
Proof.
  intros r1 r2. unfold newerFirst, laterOrEqual.
  destruct (LogRow.createdAt r1) as [x|], (LogRow.createdAt r2) as [y|]; auto.
  destruct (Z.leb_spec y x); [left; reflexivity|right; apply Z.leb_le; lia].
Qed.

Lemma Sorted_toLogEntry (st : Store) (rows : list LogRow.t) :
  Sorted newerFirst rows -> Sorted entriesNewerFirst (List.map (toLogEntry st) rows).
Proof.
  induction 1 as [|r rows Hs IH Hhd]; simpl; constructor; [exact IH|].
  destruct Hhd; simpl; constructor. assumption.
Qed.





(** ** Keyword search *)

Lemma filter_short_nil (ws : list string) :
  Forall (fun w => (String.length w <= 3)%nat) ws ->
  List.filter (fun w => (3 <? String.length w)%nat) ws = [].
Proof.
  induction 1 as [|w ws Hw _ IH]; [reflexivity|]. simpl.
  destruct (Nat.ltb_spec 3 (String.length w)); [lia|exact IH].
Qed.

Lemma join_truthy (sep w : string) (ws : list string) :
  JS.truthyStr w = true -> JS.truthyStr (JS.join sep (w :: ws)) = true.
Proof.
  intros Hw. destruct w as [|c w]; [discriminate|].
  simpl. destruct ws; reflexivity.
Qed.

Lemma searchTerms_truthy (userQuery : string) :
  Exists (fun w => (3 < String.length w)%nat) (JS.splitSpace userQuery) ->
  JS.truthyStr (searchTerms userQuery) = true.
Proof.
  intros Hex. unfold searchTerms.
  destruct (List.filter _ (JS.splitSpace userQuery)) as [|w ws] eqn:Hf.
  - apply List.Exists_exists in Hex as (w & Hin & Hlen).
    assert (Hw : In w (List.filter (fun w => (3 <? String.length w)%nat)
                         (JS.splitSpace userQuery))).
    { apply filter_In. split; [exact Hin|]. apply Nat.ltb_lt, Hlen. }
    rewrite Hf in Hw. destruct Hw.
  - apply join_truthy.
    assert (Hw : In w (List.filter (fun w => (3 <? String.length w)%nat)
                         (JS.splitSpace userQuery))) by (rewrite Hf; left; reflexivity).
    apply filter_In in Hw as [_ Hlen]. apply Nat.ltb_lt in Hlen.
    destruct w; [simpl in Hlen; lia|reflexivity].
Qed.

(** As the specification has it, [getRelatedLogs "hi there"] would send nothing;
    the token "there" has five characters and survives the filter, so one
    statement reaches the store. *)
Lemma getRelatedLogs_hi_there_queries :
  JS.splitSpace "hi there" = ["hi"; "there"]
  /\ searchTerms "hi there" = "there"
  /\ issued (snd (getRelatedLogs string plainQuery plainMatches "hi there" emptyStore))
     = [Select "logs"]
  /\ getRelatedLogs string plainQuery plainMatches "hi there" emptyStore
     <> ([], emptyStore).
Proof. vm_compute. repeat split; auto. discriminate. Qed.

(** C5 (amended). When no token of the query, cut at the spaces, has more
    than three characters, as in "hi the", [getRelatedLogs] returns the empty
    list and leaves the store as it was, no statement sent, whatever the
    store and the text search are.  When a token has more than three
    characters, as "there" in "hi there", one statement is sent. *)
Theorem getRelatedLogs_no_token_no_query
    (tsquery : Type) (to_tsquery : string -> option tsquery)
    (matches : string -> tsquery -> bool) (userQuery : string) (st : Store)
    (Hshort : Forall (fun w => (String.length w <= 3)%nat) (JS.splitSpace userQuery)) :
  getRelatedLogs tsquery to_tsquery matches userQuery st = ([], st)
  /\ getRelatedLogs tsquery to_tsquery matches "hi the" st = ([], st)
  /\ (forall q : string,
        Exists (fun w => (3 < String.length w)%nat) (JS.splitSpace q) ->
        snd (getRelatedLogs tsquery to_tsquery matches q st)
        = send (Select "logs") st)
  /\ snd (getRelatedLogs tsquery to_tsquery matches "hi there" st)
     = send (Select "logs") st.
Proof.
  assert (Hlong : forall q : string,
            Exists (fun w => (3 < String.length w)%nat) (JS.splitSpace q) ->
            snd (getRelatedLogs tsquery to_tsquery matches q st)
            = send (Select "logs") st).
  { intros q Hex. unfold getRelatedLogs.
    rewrite (searchTerms_truthy q Hex). simpl.
    destruct (to_tsquery (searchTerms q)); reflexivity. }
  split; [|split; [reflexivity|split; [exact Hlong|]]].
  - unfold getRelatedLogs, searchTerms.
    rewrite (filter_short_nil _ Hshort). reflexivity.
  - apply Hlong. apply List.Exists_exists. exists "there".
    split; [right; left; reflexivity|simpl; lia].
Qed.

(** ** Metadata assembly *)

Lemma hasKeys_insert (k : string) (v : jsval) (o : jsobj) :
  hasKeys (<[k := v]> o) = true.
Proof.
  unfold hasKeys. apply negb_true_iff, Nat.eqb_neq.
  intros Hsize. apply map_size_empty_iff in Hsize.
  exact (insert_non_empty _ _ _ Hsize).
Qed.

Lemma hasKeys_empty : hasKeys ∅ = false.
Proof. reflexivity. Qed.

Lemma hasKeys_false (o : jsobj) : hasKeys o = false -> o = ∅.
Proof.
  unfold hasKeys. intros H. apply negb_false_iff, Nat.eqb_eq in H.
  apply map_size_empty_iff, H.
Qed.

(** The shape of the assembled object. *)
Lemma assembledMetadata_shape (data : IncomingLogData.t) :
  assembledMetadata data
  = if buildsMetadata data
    then Some (attachContext data
                 (<["aiPriority" := VStr (aiPriorityOf data)]>
                    (<["aiAction" := VStr (aiActionOf data)]> (metadataBase data))))
    else None.
Proof.
  unfold assembledMetadata, buildsMetadata, metadataBase.
  destruct (IncomingLogData.metadata data) as [m|]; simpl.
  - destruct (hasKeys m); simpl; [reflexivity|].
    destruct (JS.present _ || JS.present _); reflexivity.
  - destruct (JS.present _ || JS.present _); reflexivity.
Qed.

Lemma attachContext_hasKeys (data : IncomingLogData.t) (o : jsobj) :
  hasKeys o = true -> hasKeys (attachContext data o) = true.
Proof.
  intros Ho. unfold attachContext.
  destruct (IncomingLogData.context data) as [c|]; [|exact Ho].
  destruct (hasKeys c); [apply hasKeys_insert|exact Ho].
Qed.

(** As the specification has it, every payload would get [aiAction] and
    [aiPriority]; for the payload that supplies nothing no object is
    assembled and the metadata of the record is null; the object assembled
    for a payload whose own metadata has the key [aiContext] keeps that key
    although there is no context; and an action whose name is the empty
    string gets "acknowledge", not that name. *)
Lemma assembledMetadata_absent_for_empty_payload :
  assembledMetadata emptyPayload = None
  /\ InsertData.metadata (insertData (SM := asciiStrings) emptyPayload 1 1) = None
  /\ IncomingLogData.context ownContextPayload = None
  /\ (exists o, assembledMetadata ownContextPayload = Some o
                /\ o !! "aiContext" = Some (VStr "mine"))
  /\ IncomingLogData.action blankActionPayload ≫= IncomingLogData.action_
     = Some EmptyString
  /\ (exists o, assembledMetadata blankActionPayload = Some o
                /\ o !! "aiAction" = Some (VStr "acknowledge")).
Proof.
  split; [reflexivity|split; [reflexivity|split; [reflexivity|split;
    [|split; [reflexivity|]]]]].
  - eexists. split; [reflexivity|]. by simplify_map_eq.
  - eexists. split; [reflexivity|]. by simplify_map_eq.
Qed.

Lemma aiActionOf_cases (data : IncomingLogData.t) :
  (forall a s, IncomingLogData.action data = Some a ->
               IncomingLogData.action_ a = Some s -> s <> EmptyString -> aiActionOf data = s)
  /\ (forall a, IncomingLogData.action data = Some a ->
                IncomingLogData.action_ a = None \/ IncomingLogData.action_ a = Some EmptyString ->
                aiActionOf data = "acknowledge")
  /\ (IncomingLogData.action data = None -> aiActionOf data = "acknowledge").
Proof.
  unfold aiActionOf. split; [|split].
  - intros a s -> Hs Hne. simpl. rewrite Hs. destruct s; [congruence|reflexivity].
  - intros a -> [Hs|Hs]; simpl; rewrite Hs; reflexivity.
  - intros ->. reflexivity.
Qed.

Lemma aiPriorityOf_cases (data : IncomingLogData.t) :
  (forall a s, IncomingLogData.action data = Some a ->
               IncomingLogData.priority a = Some s -> s <> EmptyString -> aiPriorityOf data = s)
  /\ (forall a, IncomingLogData.action data = Some a ->
                IncomingLogData.priority a = None
                \/ IncomingLogData.priority a = Some EmptyString ->
                aiPriorityOf data = "medium")
  /\ (IncomingLogData.action data = None -> aiPriorityOf data = "medium").
Proof.
  unfold aiPriorityOf. split; [|split].
  - intros a s -> Hs Hne. simpl. rewrite Hs. destruct s; [congruence|reflexivity].
  - intros a -> [Hs|Hs]; simpl; rewrite Hs; reflexivity.
  - intros ->. reflexivity.
Qed.

(** The metadata of the record that is handed to the store. *)
Lemma insertData_metadata {SM : StringMethods} (data : IncomingLogData.t) (d a : Z) :
  InsertData.metadata (insertData data d a)
  = if buildsMetadata data
    then Some (attachContext data
                 (<["aiPriority" := VStr (aiPriorityOf data)]>
                    (<["aiAction" := VStr (aiActionOf data)]> (metadataBase data))))
    else None.
Proof.
  simpl. rewrite assembledMetadata_shape.
  destruct (buildsMetadata data); [|reflexivity].
  unfold storedMetadata.
  rewrite attachContext_hasKeys; [reflexivity|apply hasKeys_insert].
Qed.

(** C6 (amended). When the payload has a metadata object with a key, or an
    action, or a context (even an empty one), the assembled metadata has
    [aiAction] (the action's [action] when it is a non-empty string, else
    "acknowledge": when there is no action, when the action has no [action]
    and when that is the empty string) and [aiPriority] (the action's
    [priority] when it is a non-empty string, else "medium", in the same
    three cases); [aiContext] is set to the context when the context has a
    key, and is otherwise left as the payload's own metadata has it; the
    other keys are those of the payload's metadata; the object is the
    metadata of the record handed to the store.  For every other payload no
    object is assembled and the metadata of the record is null. *)
Theorem assembledMetadata_analysis_keys (data : IncomingLogData.t)
    (Hbuilds : buildsMetadata data = true) :
  (exists o,
      assembledMetadata data = Some o
      /\ o !! "aiAction" = Some (VStr (aiActionOf data))
      /\ o !! "aiPriority" = Some (VStr (aiPriorityOf data))
      /\ (forall c, IncomingLogData.context data = Some c -> hasKeys c = true ->
                    o !! "aiContext" = Some (VObj c))
      /\ (IncomingLogData.context data = None
          \/ IncomingLogData.context data = Some ∅ ->
          o !! "aiContext" = metadataBase data !! "aiContext")
      /\ (forall k, k <> "aiAction" -> k <> "aiPriority" -> k <> "aiContext" ->
                    o !! k = metadataBase data !! k)
      /\ (forall (SM : StringMethods) (domainId activityId : Z),
            InsertData.metadata (insertData data domainId activityId) = Some o))
  /\ (forall a s, IncomingLogData.action data = Some a ->
                  IncomingLogData.action_ a = Some s -> s <> EmptyString -> aiActionOf data = s)
  /\ (forall a, IncomingLogData.action data = Some a ->
                IncomingLogData.action_ a = None
                \/ IncomingLogData.action_ a = Some EmptyString ->
                aiActionOf data = "acknowledge")
  /\ (IncomingLogData.action data = None -> aiActionOf data = "acknowledge")
  /\ (forall a s, IncomingLogData.action data = Some a ->
                  IncomingLogData.priority a = Some s -> s <> EmptyString -> aiPriorityOf data = s)
  /\ (forall a, IncomingLogData.action data = Some a ->
                IncomingLogData.priority a = None
                \/ IncomingLogData.priority a = Some EmptyString ->
                aiPriorityOf data = "medium")
  /\ (IncomingLogData.action data = None -> aiPriorityOf data = "medium")
  /\ (forall data',
        buildsMetadata data' = false ->
        assembledMetadata data' = None
        /\ forall (SM : StringMethods) (domainId activityId : Z),
             InsertData.metadata (insertData data' domainId activityId) = None).
Proof.
  split; [|split; [apply aiActionOf_cases|split; [apply aiActionOf_cases|
           split; [apply aiActionOf_cases|split; [apply aiPriorityOf_cases|
           split; [apply aiPriorityOf_cases|split; [apply aiPriorityOf_cases|]]]]]]].
  - eexists. rewrite assembledMetadata_shape, Hbuilds. split; [reflexivity|].
    unfold attachContext.
    split; [|split; [|split; [|split; [|split]]]].
    + destruct (IncomingLogData.context data) as [c|]; [destruct (hasKeys c)|];
        by simplify_map_eq.
    + destruct (IncomingLogData.context data) as [c|]; [destruct (hasKeys c)|];
        by simplify_map_eq.
    + intros c -> ->. by simplify_map_eq.
    + intros [->| ->]; [|rewrite hasKeys_empty]; by simplify_map_eq.
    + intros k Ha Hp Hc.
      destruct (IncomingLogData.context data) as [c|]; [destruct (hasKeys c)|];
        by simplify_map_eq.
    + intros SM d a. rewrite insertData_metadata, Hbuilds. reflexivity.
  - intros data' Hno. split.
    + rewrite assembledMetadata_shape, Hno. reflexivity.
    + intros SM d a. rewrite insertData_metadata, Hno. reflexivity.
Qed.

(** C7. The metadata of the record handed to the store is [storedMetadata]
    of the assembled object: null when there is none, and null for an
    object without key, never the empty object.  For a payload whose
    metadata is the empty object and that has neither action nor context,
    it is null.  Whenever [saveLogEntry] reports success, the row it has
    appended has no metadata when the record has none, and never the empty
    object. *)
Theorem metadata_never_stored_empty {SM : StringMethods} (data : IncomingLogData.t)
    (Hmeta : IncomingLogData.metadata data = Some ∅)
    (Haction : IncomingLogData.action data = None)
    (Hcontext : IncomingLogData.context data = None) :
  (forall domainId activityId : Z,
      InsertData.metadata (insertData data domainId activityId) = None)
  /\ (forall o : jsobj, size o = 0%nat -> storedMetadata (Some o) = None)
  /\ storedMetadata None = None
  /\ (forall (data' : IncomingLogData.t) (domainId activityId : Z),
        let v := insertData data' domainId activityId in
        InsertData.metadata v = storedMetadata (assembledMetadata data')
        /\ InsertData.metadata v <> Some ∅
        /\ (forall o, InsertData.metadata v = Some o -> (0 < size o)%nat)
        /\ (assembledMetadata data' = None -> InsertData.metadata v = None))
  /\ (forall (SC : Storage) (data' : IncomingLogData.t) (st st' : Store)
             (domainId activityId : Z),
        saveLogEntry data' st = (Saved domainId activityId, st') ->
        exists row,
          logs st' = (logs st ++ [row])%list
          /\ (storedMetadata (assembledMetadata data') = None ->
              InsertData.metadata (LogRow.values row) = None)
          /\ InsertData.metadata (LogRow.values row) <> Some ∅).
Proof.
  assert (Hguard : forall o : jsobj, size o = 0%nat -> storedMetadata (Some o) = None).
  { intros o Ho. unfold storedMetadata, hasKeys. rewrite Ho. reflexivity. }
  assert (Hpos : forall m o, storedMetadata m = Some o -> (0 < size o)%nat).
  { intros [m|] o; unfold storedMetadata; [|discriminate].
    destruct (hasKeys m) eqn:Hk; [|discriminate].
    intros [= <-]. unfold hasKeys in Hk.
    apply negb_true_iff, Nat.eqb_neq in Hk. lia. }
  assert (Hne : forall m, storedMetadata m <> Some ∅).
  { intros m Hempty. apply Hpos in Hempty. rewrite map_size_empty in Hempty. lia. }
  split; [|split; [exact Hguard|split; [reflexivity|split]]].
  - intros d a. simpl.
    unfold assembledMetadata. rewrite Hmeta, Haction, Hcontext. reflexivity.
  - intros data' d a. cbv zeta. simpl.
    split; [reflexivity|]. split; [apply Hne|]. split.
    + intros o Ho. exact (Hpos _ _ Ho).
    + intros ->. reflexivity.
  - intros SC data' st st' d a Hsave.
    apply saveLogEntry_saved in Hsave as (_ & _ & _ & _ & _ & _ & Hlogs).
    eexists. split; [exact Hlogs|]. simpl. split; [auto|apply Hne].
Qed.

(** ** Optional fields *)

Lemma positive_iff (x : Q) : positive x = true <-> (0 < x)%Q.
Proof.
  unfold positive. rewrite negb_true_iff. split.
  - intros H. apply Qnot_le_lt. intros Hle.
    apply Qle_bool_iff in Hle. congruence.
  - intros Hlt. destruct (Qle_bool x 0) eqn:Hb; [|reflexivity].
    apply Qle_bool_iff in Hb. exfalso. exact (Qlt_not_le _ _ Hlt Hb).
Qed.

Lemma positive_false_iff (x : Q) : positive x = false <-> (x <= 0)%Q.
Proof.
  unfold positive. rewrite negb_false_iff. apply Qle_bool_iff.
Qed.

Lemma arrayIncludes_In (a : list string) (x : string) :
  JS.arrayIncludes a x = true <-> In x a.
Proof.
  unfold JS.arrayIncludes. rewrite existsb_exists. split.
  - intros (y & Hin & Heq). apply String.eqb_eq in Heq. subst. exact Hin.
  - intros Hin. exists x. split; [exact Hin|apply String.eqb_refl].
Qed.

Section Optional.

Context {SM : StringMethods}.

Lemma trim_empty : trim EmptyString = EmptyString.
Proof. rewrite trim_ascii; reflexivity. Qed.

Lemma toLowerCase_empty : toLowerCase EmptyString = EmptyString.
Proof. rewrite toLowerCase_ascii; reflexivity. Qed.

Lemma toUpperCase_empty : toUpperCase EmptyString = EmptyString.
Proof. rewrite toUpperCase_ascii; reflexivity. Qed.

Lemma truthy_and_not_blank (c : string) :
  JS.truthyStr c && negb (String.eqb (trim c) EmptyString)
  = negb (String.eqb (trim c) EmptyString).
Proof. destruct c; [rewrite trim_empty|]; reflexivity. Qed.

(** The currency column of [insertData], in terms of [currencyOf]. *)
Lemma insertData_currency (data : IncomingLogData.t) (d a : Z) :
  InsertData.currency (insertData data d a)
  = match IncomingLogData.amount data with
    | Some x => if positive x then Some (currencyOf (IncomingLogData.currency data))
                else None
    | None => None
    end.
Proof.
  simpl. destruct (IncomingLogData.amount data) as [x|]; [|reflexivity].
  destruct (positive x); [|reflexivity].
  unfold currencyOf. destruct (IncomingLogData.currency data) as [c|]; [|reflexivity].
  rewrite truthy_and_not_blank. destruct (String.eqb (trim c) EmptyString); reflexivity.
Qed.

Lemma currencyOf_examples :
  currencyOf None = "INR" /\ currencyOf (Some EmptyString) = "INR"
  /\ currencyOf (Some "  ") = "INR" /\ currencyOf (Some "usd") = "USD".
Proof.
  unfold currencyOf.
  rewrite (trim_ascii EmptyString), (trim_ascii "  "), (trim_ascii "usd"),
    (toUpperCase_ascii "usd") by reflexivity.
  repeat split.
Qed.

(** An enum column keeps the lowercased value exactly when that lowercasing
    is one of the valid values. *)
Lemma enumColumn_spec (valid : list string) (v : option string) :
  ~ In EmptyString valid ->
  (forall s, v = Some s -> In (toLowerCase s) valid ->
             enumColumn valid v = Some (toLowerCase s))
  /\ (forall s, v = Some s -> ~ In (toLowerCase s) valid ->
                enumColumn valid v = None)
  /\ (v = None -> enumColumn valid v = None).
Proof.
  intros Hne. split; [|split].
  - intros s -> Hin. unfold enumColumn.
    rewrite (proj2 (arrayIncludes_In valid _) Hin).
    destruct s; [|reflexivity].
    rewrite toLowerCase_empty in Hin. destruct (Hne Hin).
  - intros s -> Hnin. unfold enumColumn.
    destruct (JS.arrayIncludes valid (toLowerCase s)) eqn:Hinc.
    + apply arrayIncludes_In in Hinc. contradiction.
    + rewrite andb_false_r. reflexivity.
  - intros ->. reflexivity.
Qed.

End Optional.

(** As the specification has it, the currency of the record would be the
    supplied one; the currency "usd" supplied with the amount 100 gives the
    currency "USD", and a currency of two spaces gives "INR". *)
Lemma currency_stored_uppercased :
  InsertData.amount
    (insertData (SM := asciiStrings) (amountPayload (Some (100 # 1)) (Some "usd")) 1 1)
  = Some (100 # 1)
  /\ (forall (SM : StringMethods) (domainId activityId : Z),
        InsertData.currency
          (insertData (amountPayload (Some (100 # 1)) (Some "usd")) domainId activityId)
        = Some "USD"
        /\ InsertData.currency
             (insertData (amountPayload (Some (100 # 1)) (Some "usd")) domainId activityId)
           <> Some "usd"
        /\ InsertData.currency
             (insertData (amountPayload (Some (100 # 1)) (Some "  ")) domainId activityId)
           = Some "INR").
Proof.
  split; [reflexivity|]. intros SM d a.
  destruct (@currencyOf_examples SM) as (_ & _ & Hblank & Husd).
  rewrite !insertData_currency.
  change (Some (currencyOf (Some "usd")) = Some "USD"
          /\ Some (currencyOf (Some "usd")) <> Some "usd"
          /\ Some (currencyOf (Some "  ")) = Some "INR").
  rewrite Hblank, Husd. repeat split; discriminate.
Qed.

(** C8 (amended). In every record that the normaliser hands to the store,
    amount and currency are both present or both null.  The amount is kept
    exactly when it is supplied and greater than 0; the currency is then the
    supplied currency in upper case, or "INR" when none is supplied or the
    supplied one is empty or blank.  The amount 500 without currency gives
    the currency "INR"; with the amount 0 both are null.  Whenever
    [saveLogEntry] reports success, the row it has appended holds that
    currency, and the amount as its [decimal(12,2)] column holds it: both
    present or both null. *)
Theorem amount_and_currency_together {SM : StringMethods}
    (data : IncomingLogData.t) (domainId activityId : Z) :
  let v := insertData data domainId activityId in
  (InsertData.amount v = None <-> InsertData.currency v = None)
  /\ (forall x, IncomingLogData.amount data = Some x -> (0 < x)%Q ->
        InsertData.amount v = Some x
        /\ InsertData.currency v = Some (currencyOf (IncomingLogData.currency data)))
  /\ (forall x, InsertData.amount v = Some x ->
        IncomingLogData.amount data = Some x /\ (0 < x)%Q)
  /\ (forall x, IncomingLogData.amount data = Some x -> (x <= 0)%Q ->
        InsertData.amount v = None /\ InsertData.currency v = None)
  /\ (IncomingLogData.amount data = None ->
        InsertData.amount v = None /\ InsertData.currency v = None)
  /\ (IncomingLogData.amount data = Some (500 # 1) ->
      IncomingLogData.currency data = None ->
        InsertData.amount v = Some (500 # 1) /\ InsertData.currency v = Some "INR")
  /\ (IncomingLogData.amount data = Some (0 # 1) ->
        InsertData.amount v = None /\ InsertData.currency v = None)
  /\ (currencyOf None = "INR" /\ currencyOf (Some EmptyString) = "INR"
      /\ currencyOf (Some "  ") = "INR" /\ currencyOf (Some "usd") = "USD")
  /\ (forall c, trim c = EmptyString -> currencyOf (Some c) = "INR")
  /\ (forall c, trim c <> EmptyString -> currencyOf (Some c) = toUpperCase c)
  /\ (forall (SC : Storage) (st st' : Store) (d a : Z),
        saveLogEntry data st = (Saved d a, st') ->
        exists row,
          logs st' = (logs st ++ [row])%list
          /\ (InsertData.amount (LogRow.values row) = None
              <-> InsertData.currency (LogRow.values row) = None)
          /\ InsertData.currency (LogRow.values row)
             = InsertData.currency (insertData data d a)
          /\ InsertData.amount (LogRow.values row)
             = decimal2 <$> InsertData.amount (insertData data d a)).
Proof.
  cbv zeta.
  assert (Hrecord : forall d a : Z,
    (InsertData.amount (insertData data d a) = None
     <-> InsertData.currency (insertData data d a) = None)
    /\ (forall x, IncomingLogData.amount data = Some x -> (0 < x)%Q ->
          InsertData.amount (insertData data d a) = Some x
          /\ InsertData.currency (insertData data d a)
             = Some (currencyOf (IncomingLogData.currency data)))
    /\ (forall x, InsertData.amount (insertData data d a) = Some x ->
          IncomingLogData.amount data = Some x /\ (0 < x)%Q)
    /\ (forall x, IncomingLogData.amount data = Some x -> (x <= 0)%Q ->
          InsertData.amount (insertData data d a) = None
          /\ InsertData.currency (insertData data d a) = None)
    /\ (IncomingLogData.amount data = None ->
          InsertData.amount (insertData data d a) = None
          /\ InsertData.currency (insertData data d a) = None)).
  { intros d a. rewrite insertData_currency. simpl.
    destruct (IncomingLogData.amount data) as [x|] eqn:Hamount;
      [destruct (positive x) eqn:Hpos;
       [apply positive_iff in Hpos|apply positive_false_iff in Hpos]|];
      repeat split; intros; simplify_eq; repeat split;
      first [ reflexivity | discriminate | assumption
            | exfalso; eapply Qlt_not_le; eassumption ]. }
  destruct (Hrecord domainId activityId) as (Hboth & Hkept & Hfrom & Hdropped & Hnone).
  destruct currencyOf_examples as (HINR & Hempty & Hblank & Husd).
  split; [exact Hboth|]. split; [exact Hkept|]. split; [exact Hfrom|].
  split; [exact Hdropped|]. split; [exact Hnone|].
  split; [|split; [|split; [auto|split; [|split]]]].
  - intros H500 Hcur. destruct (Hkept _ H500) as [Ha Hc]; [reflexivity|].
    rewrite Ha, Hc, Hcur, HINR. auto.
  - intros H0. apply (Hdropped _ H0). unfold Qle. simpl. lia.
  - intros c Hc. unfold currencyOf. rewrite Hc. reflexivity.
  - intros c Hc. unfold currencyOf.
    destruct (String.eqb_spec (trim c) EmptyString); [contradiction|reflexivity].
  - intros SC st st' d a Hsave.
    apply saveLogEntry_saved in Hsave as (_ & _ & _ & _ & _ & _ & Hlogs).
    eexists. split; [exact Hlogs|].
    cbn [LogRow.values storedValues InsertData.amount InsertData.currency].
    split; [|split; reflexivity].
    destruct (Hrecord d a) as (Hb & _).
    destruct (InsertData.amount (insertData data d a)) as [x|]; simpl.
    + split; [discriminate|]. intros Hc. apply Hb in Hc. discriminate Hc.
    + split; [intros _; apply Hb; reflexivity|reflexivity].
Qed.

(** C9. [timeOfDay] and [sentiment] are accepted whatever their case and
    kept in lower case in the record that is handed to the store: a value
    whose lowercasing is one of morning, afternoon, evening, night (for
    [sentiment]: positive, negative, neutral) is kept as that lowercasing,
    so "Morning" as "morning"; every other value, and an absent one, gives
    null.  Whenever [saveLogEntry] reports success, the row it has appended
    holds these two values. *)
Theorem enums_case_insensitive_lowercased {SM : StringMethods}
    (data : IncomingLogData.t) (domainId activityId : Z) :
  let v := insertData data domainId activityId in
  (forall s, IncomingLogData.timeOfDay data = Some s ->
     In (toLowerCase s) ["morning"; "afternoon"; "evening"; "night"] ->
     InsertData.timeOfDay v = Some (toLowerCase s))
  /\ (forall s, IncomingLogData.timeOfDay data = Some s ->
        ~ In (toLowerCase s) ["morning"; "afternoon"; "evening"; "night"] ->
        InsertData.timeOfDay v = None)
  /\ (IncomingLogData.timeOfDay data = None -> InsertData.timeOfDay v = None)
  /\ (forall s, IncomingLogData.sentiment data = Some s ->
        In (toLowerCase s) ["positive"; "negative"; "neutral"] ->
        InsertData.sentiment v = Some (toLowerCase s))
  /\ (forall s, IncomingLogData.sentiment data = Some s ->
        ~ In (toLowerCase s) ["positive"; "negative"; "neutral"] ->
        InsertData.sentiment v = None)
  /\ (IncomingLogData.sentiment data = None -> InsertData.sentiment v = None)
  /\ (IncomingLogData.timeOfDay data = Some "Morning" ->
        InsertData.timeOfDay v = Some "morning")
  /\ (IncomingLogData.sentiment data = Some "NEGATIVE" ->
        InsertData.sentiment v = Some "negative")
  /\ (forall (SC : Storage) (st st' : Store) (d a : Z),
        saveLogEntry data st = (Saved d a, st') ->
        exists row,
          logs st' = (logs st ++ [row])%list
          /\ InsertData.timeOfDay (LogRow.values row) = InsertData.timeOfDay v
          /\ InsertData.sentiment (LogRow.values row) = InsertData.sentiment v).
Proof.
  cbv zeta. simpl.
  assert (Ht : ~ In EmptyString validTimeOfDay) by (simpl; intuition discriminate).
  assert (Hs : ~ In EmptyString validSentiments) by (simpl; intuition discriminate).
  destruct (enumColumn_spec validTimeOfDay (IncomingLogData.timeOfDay data) Ht)
    as (Ht1 & Ht2 & Ht3).
  destruct (enumColumn_spec validSentiments (IncomingLogData.sentiment data) Hs)
    as (Hs1 & Hs2 & Hs3).
  assert (Hmorning : toLowerCase "Morning" = "morning")
    by (rewrite toLowerCase_ascii; reflexivity).
  assert (Hnegative : toLowerCase "NEGATIVE" = "negative")
    by (rewrite toLowerCase_ascii; reflexivity).
  split; [exact Ht1|]. split; [exact Ht2|]. split; [exact Ht3|].
  split; [exact Hs1|]. split; [exact Hs2|]. split; [exact Hs3|].
  split; [|split].
  - intros H. rewrite <- Hmorning. apply (Ht1 "Morning" H).
    rewrite Hmorning. simpl. auto.
  - intros H. rewrite <- Hnegative. apply (Hs1 "NEGATIVE" H).
    rewrite Hnegative. simpl. auto.
  - intros SC st st' d a Hsave.
    apply saveLogEntry_saved in Hsave as (_ & _ & _ & _ & _ & _ & Hlogs).
    eexists. split; [exact Hlogs|]. split; reflexivity.
Qed.

(** ** Chat messages *)




(** * The theorems at concrete inputs *)

Lemma contextLogs_search_first_once_witness :
  List.NoDup (List.map LogSummary.id sampleSearch)
  /\ count_occ Z.eq_dec
       (List.map LogSummary.id (contextLogs sampleSearch sampleRecent)) 7 = 1%nat.
Proof.
  assert (Hnd : List.NoDup (List.map LogSummary.id sampleSearch)).
  { simpl. constructor; [intros []|constructor]. }
  split; [exact Hnd|].
  destruct (contextLogs_search_first_once sampleSearch sampleRecent)
    as (_ & _ & _ & _ & _ & Honce & _).
  apply Honce; [exact Hnd|discriminate|left; reflexivity].
Defined.

Lemma solved_bug_great_scores_witness :
  InsertData.moodScore (insertData (SM := asciiStrings) solvedPayload 1 1) = 8
  /\ InsertData.energyLevel (insertData (SM := asciiStrings) solvedPayload 1 1) = 5
  /\ InsertData.productivityScore (insertData (SM := asciiStrings) solvedPayload 1 1) = 8.
Proof.
  exact (proj1 (solved_bug_great_scores (SM := asciiStrings) solvedPayload
                  eq_refl eq_refl eq_refl eq_refl) 1 1).
Defined.



Lemma getRelatedLogs_no_token_no_query_witness :
  Forall (fun w => (String.length w <= 3)%nat) (JS.splitSpace "hi the")
  /\ getRelatedLogs string plainQuery plainMatches "hi the" twoLogStore
     = ([], twoLogStore).
Proof.
  assert (Hshort : Forall (fun w => (String.length w <= 3)%nat) (JS.splitSpace "hi the")).
  { repeat constructor. }
  split; [exact Hshort|].
  exact (proj1 (getRelatedLogs_no_token_no_query string plainQuery plainMatches
                  "hi the" twoLogStore Hshort)).
Defined.

Lemma assembledMetadata_analysis_keys_witness :
  buildsMetadata emptyContextPayload = true
  /\ exists o, assembledMetadata emptyContextPayload = Some o
               /\ o !! "aiAction" = Some (VStr "acknowledge")
               /\ o !! "aiPriority" = Some (VStr "medium")
               /\ o !! "aiContext" = None.
Proof.
  split; [reflexivity|].
  destruct (proj1 (assembledMetadata_analysis_keys emptyContextPayload eq_refl))
    as (o & Ho & Haction & Hpriority & _ & Hcontext & _).
  exists o. split; [exact Ho|]. split; [exact Haction|]. split; [exact Hpriority|].
  rewrite Hcontext; [reflexivity|right; reflexivity].
Defined.

Lemma metadata_never_stored_empty_witness :
  InsertData.metadata (insertData (SM := asciiStrings) emptyMetadataPayload 1 1) = None.
Proof.
  exact (proj1 (metadata_never_stored_empty (SM := asciiStrings) emptyMetadataPayload
                  eq_refl eq_refl eq_refl) 1 1).
Defined.

Lemma amount_and_currency_together_witness :
  InsertData.amount
    (insertData (SM := asciiStrings) (amountPayload (Some (500 # 1)) None) 1 1)
  = Some (500 # 1)
  /\ InsertData.currency
       (insertData (SM := asciiStrings) (amountPayload (Some (500 # 1)) None) 1 1)
     = Some "INR".
Proof.
  destruct (amount_and_currency_together (SM := asciiStrings)
              (amountPayload (Some (500 # 1)) None) 1 1)
    as (_ & _ & _ & _ & _ & H500 & _).
  apply H500; reflexivity.
Defined.

Lemma enums_case_insensitive_lowercased_witness :
  InsertData.timeOfDay
    (insertData (SM := asciiStrings) (enumPayload (Some "Morning") (Some "NEGATIVE")) 1 1)
  = Some "morning"
  /\ InsertData.sentiment
       (insertData (SM := asciiStrings) (enumPayload (Some "Morning") (Some "NEGATIVE")) 1 1)
     = Some "negative".
Proof.
  destruct (enums_case_insensitive_lowercased (SM := asciiStrings)
              (enumPayload (Some "Morning") (Some "NEGATIVE")) 1 1)
    as (_ & _ & _ & _ & _ & _ & Hmorning & Hnegative & _).
  split; [apply Hmorning|apply Hnegative]; reflexivity.
Defined.


(** ** Runs of the model *)

Example trim_WORK : JS.trimAscii "  WORK " = "WORK".
Proof. reflexivity. Qed.

Example capitalized_examples :
  capitalized (SM := asciiStrings) "  WORK " = "Work"
  /\ capitalized (SM := asciiStrings) "hEALTH" = "Health"
  /\ capitalized (SM := asciiStrings) "   " = EmptyString.
Proof. repeat split. Qed.

(** A duration of one minute and a half: the resolvers create the domain
    and the activity "General", the [integer] column rejects the row, and
    [saveLogEntry] answers [{success: false}] with no log stored. *)
Example fractional_duration_rejected :
  fst (saveLogEntry (SM := asciiStrings) (SC := integerDurations)
         (durationPayload "ran" (3 # 2)) emptyStore)
  = Failed "Database rejected the log"
  /\ List.map DomainRow.name
       (domains (snd (saveLogEntry (SM := asciiStrings) (SC := integerDurations)
                        (durationPayload "ran" (3 # 2)) emptyStore)))
     = ["General"]
  /\ List.map ActivityRow.name
       (activities (snd (saveLogEntry (SM := asciiStrings) (SC := integerDurations)
                           (durationPayload "ran" (3 # 2)) emptyStore)))
     = ["General"]
  /\ logs (snd (saveLogEntry (SM := asciiStrings) (SC := integerDurations)
                  (durationPayload "ran" (3 # 2)) emptyStore))
     = []
  /\ fst (saveLogEntry (SM := asciiStrings) (SC := integerDurations)
            (durationPayload "ran" (30 # 1)) emptyStore)
     = Saved 1 1.
Proof. vm_compute. auto 10. Qed.

Example decimal2_examples :
  Qeq_bool (decimal2 (1 # 1000)) 0 = true
  /\ Qeq_bool (decimal2 (5 # 1000)) (1 # 100) = true
  /\ Qeq_bool (decimal2 (12345 # 100)) (12345 # 100) = true.
Proof. repeat split. Qed.

Example split_double_space : JS.splitSpace "a  b" = ["a"; EmptyString; "b"].
Proof. reflexivity. Qed.

Example clampRound_examples :
  JS.clampRound (15 # 2) = 8 /\ JS.clampRound (42 # 1) = 10
  /\ JS.clampRound (-3 # 1) = 1 /\ JS.clampRound (7 # 5) = 1.
Proof. repeat split. Qed.

Example domainColorOf_examples :
  domainColorOf "health" = Hex "#EF4444"
  /\ domainColorOf "cooking" = Hex "#6B7280"
  /\ domainColorOf "constructor" = Inherited "constructor".
Proof. repeat split. Qed.

(** In [chatUnderWorkStore] the chat log is attached to the activity "Chat"
    of the domain "Work" (id 1) while its own domain is "General" (id 2). *)
Example chat_log_under_other_domain :
  List.map (fun r => (InsertData.domainId (LogRow.values r),
                      InsertData.activityId (LogRow.values r)))
    (logs (snd (saveChatMessage helloMessage None chatUnderWorkStore)))
  = [(2, 1)]
  /\ List.map ActivityRow.domainId
       (activities (snd (saveChatMessage helloMessage None chatUnderWorkStore)))
     = [Some 1].
Proof. vm_compute. auto. Qed.

(** A chat about the parser: the search finds the parser log, the last two
    days hold both logs, and the context lists the parser log once, first. *)
Example chatContext_parser :
  List.map LogSummary.id
    (fst (chatContext string plainQuery plainMatches 0 sampleNow "the parser" twoLogStore))
  = [7; 8]
  /\ issued (snd (chatContext string plainQuery plainMatches 0 sampleNow
                    "the parser" twoLogStore))
     = [Select "logs"; Select "logs"].
Proof. vm_compute. auto. Qed.

(** * Further properties *)

(** ** The stores the write paths produce *)

Lemma keysBelow_snoc (ids : list Z) (seq : Z) :
  keysBelow ids seq -> keysBelow (ids ++ [seq]) (seq + 1).
Proof.
  intros [Hnd Hlt]. split.
  - apply NoDup_ListNoDup, NoDup_app. split; [apply NoDup_ListNoDup, Hnd|].
    split; [|apply NoDup_singleton].
    intros i Hi Hi'. apply list_elem_of_In in Hi' as [<-|[]].
    apply list_elem_of_In in Hi. rewrite List.Forall_forall in Hlt.
    specialize (Hlt _ Hi). lia.
  - apply Forall_app. split.
    + eapply Forall_impl; [exact Hlt|]. simpl. intros; lia.
    + constructor; [lia|constructor].
Qed.

Lemma keysBelow_succ (ids : list Z) (seq : Z) :
  keysBelow ids seq -> keysBelow ids (seq + 1).
Proof.
  intros [Hnd Hlt]. split; [exact Hnd|].
  eapply Forall_impl; [exact Hlt|]. simpl. intros; lia.
Qed.

Lemma wellFormed_insertLog (v : InsertData.t) (st : Store) :
  wellFormed st -> wellFormed (snd (insertLog v st)).
Proof.
  intros (Hd & Ha & Hl). unfold wellFormed, insertLog. simpl.
  rewrite List.map_app. simpl.
  split; [assumption|split; [assumption|apply keysBelow_snoc, Hl]].
Qed.

Lemma eqCol_true (col : option Z) (v : Z) : eqCol col v = true -> col = Some v.
Proof.
  destruct col as [c|]; simpl; [|discriminate].
  intros H. apply Z.eqb_eq in H. congruence.
Qed.

Lemma find_by_id {A} (id : A -> Z) (l : list A) (r : A) :
  List.NoDup (List.map id l) -> In r l ->
  List.find (fun x => Z.eqb (id x) (id r)) l = Some r.
Proof.
  induction l as [|x l IH]; simpl; [intros _ []|].
  intros Hnd Hin. apply List.NoDup_cons_iff in Hnd as [Hx Hl].
  destruct Hin as [->|Hin]; [rewrite Z.eqb_refl; reflexivity|].
  destruct (Z.eqb_spec (id x) (id r)) as [Heq|_]; [|auto].
  exfalso. apply Hx. rewrite Heq. apply in_map, Hin.
Qed.

Section Stores.

Context {SM : StringMethods} {SC : Storage}.

Lemma wellFormed_getOrCreateDomain (d : string) (st : Store) :
  wellFormed st -> wellFormed (snd (getOrCreateDomain d st)).
Proof.
  intros (Hd & Ha & Hl).
  rewrite getOrCreateDomain_store. resolver_cases; simpl;
    try exact (conj Hd (conj Ha Hl)).
  - unfold wellFormed. simpl. rewrite List.map_app. simpl.
    split; [apply keysBelow_snoc, Hd|split; assumption].
  - exact (conj (keysBelow_succ _ _ Hd) (conj Ha Hl)).
Qed.

Lemma wellFormed_getOrCreateActivity (n : string) (d : Z) (st : Store) :
  wellFormed st -> wellFormed (snd (getOrCreateActivity n d st)).
Proof.
  intros (Hd & Ha & Hl).
  rewrite getOrCreateActivity_store. resolver_cases; simpl;
    try exact (conj Hd (conj Ha Hl)).
  - unfold wellFormed. simpl. rewrite List.map_app. simpl.
    split; [assumption|split; [apply keysBelow_snoc, Ha|assumption]].
  - exact (conj Hd (conj (keysBelow_succ _ _ Ha) Hl)).
Qed.

Lemma uniqueActivities_getOrCreateActivity (n : string) (d : Z) (st : Store) :
  uniqueActivities st -> uniqueActivities (snd (getOrCreateActivity n d st)).
Proof.
  intros Huniq.
  rewrite getOrCreateActivity_store. resolver_cases; simpl; try exact Huniq.
  unfold uniqueActivities. simpl. rewrite List.map_app. simpl.
  apply NoDup_ListNoDup, NoDup_app. split; [apply NoDup_ListNoDup, Huniq|].
  split; [|apply NoDup_singleton].
  intros k Hk Hk'. apply list_elem_of_In in Hk.
  apply list_elem_of_In in Hk' as [<-|[]].
  apply in_map_iff in Hk as (r & Hkey & Hr).
  match goal with H : List.find _ _ = None |- _ => apply (find_none _ _ H) in Hr end.
  injection Hkey as Hname Hdom.
  rewrite Hname, Hdom, String.eqb_refl in Hr. simpl in Hr.
  rewrite Z.eqb_refl in Hr. discriminate.
Qed.

(** When [getOrCreateActivity] returns an id, it is that of a row of the
    trimmed name under the given domain. *)
Lemma getOrCreateActivity_row (n : string) (d : Z) (st : Store) (i : Z) :
  fst (getOrCreateActivity n d st) = Returned i ->
  exists row,
    In row (activities (snd (getOrCreateActivity n d st)))
    /\ ActivityRow.id row = i
    /\ ActivityRow.name row = trim n
    /\ ActivityRow.domainId row = Some d.
Proof.
  rewrite getOrCreateActivity_store.
  destruct (accepts (SelectActivity (trim n) d)); [|discriminate].
  destruct (List.find _ (activities st)) as [row|] eqn:Hfind.
  - simpl. intros [= <-].
    apply find_In_true in Hfind as [Hin Hpred].
    apply andb_true_iff in Hpred as [Hname Hdom].
    apply String.eqb_eq in Hname. apply eqCol_true in Hdom.
    exists row. auto.
  - destruct (accepts (InsertActivity _ _)); [|discriminate].
    simpl. intros [= <-].
    eexists. split; [apply in_or_app; right; left; reflexivity|].
    simpl. auto.
Qed.

(** What the two resolvers of [saveLogEntry] leave: at most one row more in
    [domains], then at most one more in [activities], the keys and the
    names still distinct. *)
Lemma resolvers_store (data : IncomingLogData.t) (st : Store) :
  wellFormed st -> uniqueDomainNames st -> uniqueActivities st ->
  let st1 := snd (getOrCreateDomain (domainName data) st) in
  (wellFormed st1 /\ uniqueDomainNames st1 /\ uniqueActivities st1
   /\ logs st1 = logs st /\ logSeq st1 = logSeq st
   /\ activities st1 = activities st
   /\ exists new, domains st1 = (domains st ++ new)%list /\ (length new <= 1)%nat)
  /\ forall d : Z,
       let st2 := snd (getOrCreateActivity (activityName data) d st1) in
       wellFormed st2 /\ uniqueDomainNames st2 /\ uniqueActivities st2
       /\ logs st2 = logs st /\ logSeq st2 = logSeq st
       /\ domains st2 = domains st1
       /\ exists new, activities st2 = (activities st ++ new)%list
                      /\ (length new <= 1)%nat.
Proof.
  intros Hwf Hdomains Hactivities. cbv zeta.
  set (st1 := snd (getOrCreateDomain (domainName data) st)).
  assert (Hwf1 : wellFormed st1) by (apply wellFormed_getOrCreateDomain, Hwf).
  assert (Hd1 : uniqueDomainNames st1)
    by (apply uniqueDomainNames_getOrCreateDomain, Hdomains).
  pose proof (getOrCreateDomain_logs (domainName data) st) as (Hl1 & Hs1 & _ & Hact1 & _).
  fold st1 in Hl1, Hs1, Hact1.
  assert (Ha1 : uniqueActivities st1)
    by (unfold uniqueActivities; rewrite Hact1; exact Hactivities).
  assert (Hdom1 : exists new, domains st1 = (domains st ++ new)%list
                              /\ (length new <= 1)%nat).
  { subst st1. rewrite getOrCreateDomain_store. resolver_cases; simpl;
      first [ exists []; rewrite List.app_nil_r; split; [reflexivity|simpl; lia]
            | eexists; split; [reflexivity|simpl; lia] ]. }
  split; [auto 10|].
  intros d. set (st2 := snd (getOrCreateActivity (activityName data) d st1)).
  pose proof (getOrCreateActivity_logs (activityName data) d st1)
    as (Hl2 & Hs2 & _ & Hdom2 & _).
  fold st2 in Hl2, Hs2, Hdom2.
  split; [apply wellFormed_getOrCreateActivity, Hwf1|].
  split; [unfold uniqueDomainNames; rewrite Hdom2; exact Hd1|].
  split; [apply uniqueActivities_getOrCreateActivity, Ha1|].
  split; [congruence|]. split; [congruence|]. split; [exact Hdom2|].
  subst st2. rewrite <- Hact1.
  rewrite getOrCreateActivity_store. resolver_cases; simpl;
    first [ exists []; rewrite List.app_nil_r; split; [reflexivity|simpl; lia]
          | eexists; split; [reflexivity|simpl; lia] ].
Qed.

(** X1. Whatever [saveLogEntry] answers, it keeps the keys of the three
    tables distinct and below their sequences, keeps one domain per name
    and one activity per name and domain, adds at most one domain and at
    most one activity and removes no row.  When it answers
    [{success: true}] it has added exactly one log, whose id is the next of
    the sequence; when it answers [{success: false}], with the error
    "Database rejected the log", it has added no log, though the domain and
    the activity it may have created stay. *)
Theorem saveLogEntry_keeps_keys (data : IncomingLogData.t) (st : Store)
    (Hwf : wellFormed st) (Hdomains : uniqueDomainNames st)
    (Hactivities : uniqueActivities st) :
  let result := fst (saveLogEntry data st) in
  let st' := snd (saveLogEntry data st) in
  wellFormed st'
  /\ uniqueDomainNames st'
  /\ uniqueActivities st'
  /\ (exists new, domains st' = (domains st ++ new)%list /\ (length new <= 1)%nat)
  /\ (exists new, activities st' = (activities st ++ new)%list /\ (length new <= 1)%nat)
  /\ (forall domainId activityId : Z,
        result = Saved domainId activityId ->
        exists row, logs st' = (logs st ++ [row])%list /\ LogRow.id row = logSeq st
                    /\ ~ In (LogRow.id row) (List.map LogRow.id (logs st)))
  /\ (forall error : string,
        result = Failed error ->
        error = "Database rejected the log" /\ logs st' = logs st).
Proof.
  cbv zeta.
  destruct (resolvers_store data st Hwf Hdomains Hactivities) as (H1 & H2).
  cbv zeta in H1, H2.
  pose proof (saveLogEntry_steps data st) as Hsteps. cbv zeta in Hsteps.
  set (st1 := snd (getOrCreateDomain (domainName data) st)) in *.
  destruct H1 as (Hwf1 & Hd1 & Ha1 & Hl1 & Hs1 & Hact1 & Hdom1).
  destruct (fst (getOrCreateDomain (domainName data) st)) as [d|].
  - specialize (H2 d).
    set (st2 := snd (getOrCreateActivity (activityName data) d st1)) in *.
    destruct H2 as (Hwf2 & Hd2 & Ha2 & Hl2 & Hs2 & Hdom2 & Hact2).
    destruct (fst (getOrCreateActivity (activityName data) d st1)) as [a|].
    + destruct (checkInsert st2 (insertData data d a)) as [|consumed];
        rewrite Hsteps; simpl.
      * split; [apply wellFormed_insertLog, Hwf2|].
        split; [exact Hd2|]. split; [exact Ha2|].
        split; [rewrite Hdom2; exact Hdom1|]. split; [exact Hact2|].
        split; [|discriminate].
        intros d' a' _. eexists. rewrite Hl2, Hs2.
        split; [reflexivity|]. split; [reflexivity|]. simpl.
        destruct Hwf as (_ & _ & _ & Hbelow). intros Hin.
        rewrite List.Forall_forall in Hbelow. specialize (Hbelow _ Hin). lia.
      * split.
        { destruct Hwf2 as (Hkd & Hka & Hkl). unfold wellFormed. simpl.
          split; [exact Hkd|]. split; [exact Hka|].
          destruct consumed; [apply keysBelow_succ|]; exact Hkl. }
        split; [exact Hd2|]. split; [exact Ha2|].
        split; [rewrite Hdom2; exact Hdom1|]. split; [exact Hact2|].
        split; [discriminate|].
        intros error [= <-]. split; [reflexivity|exact Hl2].
    + rewrite Hsteps. simpl.
      split; [exact Hwf2|]. split; [exact Hd2|]. split; [exact Ha2|].
      split; [rewrite Hdom2; exact Hdom1|]. split; [exact Hact2|].
      split; [discriminate|].
      intros error [= <-]. split; [reflexivity|exact Hl2].
  - rewrite Hsteps. simpl.
    split; [exact Hwf1|]. split; [exact Hd1|]. split; [exact Ha1|].
    split; [exact Hdom1|].
    split; [exists []; rewrite List.app_nil_r; auto|].
    split; [discriminate|].
    intros error [= <-]. split; [reflexivity|exact Hl1].
Qed.

(** The rows behind the ids of a successful [saveLogEntry], and the store
    it leaves. *)
Lemma saveLogEntry_rows (data : IncomingLogData.t) (st st' : Store) (d a : Z) :
  saveLogEntry data st = (Saved d a, st') ->
  exists drow arow,
    In drow (domains st')
    /\ DomainRow.id drow = d
    /\ DomainRow.name drow = capitalized (domainName data)
    /\ In arow (activities st')
    /\ ActivityRow.id arow = a
    /\ ActivityRow.name arow = trim (activityName data)
    /\ ActivityRow.domainId arow = Some d
    /\ logs st'
       = (logs st ++ [LogRow.mk (logSeq st) (storedValues (insertData data d a))
                        (Some (dbNow st))])%list.
Proof.
  intros Hsave.
  apply saveLogEntry_saved in Hsave as (Hd & Ha & _ & _ & Hdoms & Hacts & Hlogs).
  cbv zeta in *.
  set (st1 := snd (getOrCreateDomain (domainName data) st)) in *.
  destruct (getOrCreateDomain_row (domainName data) st d Hd)
    as (_ & drow & Hdin & Hdid & Hdname & _).
  destruct (getOrCreateActivity_row (activityName data) d st1 a Ha)
    as (arow & Hain & Haid & Haname & Hadom).
  exists drow, arow. rewrite Hdoms, Hacts.
  split; [exact Hdin|]. split; [exact Hdid|]. split; [exact Hdname|].
  split; [exact Hain|]. auto.
Qed.

(** X2. When [saveLogEntry] answers [{success: true, domainId, activityId}],
    the ids are those of a domain row named by the canonical form of the
    payload's domain (or "General") and of an activity row of the trimmed
    activity name (or "General") that lies under that very domain; the log
    it has stored carries both ids. *)
Theorem saveLogEntry_activity_under_domain (data : IncomingLogData.t)
    (st st' : Store) (domainId activityId : Z)
    (Hsave : saveLogEntry data st = (Saved domainId activityId, st')) :
  exists drow arow lrow,
    In drow (domains st')
    /\ DomainRow.id drow = domainId
    /\ DomainRow.name drow = capitalized (domainName data)
    /\ In arow (activities st')
    /\ ActivityRow.id arow = activityId
    /\ ActivityRow.name arow = trim (activityName data)
    /\ ActivityRow.domainId arow = Some domainId
    /\ last (logs st') = Some lrow
    /\ InsertData.domainId (LogRow.values lrow) = domainId
    /\ InsertData.activityId (LogRow.values lrow) = activityId.
Proof.
  destruct (saveLogEntry_rows data st st' domainId activityId Hsave)
    as (drow & arow & Hd1 & Hd2 & Hd3 & Ha1 & Ha2 & Ha3 & Ha4 & Hlogs).
  exists drow, arow. eexists.
  rewrite Hlogs, last_snoc. repeat split; eauto.
Qed.

(** The row that a successful [saveLogEntry] adds, with the names its ids
    resolve to. *)
Lemma saveLogEntry_saved_row (data : IncomingLogData.t) (st st' : Store) (d a : Z) :
  wellFormed st ->
  saveLogEntry data st = (Saved d a, st') ->
  let row := LogRow.mk (logSeq st) (storedValues (insertData data d a))
               (Some (dbNow st)) in
  logs st' = (logs st ++ [row])%list
  /\ domainNameOf st' row = Some (capitalized (domainName data))
  /\ activityNameOf st' row = Some (trim (activityName data)).
Proof.
  intros Hwf Hsave. cbv zeta.
  destruct (saveLogEntry_rows data st st' d a Hsave)
    as (drow & arow & Hd1 & Hd2 & Hd3 & Ha1 & Ha2 & Ha3 & Ha4 & Hlogs).
  pose proof (saveLogEntry_saved data st st' d a Hsave)
    as (_ & _ & _ & Hst' & Hdoms & Hacts & _).
  cbv zeta in Hst', Hdoms, Hacts.
  assert (Hwf2 : wellFormed
                   (snd (getOrCreateActivity (activityName data) d
                           (snd (getOrCreateDomain (domainName data) st)))))
    by (apply wellFormed_getOrCreateActivity, wellFormed_getOrCreateDomain, Hwf).
  destruct Hwf2 as ((Hdnd & _) & (Hand & _) & _).
  pose proof (getOrCreateActivity_logs (activityName data) d
                (snd (getOrCreateDomain (domainName data) st))) as (_ & _ & _ & Hdeq & _).
  rewrite Hdeq, <- Hdoms in Hdnd. rewrite <- Hacts in Hand.
  split; [exact Hlogs|].
  unfold domainNameOf, activityNameOf. simpl.
  rewrite <- Hd2, (find_by_id DomainRow.id _ drow Hdnd Hd1).
  rewrite <- Ha2, (find_by_id ActivityRow.id _ arow Hand Ha1).
  simpl. rewrite Hd3, Ha3. auto.
Qed.

(** X3. In a store whose keys are distinct and below their sequences, a log
    that [saveLogEntry] reports as saved is read back by [getAllLogs]: one
    entry more, among them the entry with the new id, the normalised texts
    and scores, the creation time of the store's clock, and the names of
    the resolved domain and activity. *)
Theorem saveLogEntry_then_getAllLogs (data : IncomingLogData.t)
    (st st' : Store) (domainId activityId : Z)
    (Hwf : wellFormed st)
    (Hsave : saveLogEntry data st = (Saved domainId activityId, st')) :
  length (fst (getAllLogs st')) = S (length (logs st))
  /\ exists e,
       In e (fst (getAllLogs st'))
       /\ LogEntry.id e = logSeq st
       /\ LogEntry.createdAt e = Some (dbNow st)
       /\ LogEntry.description e = description1 data
       /\ LogEntry.userInput e = userInput1 data
       /\ LogEntry.content e = userInput1 data
       /\ LogEntry.domainName e = Some (capitalized (domainName data))
       /\ LogEntry.activityName e = Some (trim (activityName data))
       /\ LogEntry.moodScore e = JS.clampRound (moodScore0 data)
       /\ LogEntry.energyLevel e = JS.clampRound (energyLevel0 data)
       /\ LogEntry.productivityScore e = JS.clampRound (productivityScore0 data)
       /\ LogEntry.priority e = Some (aiPriorityOf data).
Proof.
  destruct (saveLogEntry_saved_row data st st' domainId activityId Hwf Hsave)
    as (Hlogs & Hdn & Han).
  assert (Hperm : merge_sort newerFirst (logs st') ≡ₚ logs st')
    by apply merge_sort_Permutation.
  unfold getAllLogs. simpl. split.
  - rewrite length_map, Hperm, Hlogs, length_app. simpl. lia.
  - exists (toLogEntry st'
              (LogRow.mk (logSeq st) (storedValues (insertData data domainId activityId))
                 (Some (dbNow st)))).
    split.
    + apply in_map. apply list_elem_of_In. rewrite Hperm, Hlogs.
      apply list_elem_of_In, in_or_app. right. left. reflexivity.
    + unfold toLogEntry. cbn [LogEntry.domainName LogEntry.activityName].
      rewrite Hdn, Han. repeat split; reflexivity.
Qed.

End Stores.

(** ** The normaliser on every payload *)

Lemma clamp_bounds (x : Q) :
  (1 <= Qmax (1 # 1) (Qmin (10 # 1) x))%Q /\ (Qmax (1 # 1) (Qmin (10 # 1) x) <= 10)%Q.
Proof.
  split; [apply Q.le_max_l|].
  apply Q.max_lub; [unfold Qle; simpl; lia|apply Q.le_min_l].
Qed.

Lemma clampRound_range (x : Q) : 1 <= JS.clampRound x <= 10.
Proof.
  unfold JS.clampRound. destruct (clamp_bounds x) as [Hlo Hhi].
  split.
  - change 1 with (Qfloor ((1 # 1) + (1 # 2))).
    apply Qfloor_resp_le, Qplus_le_compat; [exact Hlo|apply Qle_refl].
  - change 10 with (Qfloor ((10 # 1) + (1 # 2))).
    apply Qfloor_resp_le, Qplus_le_compat; [exact Hhi|apply Qle_refl].
Qed.

Lemma clampRound_high (x : Q) : (10 <= x)%Q -> JS.clampRound x = 10.
Proof.
  intros Hx. unfold JS.clampRound.
  assert (Hmin : Qmin (10 # 1) x == 10 # 1) by (apply Q.min_l; exact Hx).
  assert (Hmax : Qmax (1 # 1) (Qmin (10 # 1) x) == 10 # 1).
  { rewrite Hmin. apply Q.max_r. unfold Qle. simpl. lia. }
  rewrite Hmax. reflexivity.
Qed.

Lemma clampRound_low (x : Q) : (x <= 1)%Q -> JS.clampRound x = 1.
Proof.
  intros Hx. unfold JS.clampRound.
  assert (Hmin : Qmin (10 # 1) x == x).
  { apply Q.min_r. eapply Qle_trans; [exact Hx|]. unfold Qle. simpl. lia. }
  assert (Hmax : Qmax (1 # 1) (Qmin (10 # 1) x) == 1 # 1).
  { rewrite Hmin. apply Q.max_l. exact Hx. }
  rewrite Hmax. reflexivity.
Qed.

(** [clampRound] depends on the value of the number only. *)
Lemma clampRound_Qeq (x y : Q) : (x == y)%Q -> JS.clampRound x = JS.clampRound y.
Proof.
  intros Hxy. unfold JS.clampRound. apply Qfloor_comp.
  rewrite Hxy. reflexivity.
Qed.

(** [Math.round] after the clamping: the nearest integer from 1 to 10, a
    half going up. *)
Lemma Qfloor_unique (y : Q) (n : Z) :
  (inject_Z n <= y)%Q -> (y < inject_Z (n + 1))%Q -> Qfloor y = n.
Proof.
  intros Hlo Hhi.
  assert (H1 : n <= Qfloor y).
  { rewrite <- (Qfloor_Z n). apply Qfloor_resp_le, Hlo. }
  assert (H2 : Qfloor y < n + 1).
  { apply Qlt_not_le in Hhi. destruct (Z_lt_le_dec (Qfloor y) (n + 1)) as [|Hge]; [assumption|].
    exfalso. apply Hhi. eapply Qle_trans; [|apply Qfloor_le].
    rewrite <- Zle_Qle. exact Hge. }
  lia.
Qed.

Lemma clampRound_nearest (x : Q) (n : Z) :
  1 <= n <= 10 ->
  ((n # 1) - (1 # 2) <= x)%Q -> (x < (n # 1) + (1 # 2))%Q ->
  JS.clampRound x = n.
Proof.
  intros Hn Hlo Hhi. unfold JS.clampRound.
  assert (Hc : ((Qmax (1 # 1) (Qmin (10 # 1) x) == 1 # 1)%Q /\ n = 1)
               \/ ((Qmax (1 # 1) (Qmin (10 # 1) x) == 10 # 1)%Q /\ n = 10)
               \/ (Qmax (1 # 1) (Qmin (10 # 1) x) == x)%Q).
  { destruct (Qlt_le_dec x (1 # 1)) as [Hx1|Hx1].
    - left. split.
      + rewrite (Q.min_r (10 # 1) x).
        * apply Q.max_l, Qlt_le_weak, Hx1.
        * eapply Qle_trans; [apply Qlt_le_weak, Hx1|]. unfold Qle. cbn [Qnum Qden]. lia.
      + destruct x as [a p]. unfold Qminus, Qplus, Qopp, Qle, Qlt in *.
        cbn [Qnum Qden] in *. nia.
    - destruct (Qlt_le_dec (10 # 1) x) as [Hx10|Hx10].
      + right; left. split.
        * rewrite (Q.min_l (10 # 1) x) by (apply Qlt_le_weak, Hx10).
          apply Q.max_r. unfold Qle. cbn [Qnum Qden]. lia.
        * destruct x as [a p]. unfold Qminus, Qplus, Qopp, Qle, Qlt in *.
          cbn [Qnum Qden] in *. nia.
      + right; right. rewrite (Q.min_r (10 # 1) x) by exact Hx10.
        apply Q.max_r, Hx1. }
  destruct Hc as [[Hc ->]|[[Hc ->]|Hc]]; rewrite Hc; [reflexivity|reflexivity|].
  apply Qfloor_unique.
  - destruct x as [a p]. unfold Qminus, Qplus, Qopp, Qle, inject_Z in *.
    cbn [Qnum Qden] in *. nia.
  - destruct x as [a p]. unfold Qminus, Qplus, Qopp, Qle, Qlt, inject_Z in *.
    cbn [Qnum Qden] in *. nia.
Qed.

(** What clamping and rounding do to a supplied score. *)
Lemma clampRound_supplied (x : Q) :
  ((10 <= x)%Q -> JS.clampRound x = 10)
  /\ ((x <= 1)%Q -> JS.clampRound x = 1)
  /\ (forall n, 1 <= n <= 10 -> (x == n # 1)%Q -> JS.clampRound x = n)
  /\ (forall n, 1 <= n <= 10 ->
                ((n # 1) - (1 # 2) <= x)%Q -> (x < (n # 1) + (1 # 2))%Q ->
                JS.clampRound x = n).
Proof.
  split; [apply clampRound_high|]. split; [apply clampRound_low|].
  split.
  - intros n Hn Hx. rewrite (clampRound_Qeq _ _ Hx). apply clampRound_integer, Hn.
  - intros n. apply clampRound_nearest.
Qed.

Lemma truthyStr_iff (s : string) : JS.truthyStr s = true <-> s <> EmptyString.
Proof. destruct s; simpl; split; congruence. Qed.

Section EveryPayload.

Context {SM : StringMethods}.

(** X4. Whatever numbers the payload supplies, the three mandatory scores
    of the record that is handed to the store are integers from 1 to 10:
    each is the supplied number clamped and rounded, so that a supplied
    score of 10 or more gives 10, one of 1 or less gives 1, an integer from
    1 to 10 itself, and any other number the nearest integer, a half going
    up.  The two optional scores are present, clamped in the same way,
    exactly when they are supplied. *)
Theorem stored_scores_clamped (data : IncomingLogData.t) (domainId activityId : Z) :
  let v := insertData data domainId activityId in
  1 <= InsertData.moodScore v <= 10
  /\ 1 <= InsertData.energyLevel v <= 10
  /\ 1 <= InsertData.productivityScore v <= 10
  /\ (forall x, IncomingLogData.moodScore data = Some x ->
        InsertData.moodScore v = JS.clampRound x
        /\ ((10 <= x)%Q -> InsertData.moodScore v = 10)
        /\ ((x <= 1)%Q -> InsertData.moodScore v = 1)
        /\ (forall n, 1 <= n <= 10 -> (x == n # 1)%Q -> InsertData.moodScore v = n)
        /\ (forall n, 1 <= n <= 10 ->
                      ((n # 1) - (1 # 2) <= x)%Q -> (x < (n # 1) + (1 # 2))%Q ->
                      InsertData.moodScore v = n))
  /\ (forall x, IncomingLogData.energyLevel data = Some x ->
        InsertData.energyLevel v = JS.clampRound x
        /\ ((10 <= x)%Q -> InsertData.energyLevel v = 10)
        /\ ((x <= 1)%Q -> InsertData.energyLevel v = 1)
        /\ (forall n, 1 <= n <= 10 -> (x == n # 1)%Q -> InsertData.energyLevel v = n)
        /\ (forall n, 1 <= n <= 10 ->
                      ((n # 1) - (1 # 2) <= x)%Q -> (x < (n # 1) + (1 # 2))%Q ->
                      InsertData.energyLevel v = n))
  /\ (forall x, IncomingLogData.productivityScore data = Some x ->
        InsertData.productivityScore v = JS.clampRound x
        /\ ((10 <= x)%Q -> InsertData.productivityScore v = 10)
        /\ ((x <= 1)%Q -> InsertData.productivityScore v = 1)
        /\ (forall n, 1 <= n <= 10 -> (x == n # 1)%Q ->
                      InsertData.productivityScore v = n)
        /\ (forall n, 1 <= n <= 10 ->
                      ((n # 1) - (1 # 2) <= x)%Q -> (x < (n # 1) + (1 # 2))%Q ->
                      InsertData.productivityScore v = n))
  /\ (forall x, IncomingLogData.stressLevel data = Some x ->
        exists s, InsertData.stressLevel v = Some s /\ 1 <= s <= 10
                  /\ s = JS.clampRound x)
  /\ (IncomingLogData.stressLevel data = None -> InsertData.stressLevel v = None)
  /\ (forall x, IncomingLogData.satisfactionScore data = Some x ->
        exists s, InsertData.satisfactionScore v = Some s /\ 1 <= s <= 10
                  /\ s = JS.clampRound x)
  /\ (IncomingLogData.satisfactionScore data = None ->
        InsertData.satisfactionScore v = None).
Proof.
  cbv zeta. simpl.
  split; [apply clampRound_range|]. split; [apply clampRound_range|].
  split; [apply clampRound_range|].
  split; [|split; [|split; [|split; [|split; [|split]]]]].
  - intros x Hx. unfold moodScore0. rewrite Hx.
    split; [reflexivity|apply clampRound_supplied].
  - intros x Hx. unfold energyLevel0. rewrite Hx.
    split; [reflexivity|apply clampRound_supplied].
  - intros x Hx. unfold productivityScore0. rewrite Hx.
    split; [reflexivity|apply clampRound_supplied].
  - intros x ->. simpl. eexists. split; [reflexivity|].
    split; [apply clampRound_range|reflexivity].
  - intros ->. reflexivity.
  - intros x ->. simpl. eexists. split; [reflexivity|].
    split; [apply clampRound_range|reflexivity].
  - intros ->. reflexivity.
Qed.

Lemma description1_nonempty (data : IncomingLogData.t) :
  description1 data <> EmptyString.
Proof.
  unfold description1.
  destruct (JS.truthyStr (description0 data)) eqn:Hd; simpl.
  - destruct (String.eqb_spec (description0 data) EmptyString) as [He|Hne].
    + rewrite He in Hd. discriminate.
    + exact Hne.
  - destruct (JS.truthyStr (userInput0 data)) eqn:Hu.
    + apply truthyStr_iff, Hu.
    + discriminate.
Qed.

(** X5. In the record that is handed to the store the description and the
    user input are never empty, and the content is the user input.  The
    description is the trimmed one of the payload; when that is missing or
    empty it is replaced by the trimmed user input, or by "No description
    provided" when that is missing or empty too; a missing or empty
    trimmed user input is replaced by the description. *)
Theorem stored_texts_never_empty (data : IncomingLogData.t) (domainId activityId : Z) :
  let v := insertData data domainId activityId in
  InsertData.description v <> EmptyString
  /\ InsertData.userInput v <> EmptyString
  /\ InsertData.content v = InsertData.userInput v
  /\ (description0 data <> EmptyString ->
        InsertData.description v = description0 data)
  /\ (userInput0 data <> EmptyString ->
        InsertData.userInput v = userInput0 data)
  /\ (description0 data = EmptyString -> userInput0 data <> EmptyString ->
        InsertData.description v = userInput0 data)
  /\ (userInput0 data = EmptyString ->
        InsertData.userInput v = InsertData.description v)
  /\ (description0 data = EmptyString -> userInput0 data = EmptyString ->
        InsertData.description v = "No description provided"
        /\ InsertData.userInput v = "No description provided")
  /\ (IncomingLogData.log data = None ->
        InsertData.description v = "No description provided"
        /\ InsertData.userInput v = "No description provided")
  /\ (forall l s, IncomingLogData.log data = Some l ->
        IncomingLogData.description l = Some s -> description0 data = trim s)
  /\ (forall l s, IncomingLogData.log data = Some l ->
        IncomingLogData.user_input l = Some s -> userInput0 data = trim s).
Proof.
  cbv zeta. simpl.
  pose proof (description1_nonempty data) as Hne.
  assert (Hlog : IncomingLogData.log data = None ->
                 description0 data = EmptyString /\ userInput0 data = EmptyString).
  { intros H. unfold description0, userInput0. rewrite H. split; reflexivity. }
  assert (Htrim : (forall l s, IncomingLogData.log data = Some l ->
                     IncomingLogData.description l = Some s ->
                     description0 data = trim s)
                  /\ (forall l s, IncomingLogData.log data = Some l ->
                        IncomingLogData.user_input l = Some s ->
                        userInput0 data = trim s)).
  { unfold description0, userInput0.
    split; intros l s -> Hs; simpl; rewrite Hs; simpl;
      destruct (trim s); reflexivity. }
  destruct Htrim as [Htd Htu].
  split; [|split; [|split; [|split; [|split; [|split; [|split; [|split; [|split;
    [|split; [exact Htd|exact Htu]]]]]]]]]].
  all: unfold userInput1; unfold description1 in *;
    destruct (description0 data) as [|c s] eqn:Hd;
    destruct (userInput0 data) as [|c' s'] eqn:Hu; simpl in *;
    repeat split; intros;
    try match goal with H : IncomingLogData.log _ = None |- _ =>
          destruct (Hlog H) end;
    congruence.
Qed.

(** X6. In the record that is handed to the store an optional column never
    holds an empty value: a duration is a supplied one greater than 0, a
    list of related logs a supplied non-empty one, a goal a supplied
    non-zero one, a location the non-empty trimming of the supplied one;
    and each such supplied value is kept. *)
Theorem optional_columns_meaningful (data : IncomingLogData.t)
    (domainId activityId : Z) :
  let v := insertData data domainId activityId in
  (forall x, InsertData.durationMinutes v = Some x <->
             IncomingLogData.durationMinutes data = Some x /\ (0 < x)%Q)
  /\ (forall l, InsertData.relatedLogIds v = Some l <->
                IncomingLogData.relatedLogIds data = Some l /\ l <> [])
  /\ (forall g, InsertData.goalId v = Some g <->
                IncomingLogData.goalId data = Some g /\ g <> 0)
  /\ (forall l, InsertData.location v = Some l <->
                l <> EmptyString
                /\ exists raw, IncomingLogData.location data = Some raw
                               /\ l = trim raw).
Proof.
  cbv zeta. simpl.
  split; [|split; [|split]].
  - intros x. destruct (IncomingLogData.durationMinutes data) as [y|].
    + destruct (positive y) eqn:Hpos.
      * apply positive_iff in Hpos. split.
        -- intros [= <-]. auto.
        -- intros [[= <-] _]. reflexivity.
      * apply positive_false_iff in Hpos. split; [discriminate|].
        intros [[= <-] Hlt]. exfalso. exact (Qlt_not_le _ _ Hlt Hpos).
    + split; [discriminate|intros [H _]; discriminate H].
  - intros l. destruct (IncomingLogData.relatedLogIds data) as [[|i ids]|].
    + split; [discriminate|intros [[= <-] H]; congruence].
    + split; [intros [= <-]; split; [reflexivity|discriminate]|intros [H _]; exact H].
    + split; [discriminate|intros [H _]; discriminate H].
  - intros g. destruct (IncomingLogData.goalId data) as [h|].
    + destruct (Z.eqb_spec h 0) as [->|Hne].
      * split; [discriminate|intros [[= <-] H]; congruence].
      * split; [intros [= <-]; auto|intros [H _]; exact H].
    + split; [discriminate|intros [H _]; discriminate H].
  - intros l. destruct (IncomingLogData.location data) as [raw|].
    + rewrite truthy_and_not_blank.
      destruct (String.eqb_spec (trim raw) EmptyString) as [He|Hne]; simpl.
      * split; [discriminate|]. intros (Hl & raw' & [= <-] & ->). congruence.
      * split.
        -- intros [= <-]. split; [exact Hne|eauto].
        -- intros (_ & raw' & [= <-] & ->). reflexivity.
    + split; [discriminate|intros (_ & raw & H & _); discriminate H].
Qed.

(** X7. Whenever the record that is handed to the store has a metadata
    object, the object records [aiAction] and, under [aiPriority], the very
    priority of the [priority] column; the priority column is "medium" when
    the payload has no action; the column [aiAction] itself is never set by
    [saveLogEntry]. *)
Theorem stored_priority_matches_metadata (data : IncomingLogData.t)
    (domainId activityId : Z) :
  let v := insertData data domainId activityId in
  (forall o, InsertData.metadata v = Some o ->
     o !! "aiPriority" = Some (VStr (InsertData.priority v))
     /\ o !! "aiAction" = Some (VStr (aiActionOf data)))
  /\ (IncomingLogData.action data = None -> InsertData.priority v = "medium")
  /\ InsertData.aiAction v = None.
Proof.
  cbv zeta. split; [|split; [|reflexivity]].
  - intros o. rewrite insertData_metadata.
    destruct (buildsMetadata data); [|discriminate].
    intros [= <-]. unfold attachContext. simpl.
    destruct (IncomingLogData.context data) as [c|]; [destruct (hasKeys c)|];
      by simplify_map_eq.
  - intros Hnone. simpl. unfold aiPriorityOf. rewrite Hnone. reflexivity.
Qed.

(** X25. The row that a successful [saveLogEntry] appends is the record
    that the normaliser built for the ids it returns, as the columns hold
    it: the texts, the scores, the priority, the duration, the location and
    the currency are the record's, and the amount is the record's rounded
    to two decimals; the row has the next id of the sequence and the
    creation time of the store's clock, and the store had accepted the
    record. *)
Theorem saveLogEntry_stores_the_record {SC : Storage} (data : IncomingLogData.t)
    (st st' : Store) (domainId activityId : Z)
    (Hsave : saveLogEntry data st = (Saved domainId activityId, st')) :
  let v := insertData data domainId activityId in
  exists row,
    logs st' = (logs st ++ [row])%list
    /\ LogRow.id row = logSeq st
    /\ LogRow.createdAt row = Some (dbNow st)
    /\ InsertData.domainId (LogRow.values row) = domainId
    /\ InsertData.activityId (LogRow.values row) = activityId
    /\ InsertData.description (LogRow.values row) = InsertData.description v
    /\ InsertData.userInput (LogRow.values row) = InsertData.userInput v
    /\ InsertData.content (LogRow.values row) = InsertData.content v
    /\ InsertData.moodScore (LogRow.values row) = InsertData.moodScore v
    /\ InsertData.energyLevel (LogRow.values row) = InsertData.energyLevel v
    /\ InsertData.productivityScore (LogRow.values row) = InsertData.productivityScore v
    /\ InsertData.priority (LogRow.values row) = InsertData.priority v
    /\ InsertData.durationMinutes (LogRow.values row) = InsertData.durationMinutes v
    /\ InsertData.location (LogRow.values row) = InsertData.location v
    /\ InsertData.currency (LogRow.values row) = InsertData.currency v
    /\ InsertData.amount (LogRow.values row) = decimal2 <$> InsertData.amount v
    /\ checkInsert
         (snd (getOrCreateActivity (activityName data) domainId
                 (snd (getOrCreateDomain (domainName data) st)))) v
       = Accepted.
Proof.
  cbv zeta.
  pose proof (saveLogEntry_saved data st st' domainId activityId Hsave)
    as (_ & _ & Hcheck & _ & _ & _ & Hlogs). cbv zeta in Hcheck.
  eexists. split; [exact Hlogs|]. simpl.
  repeat (split; [reflexivity|]). exact Hcheck.
Qed.

End EveryPayload.
(** ** The taxonomy on every name *)

Lemma lowerChar_upperChar (c : ascii) : JS.lowerChar (JS.upperChar c) = JS.lowerChar c.
Proof. destruct c as [[] [] [] [] [] [] [] []]; reflexivity. Qed.

Lemma lowerChar_idem (c : ascii) : JS.lowerChar (JS.lowerChar c) = JS.lowerChar c.
Proof. destruct c as [[] [] [] [] [] [] [] []]; reflexivity. Qed.

Lemma toLowerCase_idem (s : string) :
  JS.toLowerCase (JS.toLowerCase s) = JS.toLowerCase s.
Proof.
  unfold JS.toLowerCase. induction s as [|c s IH]; simpl; [reflexivity|].
  rewrite lowerChar_idem, IH. reflexivity.
Qed.

(** On ASCII names, the key of the colour table is the lowercasing of the
    canonical name. *)
Lemma toLowerCase_capitalized (d : string) :
  JS.toLowerCase (capitalized (SM := asciiStrings) d)
  = JS.toLowerCase (JS.trimAscii d).
Proof.
  unfold capitalized. cbn [trim toUpperCase toLowerCase asciiStrings].
  destruct (JS.trimAscii d) as [|c r]; [reflexivity|].
  change (String (JS.lowerChar (JS.upperChar c))
            (JS.toLowerCase (JS.toLowerCase r))
          = String (JS.lowerChar c) (JS.toLowerCase r)).
  rewrite lowerChar_upperChar, toLowerCase_idem. reflexivity.
Qed.

Lemma find_app_new {A} (f : A -> bool) (l : list A) (x : A) :
  List.find f l = None -> f x = true -> List.find f (l ++ [x]) = Some x.
Proof.
  induction l as [|y l IH]; simpl; intros Hnone Hx; [rewrite Hx; reflexivity|].
  destruct (f y); [discriminate|auto].
Qed.

Section Names.

Context {SM : StringMethods} {SC : Storage}.

(** On a name of ASCII code units, the key under which [getOrCreateDomain]
    reads the colour is the lowercasing of the name it stores. *)
Lemma key_of_canonical_name (d : string) :
  JS.isAscii d = true ->
  toLowerCase (trim d) = JS.toLowerCase (capitalized d).
Proof.
  intros Hd. destruct (names_ascii d Hd) as [-> ->].
  symmetry. apply toLowerCase_capitalized.
Qed.

(** X8. For a name of ASCII code units that no domain has yet, the row
    that [getOrCreateDomain] creates when it returns has a colour that
    depends on its canonical name only, whatever the case and the padding
    of the input: it is the colour that [domainColors] has for the
    lowercased canonical name, so that the seven preset names get their
    preset colour.  The call returns when the collaborator accepts its two
    statements and the name is not "__proto__".  Hence a table in which
    every row has the colour of its name stays so when such names are
    resolved. *)
Theorem domain_colour_by_canonical_name (d : string) (st : Store) (i : Z)
    (Hascii : JS.isAscii d = true)
    (Habsent : ~ In (capitalized d) (List.map DomainRow.name (domains st)))
    (Hreturned : fst (getOrCreateDomain d st) = Returned i) :
  (exists row,
      DomainRow.id row = i
      /\ i = domainSeq st
      /\ domains (snd (getOrCreateDomain d st)) = (domains st ++ [row])%list
      /\ DomainRow.name row = capitalized d
      /\ DomainRow.color row
         = Some (domainColorOf (JS.toLowerCase (DomainRow.name row)))
      /\ (forall c, In (capitalized d, c) presetDomains ->
                    DomainRow.color row = Some (Hex c)))
  /\ (forall (d' : string) (st' : Store),
        JS.isAscii d' = true ->
        ~ In (capitalized d') (List.map DomainRow.name (domains st')) ->
        accepts (SelectDomain (capitalized d')) = true ->
        accepts (InsertDomain (capitalized d')
                   (Some (domainColorOf (JS.toLowerCase (capitalized d'))))) = true ->
        JS.toLowerCase (capitalized d') <> "__proto__" ->
        fst (getOrCreateDomain d' st') = Returned (domainSeq st'))
  /\ (forall (d' : string) (st' : Store),
        JS.isAscii d' = true ->
        coloredByName st' -> coloredByName (snd (getOrCreateDomain d' st'))).
Proof.
  split; [|split].
  - pose proof (key_of_canonical_name d Hascii) as Hk.
    apply find_name_none in Habsent.
    revert Hreturned. rewrite getOrCreateDomain_store, Habsent, Hk.
    destruct (accepts (SelectDomain _)); [|discriminate].
    destruct (sendable _); [|discriminate].
    destruct (accepts (InsertDomain _ _)); [|discriminate].
    simpl. intros [= <-].
    exists (DomainRow.mk (domainSeq st) (capitalized d)
              (Some (domainColorOf (JS.toLowerCase (capitalized d)))) (Some true)).
    simpl.
    split; [reflexivity|]. split; [reflexivity|]. split; [reflexivity|].
    split; [reflexivity|]. split; [reflexivity|].
    intros c Hc. simpl in Hc.
    repeat (destruct Hc as [[= <- <-]|Hc]; [reflexivity|]). destruct Hc.
  - intros d' st' Hd' Hnone Hsel Hins Hkey.
    pose proof (key_of_canonical_name d' Hd') as Hk.
    apply find_name_none in Hnone.
    rewrite getOrCreateDomain_store, Hnone, Hk, Hsel, Hins.
    destruct (sendable _) eqn:Hsend; [reflexivity|].
    apply sendable_domainColorOf in Hsend. contradiction.
  - intros d' st' Hd' Hcol.
    pose proof (key_of_canonical_name d' Hd') as Hk.
    rewrite getOrCreateDomain_store. resolver_cases; simpl; try exact Hcol.
    unfold coloredByName. simpl. intros r Hin.
    apply in_app_or in Hin as [Hin|[<-|[]]]; [apply Hcol, Hin|].
    simpl. rewrite Hk. reflexivity.
Qed.

Lemma capitalized_blank (s : string) :
  trim s = EmptyString -> capitalized s = EmptyString.
Proof.
  intros Hs. unfold capitalized. rewrite Hs. simpl.
  rewrite toUpperCase_empty, toLowerCase_empty. reflexivity.
Qed.

Lemma capitalized_General :
  capitalized "General" = "General" /\ trim "General" = "General".
Proof.
  destruct (names_ascii "General" eq_refl) as [-> _].
  rewrite trim_ascii by reflexivity. split; reflexivity.
Qed.

(** X9. A domain or activity name of white space only is not taken as
    missing: when [saveLogEntry] reports success for a payload whose domain
    is such a name, the log is classified under a domain whose name is the
    empty string, and likewise, independently, for its activity; whereas an
    absent or empty name gives "General". *)
Theorem blank_names_resolve_to_empty (data : IncomingLogData.t)
    (st st' : Store) (domainId activityId : Z)
    (Hsave : saveLogEntry data st = (Saved domainId activityId, st')) :
  (forall c s,
      IncomingLogData.classification data = Some c ->
      IncomingLogData.domain c = Some s ->
      s <> EmptyString -> trim s = EmptyString ->
      exists drow, In drow (domains st') /\ DomainRow.id drow = domainId
                   /\ DomainRow.name drow = EmptyString)
  /\ (forall c s,
        IncomingLogData.classification data = Some c ->
        IncomingLogData.activity c = Some s ->
        s <> EmptyString -> trim s = EmptyString ->
        exists arow, In arow (activities st') /\ ActivityRow.id arow = activityId
                     /\ ActivityRow.name arow = EmptyString
                     /\ ActivityRow.domainId arow = Some domainId)
  /\ (forall data' : IncomingLogData.t,
        IncomingLogData.classification data' = None
        \/ (exists c, IncomingLogData.classification data' = Some c
                      /\ (IncomingLogData.domain c = None
                          \/ IncomingLogData.domain c = Some EmptyString)) ->
        domainName data' = "General" /\ capitalized (domainName data') = "General")
  /\ (forall data' : IncomingLogData.t,
        IncomingLogData.classification data' = None
        \/ (exists c, IncomingLogData.classification data' = Some c
                      /\ (IncomingLogData.activity c = None
                          \/ IncomingLogData.activity c = Some EmptyString)) ->
        activityName data' = "General" /\ trim (activityName data') = "General").
Proof.
  destruct (saveLogEntry_rows data st st' domainId activityId Hsave)
    as (drow & arow & Hd1 & Hd2 & Hd3 & Ha1 & Ha2 & Ha3 & Ha4 & _).
  destruct capitalized_General as [HG HtG].
  split; [|split; [|split]].
  - intros c s Hclass Hdomain Hne Hblank. exists drow.
    split; [exact Hd1|]. split; [exact Hd2|].
    rewrite Hd3. unfold domainName. rewrite Hclass. simpl. rewrite Hdomain.
    destruct s; [congruence|]. simpl. apply capitalized_blank, Hblank.
  - intros c s Hclass Hactivity Hne Hblank. exists arow.
    split; [exact Ha1|]. split; [exact Ha2|]. split; [|exact Ha4].
    rewrite Ha3. unfold activityName. rewrite Hclass. simpl. rewrite Hactivity.
    destruct s; [congruence|]. simpl. exact Hblank.
  - intros data' H.
    assert (Hn : domainName data' = "General").
    { unfold domainName.
      destruct H as [->|(c & -> & [Hc|Hc])]; simpl; [reflexivity| |];
        rewrite Hc; reflexivity. }
    rewrite Hn. auto.
  - intros data' H.
    assert (Hn : activityName data' = "General").
    { unfold activityName.
      destruct H as [->|(c & -> & [Hc|Hc])]; simpl; [reflexivity| |];
        rewrite Hc; reflexivity. }
    rewrite Hn. auto.
Qed.

(** What a call of [getOrCreateActivity] leaves for the next one with the
    same trimmed name and domain: when it returned, the row of its id is
    the first that is found; when it threw, the next throws too. *)
Lemma getOrCreateActivity_found_again (n : string) (d : Z) (st : Store) :
  let r := getOrCreateActivity n d st in
  let found := List.find (fun r => String.eqb (ActivityRow.name r) (trim n)
                                   && eqCol (ActivityRow.domainId r) d)
                 (activities (snd r)) in
  match fst r with
  | Returned i => accepts (SelectActivity (trim n) d) = true
                  /\ exists row, found = Some row /\ ActivityRow.id row = i
  | Threw => accepts (SelectActivity (trim n) d) = false
             \/ (accepts (SelectActivity (trim n) d) = true
                 /\ found = None
                 /\ accepts (InsertActivity (trim n) d) = false)
  end.
Proof.
  cbv zeta. rewrite getOrCreateActivity_store.
  destruct (accepts (SelectActivity (trim n) d)); [|left; reflexivity].
  destruct (List.find _ (activities st)) as [row|] eqn:Hfind.
  - simpl. split; [reflexivity|]. exists row. auto.
  - destruct (accepts (InsertActivity _ _)).
    + simpl. split; [reflexivity|].
      exists (ActivityRow.mk (activitySeq st) (trim n) (Some d) (Some true)).
      split; [|reflexivity].
      apply find_app_new; [exact Hfind|]. simpl.
      rewrite String.eqb_refl, Z.eqb_refl. reflexivity.
    + right. split; [reflexivity|]. split; [|reflexivity].
      destruct (consumes _); exact Hfind.
Qed.

(** X10. [getOrCreateActivity] is keyed by the trimmed name and the domain:
    two names with the same trimming resolve, under one domain, to the same
    id, and the second call writes no row (when the first call threw, the
    second throws too).  Under another domain that has no activity of that
    name, in a store with distinct keys below their sequences, the name
    resolves, when the call returns, to a new row whose id differs from
    every earlier one. *)
Theorem getOrCreateActivity_keyed_by_name_and_domain
    (n1 n2 : string) (d : Z) (st : Store) (Htrim : trim n1 = trim n2) :
  let r1 := getOrCreateActivity n1 d st in
  let r2 := getOrCreateActivity n2 d (snd r1) in
  fst r2 = fst r1
  /\ activities (snd r2) = activities (snd r1)
  /\ (forall i, fst r1 = Returned i ->
                r2 = (Returned i, send (Select "activities") (snd r1)))
  /\ (forall (d' i' : Z),
        wellFormed st ->
        List.find (fun r => String.eqb (ActivityRow.name r) (trim n1)
                            && eqCol (ActivityRow.domainId r) d')
          (activities (snd r1)) = None ->
        let r3 := getOrCreateActivity n1 d' (snd r1) in
        fst r3 = Returned i' ->
        ~ In i' (List.map ActivityRow.id (activities (snd r1)))
        /\ fst r1 <> Returned i'
        /\ activities (snd r3)
           = (activities (snd r1)
              ++ [ActivityRow.mk i' (trim n1) (Some d') (Some true)])%list).
Proof.
  cbv zeta.
  pose proof (getOrCreateActivity_found_again n1 d st) as Hagain.
  cbv zeta in Hagain.
  set (st1 := snd (getOrCreateActivity n1 d st)) in *.
  assert (Hsecond : getOrCreateActivity n2 d st1
                    = match fst (getOrCreateActivity n1 d st) with
                      | Returned i => (Returned i, send (Select "activities") st1)
                      | Threw => (Threw, snd (getOrCreateActivity n2 d st1))
                      end
                    /\ activities (snd (getOrCreateActivity n2 d st1))
                       = activities st1).
  { rewrite getOrCreateActivity_store, <- Htrim.
    destruct (fst (getOrCreateActivity n1 d st)) as [i|].
    - destruct Hagain as (-> & row & -> & <-). split; reflexivity.
    - destruct Hagain as [->|(-> & -> & ->)]; simpl.
      + split; reflexivity.
      + split; [reflexivity|]. destruct (consumes _); reflexivity. }
  destruct Hsecond as (Hsecond & Hacts).
  split; [|split; [exact Hacts|split]].
  - rewrite Hsecond. destruct (fst (getOrCreateActivity n1 d st)); reflexivity.
  - intros i Hi. rewrite Hsecond, Hi. reflexivity.
  - intros d' i' Hwf Hnone.
    assert (Hwf1 : wellFormed st1) by (apply wellFormed_getOrCreateActivity, Hwf).
    destruct Hwf1 as (_ & (_ & Hbelow) & _).
    rewrite getOrCreateActivity_store, Hnone.
    destruct (accepts (SelectActivity (trim n1) d')); [|simpl; discriminate].
    destruct (accepts (InsertActivity (trim n1) d')); [|simpl; discriminate].
    simpl. intros [= <-]. rewrite List.Forall_forall in Hbelow.
    assert (Hfresh : ~ In (activitySeq st1) (List.map ActivityRow.id (activities st1))).
    { intros Hin. specialize (Hbelow _ Hin). lia. }
    split; [exact Hfresh|]. split; [|reflexivity].
    intros Heq. rewrite Heq in Hagain. destruct Hagain as (_ & row & Hf & Hid).
    apply Hfresh. rewrite <- Hid.
    apply in_map. apply find_In_true in Hf as [Hin _]. exact Hin.
Qed.

End Names.
(** ** Chat messages on every store *)










(** ** The reads *)

#[global] Instance newerFirst_transitive : Transitive newerFirst.
Proof.
  intros r1 r2 r3. unfold newerFirst, laterOrEqual.
  destruct (LogRow.createdAt r1) as [x|], (LogRow.createdAt r2) as [y|],
    (LogRow.createdAt r3) as [z|]; try discriminate; auto.
  rewrite !Z.leb_le. lia.
Qed.

(** The first [n] rows of a list sorted newest first are at least as new as
    the rows left out. *)
Lemma take_newest (n : nat) (rows : list LogRow.t) :
  Sorted newerFirst rows ->
  forall x y, In x (take n rows) -> In y (drop n rows) -> newerFirst x y.
Proof.
  intros Hs x y Hx Hy. apply Sorted_StronglySorted in Hs; [|apply _].
  rewrite <- (take_drop n rows) in Hs.
  apply (StronglySorted_app_1_elem_of _ _ _ x y Hs); apply list_elem_of_In; assumption.
Qed.

Lemma length_take_full {A} (n : nat) (l : list A) :
  (length (take n l) <= n)%nat /\ (drop n l <> [] -> length (take n l) = n).
Proof.
  rewrite length_take. split; [lia|].
  intros Hne. destruct (Nat.le_gt_cases (length l) n) as [Hle|Hgt]; [|lia].
  rewrite drop_ge in Hne by exact Hle. congruence.
Qed.

(** X13. [getRelatedLogs] returns at most five results, newest first: they
    are the five newest logs whose text matches the parsed terms (all of
    them when fewer match): every matching log left out is no newer than
    any result.  When the terms do not parse the result is empty.  No table
    is changed. *)
Theorem getRelatedLogs_five_newest_matches
    (tsquery : Type) (to_tsquery : string -> option tsquery)
    (matches : string -> tsquery -> bool) (q : string) (st : Store) :
  let res := getRelatedLogs tsquery to_tsquery matches q st in
  (length (fst res) <= 5)%nat
  /\ (to_tsquery (searchTerms q) = None -> fst res = [])
  /\ (forall tq, JS.truthyStr (searchTerms q) = true ->
        to_tsquery (searchTerms q) = Some tq ->
        exists rows rest,
          fst res = List.map (toSummary st) rows
          /\ (rows ++ rest)%list
             ≡ₚ List.filter (fun r => matches (searchDocument r) tq) (logs st)
          /\ Sorted newerFirst rows
          /\ (rest <> [] -> length rows = 5%nat)
          /\ (forall x y, In x rows -> In y rest -> newerFirst x y))
  /\ domains (snd res) = domains st
  /\ activities (snd res) = activities st
  /\ logs (snd res) = logs st.
Proof.
  cbv zeta. unfold getRelatedLogs.
  destruct (JS.truthyStr (searchTerms q)) eqn:Htruthy; simpl.
  - destruct (to_tsquery (searchTerms q)) as [tq|] eqn:Hparse; simpl.
    + set (sorted := merge_sort newerFirst
                       (List.filter (fun r => matches (searchDocument r) tq) (logs st))).
      assert (Hsorted : Sorted newerFirst sorted) by apply (Sorted_merge_sort _).
      destruct (length_take_full 5 sorted) as [Hle Hfull].
      split; [rewrite length_map; exact Hle|]. split; [discriminate|].
      split; [|auto].
      intros tq' _ [= <-]. exists (take 5 sorted), (drop 5 sorted).
      split; [reflexivity|]. split; [rewrite take_drop; apply merge_sort_Permutation|].
      split; [|split; [exact Hfull|apply take_newest, Hsorted]].
      apply StronglySorted_Sorted.
      apply Sorted_StronglySorted in Hsorted; [|apply _].
      rewrite <- (take_drop 5 sorted) in Hsorted.
      apply StronglySorted_app_1_l in Hsorted. exact Hsorted.
    + split; [lia|]. split; [reflexivity|]. split; [discriminate|auto].
  - split; [lia|]. split; [reflexivity|]. split; [discriminate|auto].
Qed.

(** What [getLogsByDateRange] returns. *)
Lemma getLogsByDateRange_spec (startDate endDate : Z) (st : Store) :
  let res := fst (getLogsByDateRange startDate endDate st) in
  (exists rows, res = List.map (toLogEntry st) rows
                /\ rows ≡ₚ List.filter (inRange startDate endDate) (logs st)
                /\ Sorted newerFirst rows)
  /\ Sorted entriesNewerFirst res
  /\ (forall e, In e res <->
        exists r c, In r (logs st) /\ e = toLogEntry st r
                    /\ LogRow.createdAt r = Some c /\ startDate <= c <= endDate).
Proof.
  cbv zeta. unfold getLogsByDateRange. simpl.
  set (rows := merge_sort newerFirst (List.filter (inRange startDate endDate) (logs st))).
  assert (Hperm : rows ≡ₚ List.filter (inRange startDate endDate) (logs st))
    by apply merge_sort_Permutation.
  assert (Hsorted : Sorted newerFirst rows) by apply (Sorted_merge_sort _).
  split; [exists rows; auto|]. split; [apply Sorted_toLogEntry, Hsorted|].
  intros e. rewrite in_map_iff. split.
  - intros (r & He & Hr).
    apply list_elem_of_In in Hr. rewrite Hperm in Hr.
    apply list_elem_of_In, filter_In in Hr as [Hin Hrange].
    unfold inRange in Hrange. destruct (LogRow.createdAt r) as [c|] eqn:Hc;
      [|discriminate].
    apply andb_true_iff in Hrange as [H1 H2]. apply Z.leb_le in H1, H2.
    exists r, c. auto.
  - intros (r & c & Hin & He & Hc & H1 & H2). exists r. split; [auto|].
    apply list_elem_of_In. rewrite Hperm. apply list_elem_of_In, filter_In.
    split; [exact Hin|]. unfold inRange. rewrite Hc.
    apply andb_true_iff. split; apply Z.leb_le; assumption.
Qed.

Lemma same_day_iff (tz t c : Z) :
  startOfDay tz t <= c <= endOfDay tz t
  <-> (c + tz) / msPerDay = (t + tz) / msPerDay.
Proof.
  unfold endOfDay, startOfDay, msPerDay.
  set (q := (t + tz) / 86400000). split.
  - intros [H1 H2]. symmetry. apply (Z.div_unique _ _ q (c + tz - q * 86400000)); lia.
  - intros Heq.
    pose proof (Z.div_mod (c + tz) 86400000 ltac:(lia)) as Hdm.
    pose proof (Z.mod_pos_bound (c + tz) 86400000 ltac:(lia)) as Hb.
    rewrite Heq in Hdm. lia.
Qed.

(** X14. [getLogsByDate] returns, newest first, exactly the logs created on
    the local calendar day of the given instant: those whose creation time
    has the same day number as that instant.  A log without creation time
    is never returned. *)
Theorem getLogsByDate_same_calendar_day (tz date : Z) (st : Store) :
  let res := fst (getLogsByDate tz date st) in
  Sorted entriesNewerFirst res
  /\ (forall e, In e res <->
        exists r c, In r (logs st) /\ e = toLogEntry st r
                    /\ LogRow.createdAt r = Some c
                    /\ (c + tz) / msPerDay = (date + tz) / msPerDay)
  /\ (forall e, In e res -> LogEntry.createdAt e <> None)
  /\ (exists rows, res = List.map (toLogEntry st) rows
                   /\ rows ≡ₚ List.filter
                                (inRange (startOfDay tz date) (endOfDay tz date))
                                (logs st)).
Proof.
  cbv zeta. unfold getLogsByDate.
  destruct (getLogsByDateRange_spec (startOfDay tz date) (endOfDay tz date) st)
    as ((rows & Hres & Hperm & _) & Hsorted & Hmem).
  cbv zeta in *.
  split; [exact Hsorted|]. split; [|split].
  - intros e. rewrite Hmem. split.
    + intros (r & c & Hin & He & Hc & Hrange). exists r, c.
      rewrite <- same_day_iff. auto.
    + intros (r & c & Hin & He & Hc & Hday). exists r, c.
      rewrite same_day_iff. auto.
  - intros e He. apply Hmem in He as (r & c & _ & -> & Hc & _).
    simpl. rewrite Hc. discriminate.
  - exists rows. auto.
Qed.


Lemma startOfDay_mono (tz t1 t2 : Z) : t1 <= t2 -> startOfDay tz t1 <= startOfDay tz t2.
Proof.
  intros Hle. unfold startOfDay, msPerDay.
  pose proof (Z.div_le_mono (t1 + tz) (t2 + tz) 86400000 ltac:(lia) ltac:(lia)). lia.
Qed.

Lemma startOfDay_next (tz t : Z) : startOfDay tz (t + msPerDay) = startOfDay tz t + msPerDay.
Proof.
  unfold startOfDay, msPerDay.
  replace (t + 86400000 + tz) with (t + tz + 1 * 86400000) by lia.
  rewrite Z.div_add by lia. lia.
Qed.

Lemma getLogsByDateRange_empty (startDate endDate : Z) (st : Store) :
  endDate < startDate -> fst (getLogsByDateRange startDate endDate st) = [].
Proof.
  intros Hlt. unfold getLogsByDateRange. simpl.
  assert (Hnil : List.filter (inRange startDate endDate) (logs st) = []).
  { induction (logs st) as [|r l IH]; simpl; [reflexivity|].
    unfold inRange at 1. destruct (LogRow.createdAt r) as [c|]; [|exact IH].
    destruct (Z.leb_spec startDate c), (Z.leb_spec c endDate); simpl;
      solve [exact IH | lia]. }
  rewrite Hnil. reflexivity.
Qed.

(** X15. As long as the dates that [getRecentLogs] builds are valid dates,
    its window grows with the number of days: the logs of the last [days]
    days are among those of the last [days'] days when [days <= days'], and
    all are among [getAllLogs].  With 0 days it is [getLogsByDate] of the
    present instant, and with a negative number of days it is empty. *)
Theorem getRecentLogs_grows_with_days (tz now days days' : Z) (st : Store)
    (Hvalid : recentDatesValid tz now days)
    (Hvalid' : recentDatesValid tz now days')
    (Hle : days <= days') :
  (forall e, In e (fst (getRecentLogs tz now days st)) ->
             In e (fst (getRecentLogs tz now days' st)))
  /\ (forall e, In e (fst (getRecentLogs tz now days st)) ->
                In e (fst (getAllLogs st)))
  /\ (recentDatesValid tz now 0 ->
      fst (getRecentLogs tz now 0 st) = fst (getLogsByDate tz now st))
  /\ (days < 0 -> fst (getRecentLogs tz now days st) = []).
Proof.
  unfold getRecentLogs.
  split; [|split; [|split]].
  - intros e He.
    apply (getLogsByDateRange_spec _ _ st) in He as (r & c & Hin & -> & Hc & H1 & H2).
    apply (getLogsByDateRange_spec _ _ st). exists r, c.
    repeat split; auto.
    pose proof (startOfDay_mono tz (now - days' * msPerDay) (now - days * msPerDay)).
    unfold msPerDay in *. lia.
  - intros e He.
    apply (getLogsByDateRange_spec _ _ st) in He as (r & c & Hin & -> & _).
    unfold getAllLogs. simpl. apply in_map, list_elem_of_In.
    rewrite merge_sort_Permutation. apply list_elem_of_In, Hin.
  - intros _. unfold getLogsByDate.
    replace (now - 0 * msPerDay) with now by lia. reflexivity.
  - intros Hneg. apply getLogsByDateRange_empty.
    unfold endOfDay.
    pose proof (startOfDay_mono tz (now + msPerDay) (now - days * msPerDay)) as Hmono.
    rewrite startOfDay_next in Hmono. unfold msPerDay in *. lia.
Qed.

(** ** Pagination *)

Lemma ceilDiv_pos (a b : Z) :
  0 < b -> exists c, ceilDiv a b = Some c /\ (c - 1) * b < a <= c * b.
Proof.
  intros Hb. destruct b as [|p|p]; try lia.
  unfold ceilDiv, Qceiling, Qfloor, Qopp. simpl.
  eexists. split; [reflexivity|].
  pose proof (Z.div_mod (- a) (Z.pos p) ltac:(lia)) as Hdm.
  pose proof (Z.mod_pos_bound (- a) (Z.pos p) ltac:(lia)) as Hb'.
  nia.
Qed.

Lemma concat_chunks {A} (n k : nat) (l : list A) :
  (0 < n)%nat -> (length l <= k * n)%nat ->
  concat (List.map (fun i => take n (drop (i * n) l)) (seq 0 k)) = l.
Proof.
  intros Hn. revert l. induction k as [|k IH]; intros l Hlen.
  - simpl in *. destruct l; [reflexivity|simpl in Hlen; lia].
  - change (seq 0 (S k)) with (0%nat :: seq 1 k).
    rewrite <- seq_shift. cbn [List.map concat]. rewrite List.map_map.
    change (0 * n)%nat with 0%nat. rewrite drop_0.
    transitivity (take n l ++ drop n l)%list; [|apply take_drop].
    f_equal.
    transitivity (concat (List.map (fun i => take n (drop (i * n) (drop n l)))
                            (seq 0 k)));
      [|apply IH; rewrite length_drop; lia].
    f_equal. apply List.map_ext. intros i.
    rewrite drop_drop. reflexivity.
Qed.

(** The page [getLogsWithPagination] returns when it is given a page and a
    limit that the store accepts. *)
Lemma getLogsWithPagination_accepted (page limit : Z) (st : Store) :
  0 <= limit -> 0 <= (page - 1) * limit ->
  fst (getLogsWithPagination (Some page) (Some limit) st)
  = Page.mk
      (take (Z.to_nat limit)
         (drop (Z.to_nat ((page - 1) * limit)) (fst (getAllLogs st))))
      (Z.of_nat (length (logs st))) page limit
      (ceilDiv (Z.of_nat (length (logs st))) limit).
Proof.
  intros Hl Ho. unfold getLogsWithPagination, getAllLogs, limitRows. simpl.
  destruct (Z.ltb_spec ((page - 1) * limit) 0); [lia|].
  destruct (Z.ltb_spec limit 0); [lia|]. simpl.
  rewrite <- List.firstn_map, <- List.skipn_map. reflexivity.
Qed.

(** X16. For a page number and a limit of at least 1, [getLogsWithPagination]
    returns the slice of [getAllLogs] that starts after [(page - 1) * limit]
    entries and has at most [limit] entries; [total] is the number of logs
    and [totalPages] the least number of pages that hold them.  A page is
    empty exactly when it lies beyond [totalPages], and the pages 1 to
    [totalPages], one after the other, are [getAllLogs]: no log is skipped
    and none repeated. *)
Theorem getLogsWithPagination_pages (page limit : Z) (st : Store)
    (Hpage : 1 <= page) (Hlimit : 1 <= limit) :
  let res := fst (getLogsWithPagination (Some page) (Some limit) st) in
  let all := fst (getAllLogs st) in
  Page.logs res
  = take (Z.to_nat limit) (drop (Z.to_nat ((page - 1) * limit)) all)
  /\ Z.of_nat (length (Page.logs res)) <= limit
  /\ Page.total res = Z.of_nat (length all)
  /\ Page.page res = page
  /\ exists n,
       Page.totalPages res = Some n
       /\ (n - 1) * limit < Page.total res <= n * limit
       /\ (Page.logs res = [] <-> n < page)
       /\ concat
            (List.map
               (fun p => Page.logs
                           (fst (getLogsWithPagination (Some (Z.of_nat p + 1))
                                   (Some limit) st)))
               (seq 0 (Z.to_nat n)))
          = all.
Proof.
  cbv zeta.
  assert (Hall : length (fst (getAllLogs st)) = length (logs st)).
  { unfold getAllLogs. simpl. rewrite length_map, merge_sort_Permutation. reflexivity. }
  rewrite getLogsWithPagination_accepted by nia.
  cbn [Page.logs Page.total Page.page Page.totalPages].
  destruct (ceilDiv_pos (Z.of_nat (length (logs st))) limit ltac:(lia))
    as (n & Hn & Hlo & Hhi).
  split; [reflexivity|]. split; [rewrite length_take; lia|].
  split; [rewrite Hall; reflexivity|]. split; [reflexivity|].
  exists n. split; [exact Hn|]. split; [lia|]. split.
  - set (off := Z.to_nat ((page - 1) * limit)).
    assert (Hoff : Z.of_nat off = (page - 1) * limit) by (subst off; nia).
    split.
    + intros Hnil. apply (f_equal length) in Hnil.
      rewrite length_take, length_drop, Hall in Hnil.
      change (length (@nil LogEntry.t)) with 0%nat in Hnil. nia.
    + intros Hlt. apply length_zero_iff_nil.
      rewrite length_take, length_drop, Hall. nia.
  - transitivity
      (concat (List.map
                 (fun i => take (Z.to_nat limit)
                             (drop (i * Z.to_nat limit) (fst (getAllLogs st))))
                 (seq 0 (Z.to_nat n))));
      [|apply concat_chunks; rewrite ?Hall; nia].
    f_equal. apply List.map_ext. intros p.
    rewrite getLogsWithPagination_accepted by nia.
    cbn [Page.logs]. do 2 f_equal. nia.
Qed.

(** X17. When the page number is below 1 with a positive limit, or above 1
    with a negative limit, the offset is negative: the store rejects the
    statement and [getLogsWithPagination] answers with the empty first
    page: no logs, total 0 and 0 pages, page 1, whatever the store holds;
    only one statement was sent.  A negative limit is no limit: with the
    page 1 every log is returned, newest first, with the right total, and
    both statements were sent.  With the limit 0 nothing fails: the page is
    empty, the total is right and the number of pages is not a finite
    number.  Without arguments the page is 1 and the limit 20. *)
Theorem getLogsWithPagination_rejected (page limit : Z) (st : Store)
    (Hbad : (page < 1 /\ 0 < limit) \/ (1 < page /\ limit < 0)) :
  getLogsWithPagination (Some page) (Some limit) st
  = (Page.mk [] 0 1 limit (Some 0), send (Select "logs") st)
  /\ (forall limit' : Z,
        limit' < 0 ->
        getLogsWithPagination (Some 1) (Some limit') st
        = (Page.mk (fst (getAllLogs st)) (Z.of_nat (length (logs st))) 1 limit'
             (ceilDiv (Z.of_nat (length (logs st))) limit'),
           send (Select "logs") (send (Select "logs") st)))
  /\ (forall page' : Z,
        fst (getLogsWithPagination (Some page') (Some 0) st)
        = Page.mk [] (Z.of_nat (length (logs st))) page' 0 None)
  /\ getLogsWithPagination None None st
     = getLogsWithPagination (Some 1) (Some 20) st.
Proof.
  split; [|split; [|split; [|reflexivity]]].
  - unfold getLogsWithPagination. simpl.
    destruct (Z.ltb_spec ((page - 1) * limit) 0); [reflexivity|nia].
  - intros limit' Hneg. unfold getLogsWithPagination, getAllLogs, limitRows. simpl.
    replace ((1 - 1) * limit') with 0 by lia. simpl.
    destruct (Z.ltb_spec limit' 0); [|lia].
    rewrite drop_0. reflexivity.
  - intros page'. rewrite getLogsWithPagination_accepted by lia. reflexivity.
Qed.

(** ** Logs of a domain *)

(** X18. [getLogsByDomain] returns, newest first, at most [limit] logs (10
    when no limit is given), each a log of the store whose domain row has
    the given name; when more logs of that domain exist, those left out are
    no newer than any returned.  A negative limit is no limit: every log of
    the domain is returned. *)
Theorem getLogsByDomain_newest_of_domain (name : string) (limit : Z) (st : Store)
    (Hlimit : 0 <= limit) :
  let res := fst (getLogsByDomain name (Some limit) st) in
  let ofDomain :=
    List.filter (fun r => match domainNameOf st r with
                          | Some n => String.eqb n name
                          | None => false
                          end) (logs st) in
  Z.of_nat (length res) <= limit
  /\ Sorted newerFirst res
  /\ (forall r, In r res -> In r (logs st) /\ domainNameOf st r = Some name)
  /\ (exists rest,
        (res ++ rest)%list ≡ₚ ofDomain
        /\ (rest <> [] -> Z.of_nat (length res) = limit)
        /\ (forall x y, In x res -> In y rest -> newerFirst x y))
  /\ (forall l, l < 0 ->
        fst (getLogsByDomain name (Some l) st) ≡ₚ ofDomain
        /\ Sorted newerFirst (fst (getLogsByDomain name (Some l) st)))
  /\ getLogsByDomain name None st = getLogsByDomain name (Some 10) st.
Proof.
  cbv zeta. unfold getLogsByDomain, limitRows. simpl.
  destruct (Z.ltb_spec limit 0); [lia|].
  set (p := fun r => match domainNameOf st r with
                     | Some n => String.eqb n name
                     | None => false
                     end).
  set (sorted := merge_sort newerFirst (List.filter p (logs st))).
  assert (Hsorted : Sorted newerFirst sorted) by apply (Sorted_merge_sort _).
  assert (Hperm : sorted ≡ₚ List.filter p (logs st)) by apply merge_sort_Permutation.
  destruct (length_take_full (Z.to_nat limit) sorted) as [Hle Hfull].
  split; [lia|]. split; [|split; [|split; [|split; [|reflexivity]]]].
  - apply StronglySorted_Sorted.
    apply Sorted_StronglySorted in Hsorted; [|apply _].
    rewrite <- (take_drop (Z.to_nat limit) sorted) in Hsorted.
    apply StronglySorted_app_1_l in Hsorted. exact Hsorted.
  - intros r Hr.
    assert (Hin : In r (List.filter p (logs st))).
    { apply list_elem_of_In. rewrite <- Hperm. apply list_elem_of_In.
      rewrite <- (take_drop (Z.to_nat limit) sorted). apply in_or_app. auto. }
    apply filter_In in Hin as [Hin Hp]. split; [exact Hin|].
    unfold p in Hp. destruct (domainNameOf st r) as [n|]; [|discriminate].
    apply String.eqb_eq in Hp. congruence.
  - exists (drop (Z.to_nat limit) sorted).
    split; [rewrite take_drop; exact Hperm|].
    split; [intros Hne; rewrite (Hfull Hne); lia|].
    apply take_newest, Hsorted.
  - intros l Hl. destruct (Z.ltb_spec l 0); [|lia]. split; assumption.
Qed.

(** X19. In a store whose keys are distinct and below their sequences, a
    log that [saveLogEntry] reports as saved is found by [getLogsByDomain]
    under the canonical name of its domain, as long as the limit exceeds
    the number of logs the store had. *)
Theorem saveLogEntry_then_getLogsByDomain {SM : StringMethods} {SC : Storage}
    (data : IncomingLogData.t) (st st' : Store) (domainId activityId : Z)
    (limit : Z) (Hwf : wellFormed st)
    (Hlimit : Z.of_nat (length (logs st)) < limit)
    (Hsave : saveLogEntry data st = (Saved domainId activityId, st')) :
  exists r,
    In r (fst (getLogsByDomain (capitalized (domainName data)) (Some limit) st'))
    /\ LogRow.id r = logSeq st
    /\ InsertData.description (LogRow.values r) = description1 data
    /\ activityNameOf st' r = Some (trim (activityName data)).
Proof.
  destruct (saveLogEntry_saved_row data st st' domainId activityId Hwf Hsave)
    as (Hlogs & Hdn & Han).
  exists (LogRow.mk (logSeq st) (storedValues (insertData data domainId activityId))
            (Some (dbNow st))).
  split; [|split; [reflexivity|split; [reflexivity|exact Han]]].
  unfold getLogsByDomain, limitRows. simpl.
  destruct (Z.ltb_spec limit 0); [lia|].
  set (p := fun r => match domainNameOf st' r with
                     | Some n => String.eqb n (capitalized (domainName data))
                     | None => false
                     end).
  assert (Hperm : merge_sort newerFirst (List.filter p (logs st'))
                  ≡ₚ List.filter p (logs st')) by apply merge_sort_Permutation.
  rewrite take_ge.
  - apply list_elem_of_In. rewrite Hperm. apply list_elem_of_In, filter_In.
    split; [rewrite Hlogs; apply in_or_app; right; left; reflexivity|].
    unfold p. rewrite Hdn. apply String.eqb_refl.
  - rewrite Hperm.
    pose proof (List.filter_length_le p (logs st')) as Hlen.
    rewrite Hlogs, length_app in Hlen. simpl in Hlen.
    rewrite Hlogs. lia.
Qed.


(** ** Keywords of a chat message *)

Lemma allChars_impl (p q : ascii -> bool) (s : string) :
  (forall c, p c = true -> q c = true) -> allChars p s = true -> allChars q s = true.
Proof.
  intros Hpq. induction s as [|c s IH]; simpl; [reflexivity|].
  rewrite !andb_true_iff. intros [Hc Hs]. auto.
Qed.

(** The pieces of [split(/\s+/)] hold no white space, and no character that
    the string did not hold. *)
Lemma splitWhite_chars (p : ascii -> bool) (s : string) (inRun : bool) :
  allChars p s = true ->
  Forall (fun w => allChars (fun c => p c && negb (JS.isWhite c)) w = true)
    (splitWhite inRun s).
Proof.
  revert inRun. induction s as [|c s IH]; intros inRun Hs; simpl.
  - repeat constructor.
  - simpl in Hs. apply andb_true_iff in Hs as [Hc Hs].
    destruct (JS.isWhite c) eqn:Hw.
    + destruct inRun; [apply IH, Hs|constructor; [reflexivity|apply IH, Hs]].
    + specialize (IH false Hs).
      destruct (splitWhite false s) as [|w ws]; [repeat constructor; simpl|].
      * rewrite Hc, Hw. reflexivity.
      * inversion IH as [|? ? Hw' Hws]; subst. constructor; [|exact Hws].
        simpl. rewrite Hc, Hw, Hw'. reflexivity.
Qed.

Lemma cleaned_char (c : ascii) :
  let c' := JS.lowerChar c in
  let c'' := if isWordChar c' || JS.isWhite c' then c' else " "%char in
  (isKeywordChar c'' || JS.isWhite c'') = true.
Proof. destruct c as [[] [] [] [] [] [] [] []]; reflexivity. Qed.

Lemma cleaned_chars (s : string) :
  allChars (fun c => isKeywordChar c || JS.isWhite c)
    (replacePunctuation (JS.toLowerCase s)) = true.
Proof.
  unfold replacePunctuation, JS.toLowerCase.
  induction s as [|c s IH]; simpl; [reflexivity|].
  rewrite IH, andb_true_r. apply cleaned_char.
Qed.

Lemma extractKeywords_shape (userMessage : string) :
  Forall (fun w => (2 < String.length w)%nat
                   /\ ~ In w commonWords
                   /\ allChars isKeywordChar w = true)
    (extractKeywords userMessage).
Proof.
  unfold extractKeywords. apply List.Forall_forall. intros w Hw.
  apply filter_In in Hw as [Hin Hkey].
  unfold isKeyword in Hkey. apply andb_true_iff in Hkey as [Hlen Hcommon].
  apply Nat.ltb_lt in Hlen. apply negb_true_iff in Hcommon.
  split; [exact Hlen|]. split.
  - intros Hc. apply arrayIncludes_In in Hc. congruence.
  - pose proof (splitWhite_chars _ _ false (cleaned_chars userMessage)) as Hall.
    rewrite List.Forall_forall in Hall. specialize (Hall _ Hin).
    revert Hall. apply allChars_impl. intros c Hc.
    apply andb_true_iff in Hc as [Hc Hw]. apply negb_true_iff in Hw.
    rewrite Hw, orb_false_r in Hc. exact Hc.
Qed.

(** X20. Every keyword that [extractKeywords] draws from a message has more
    than two characters, is none of the common words, and is made of
    lowercase letters, digits and underscores only: no capital, no
    punctuation, no white space. *)
Theorem extractKeywords_clean (userMessage : string) :
  Forall (fun w => (2 < String.length w)%nat
                   /\ ~ In w commonWords
                   /\ allChars isKeywordChar w = true)
    (extractKeywords userMessage).
Proof. exact (extractKeywords_shape userMessage). Qed.

Lemma keywordChar_not_space (c : ascii) :
  isKeywordChar c = true -> Ascii.eqb c " "%char = false.
Proof.
  destruct c as [[] [] [] [] [] [] [] []]; vm_compute; intros H;
    solve [reflexivity | discriminate H].
Qed.

Lemma splitSpace_token (w : string) :
  allChars isKeywordChar w = true -> JS.splitSpace w = [w].
Proof.
  induction w as [|c w IH]; simpl; [reflexivity|].
  intros H. apply andb_true_iff in H as [Hc Hw].
  rewrite (keywordChar_not_space c Hc), (IH Hw). reflexivity.
Qed.

Lemma splitSpace_token_app (w rest : string) :
  allChars isKeywordChar w = true ->
  JS.splitSpace (w ++ String " "%char rest) = w :: JS.splitSpace rest.
Proof.
  induction w as [|c w IH]; simpl; [reflexivity|].
  intros H. apply andb_true_iff in H as [Hc Hw].
  rewrite (keywordChar_not_space c Hc), (IH Hw). reflexivity.
Qed.

(** Joining keywords with a space and cutting at the spaces gives the
    keywords back. *)
Lemma splitSpace_join (ws : list string) :
  ws <> [] -> Forall (fun w => allChars isKeywordChar w = true) ws ->
  JS.splitSpace (JS.join " " ws) = ws.
Proof.
  induction ws as [|w ws IH]; [congruence|]. intros _ Hall.
  inversion Hall as [|? ? Hw Hws]; subst.
  destruct ws as [|w' ws].
  - simpl. apply splitSpace_token, Hw.
  - change (JS.join " " (w :: w' :: ws))
      with (w ++ String " "%char (JS.join " " (w' :: ws))).
    rewrite (splitSpace_token_app _ _ Hw), IH; [reflexivity|discriminate|exact Hws].
Qed.

Lemma uniqueRecentLogs_nil (R : list LogEntry.t) : uniqueRecentLogs [] R = R.
Proof.
  unfold uniqueRecentLogs. induction R as [|r R IH]; simpl; [reflexivity|].
  rewrite IH. reflexivity.
Qed.

(** X21. When a chat message has keywords, the terms of the search are its
    keywords of more than three characters, joined by [|]: a keyword of
    three characters is never searched.  So for a message whose keywords
    all have three characters no search statement is sent, and the context
    is the logs of the last three days, each in the format of a search
    result.  When a message has no keyword, the message itself is the
    query. *)
Theorem chat_search_uses_long_keywords (userMessage : string)
    (Hkeys : extractKeywords userMessage <> []) :
  searchTerms (searchQueryOf userMessage)
  = JS.join " | "
      (List.filter (fun w => (3 <? String.length w)%nat) (extractKeywords userMessage))
  /\ (forall (tsquery : Type) (to_tsquery : string -> option tsquery)
             (matches : string -> tsquery -> bool) (tz now : Z) (st : Store),
        Forall (fun w => String.length w = 3%nat) (extractKeywords userMessage) ->
        messageContext tsquery to_tsquery matches tz now userMessage st
        = (List.map formatRecent (fst (getRecentLogs tz now 3 st)),
           send (Select "logs") st))
  /\ (forall m : string, extractKeywords m = [] -> searchQueryOf m = m).
Proof.
  assert (Hterms : searchTerms (searchQueryOf userMessage)
                   = JS.join " | "
                       (List.filter (fun w => (3 <? String.length w)%nat)
                          (extractKeywords userMessage))).
  { unfold searchTerms, searchQueryOf.
    destruct (extractKeywords userMessage) as [|w ws] eqn:Hk; [congruence|].
    change (0 <? length (w :: ws))%nat with true. cbv iota.
    rewrite splitSpace_join; [reflexivity|discriminate|].
    rewrite <- Hk. eapply Forall_impl; [apply extractKeywords_shape|].
    simpl. intros a (_ & _ & Ha). exact Ha. }
  split; [exact Hterms|]. split.
  - intros tsquery to_tsquery matches tz now st Hthree.
    unfold messageContext, chatContext, bind, getRelatedLogs.
    rewrite Hterms, filter_short_nil.
    + simpl. unfold contextLogs. rewrite uniqueRecentLogs_nil. reflexivity.
    + eapply Forall_impl; [exact Hthree|]. simpl. intros a Ha. lia.
  - intros m Hnone. unfold searchQueryOf. rewrite Hnone. reflexivity.
Qed.


(** ** The merge on every pair of lists *)

(** X22. The merge loses no recent log: the identity of every recent log
    occurs in the context, carried by the log itself or by a search result.
    The context is never longer than both lists together; without search
    results it is the recent logs, each in the format of a search result,
    without recent logs it is the search results, and when no recent log
    shares its identity with a search result nothing is dropped. *)
Theorem contextLogs_loses_no_recent_log (S : list LogSummary.t) (R : list LogEntry.t) :
  (forall r, In r R -> In (entryKey r) (List.map summaryKey (contextLogs S R)))
  /\ (length (contextLogs S R) <= length S + length R)%nat
  /\ contextLogs [] R = List.map formatRecent R
  /\ contextLogs S [] = S
  /\ ((forall r, In r R -> ~ In (entryKey r) (List.map summaryKey S)) ->
      contextLogs S R = (S ++ List.map formatRecent R)%list).
Proof.
  split; [|split; [|split; [|split]]].
  - intros r Hr. unfold contextLogs. rewrite List.map_app. apply in_or_app.
    destruct (in_dec Z.eq_dec (entryKey r) (List.map summaryKey S)) as [Hin|Hnin].
    + left. exact Hin.
    + right. rewrite List.map_map. apply in_map_iff. exists r.
      split; [apply summaryKey_formatRecent|].
      apply In_uniqueRecentLogs. auto.
  - unfold contextLogs, uniqueRecentLogs.
    rewrite length_app, length_map.
    pose proof (List.filter_length_le
                  (fun log => negb (bool_decide (entryKey log ∈ searchResultIds S))) R).
    lia.
  - unfold contextLogs. rewrite uniqueRecentLogs_nil. reflexivity.
  - unfold contextLogs. simpl. apply List.app_nil_r.
  - intros Hfresh. unfold contextLogs. do 2 f_equal.
    unfold uniqueRecentLogs. induction R as [|r R IH]; simpl; [reflexivity|].
    assert (Hr : bool_decide (entryKey r ∈ searchResultIds S) = false).
    { apply bool_decide_eq_false. rewrite elem_of_searchResultIds.
      apply Hfresh. left. reflexivity. }
    rewrite Hr. simpl. f_equal. apply IH. intros r' Hr'. apply Hfresh. right. exact Hr'.
Qed.

Lemma getRelatedLogs_store
    (tsquery : Type) (to_tsquery : string -> option tsquery)
    (matches : string -> tsquery -> bool) (q : string) (st : Store) :
  snd (getRelatedLogs tsquery to_tsquery matches q st)
  = if JS.truthyStr (searchTerms q) then send (Select "logs") st else st.
Proof.
  unfold getRelatedLogs. destruct (JS.truthyStr (searchTerms q)); simpl; [|reflexivity].
  destruct (to_tsquery (searchTerms q)); reflexivity.
Qed.

Lemma contextLogs_length (S : list LogSummary.t) (R : list LogEntry.t) :
  (length (contextLogs S R) <= length S + length R)%nat.
Proof.
  unfold contextLogs, uniqueRecentLogs. rewrite length_app, length_map.
  pose proof (List.filter_length_le
                (fun log => negb (bool_decide (entryKey log ∈ searchResultIds S))) R).
  lia.
Qed.

Lemma getRecentLogs_length (tz now days : Z) (st : Store) :
  (length (fst (getRecentLogs tz now days st)) <= length (logs st))%nat.
Proof.
  unfold getRecentLogs, getLogsByDateRange. simpl.
  rewrite length_map, merge_sort_Permutation. apply List.filter_length_le.
Qed.

(** X23. The chat context is the merge of the search results with the logs
    of the last two days when the search found something, and of the last
    three days when it found nothing.  Building it changes no table and
    sends one statement for the recent logs, after one for the search when
    the query has a term. *)
Theorem chatContext_two_or_three_days
    (tsquery : Type) (to_tsquery : string -> option tsquery)
    (matches : string -> tsquery -> bool) (tz now : Z) (q : string) (st : Store) :
  let found := fst (getRelatedLogs tsquery to_tsquery matches q st) in
  let res := chatContext tsquery to_tsquery matches tz now q st in
  fst res
  = contextLogs found
      (fst (getRecentLogs tz now (match found with [] => 3 | _ => 2 end) st))
  /\ (length (fst res) <= 5 + length (logs st))%nat
  /\ domains (snd res) = domains st
  /\ activities (snd res) = activities st
  /\ logs (snd res) = logs st
  /\ issued (snd res)
     = (issued st
        ++ (if JS.truthyStr (searchTerms q) then [Select "logs"] else [])
        ++ [Select "logs"])%list.
Proof.
  cbv zeta.
  pose proof (getRelatedLogs_store tsquery to_tsquery matches q st) as Hst.
  assert (Hfive : (length (fst (getRelatedLogs tsquery to_tsquery matches q st)) <= 5)%nat).
  { unfold getRelatedLogs. destruct (negb _); simpl; [lia|].
    destruct (to_tsquery _); simpl; [|lia].
    rewrite length_map, length_take. lia. }
  unfold chatContext, bind.
  destruct (getRelatedLogs tsquery to_tsquery matches q st) as [found st1].
  simpl in Hst, Hfive |- *. subst st1.
  replace (if (0 <? length found)%nat then 2 else 3)
    with (match found with [] => 3 | _ => 2 end) by (destruct found; reflexivity).
  set (days := match found with [] => 3 | _ => 2 end).
  pose proof (contextLogs_length found (fst (getRecentLogs tz now days st))) as Hlen.
  pose proof (getRecentLogs_length tz now days st) as Hrecent.
  destruct (JS.truthyStr (searchTerms q)); simpl.
  - split; [reflexivity|]. split; [change (length (contextLogs found
                (fst (getRecentLogs tz now days st))) <= 5 + length (logs st))%nat; lia|].
    repeat split. rewrite <- List.app_assoc. reflexivity.
  - split; [reflexivity|]. split; [change (length (contextLogs found
                (fst (getRecentLogs tz now days st))) <= 5 + length (logs st))%nat; lia|].
    repeat split.
Qed.


(** ** The further properties at concrete inputs *)

Lemma twoLogStore_wellFormed : wellFormed twoLogStore.
Proof.
  unfold wellFormed, keysBelow. simpl.
  repeat split; repeat constructor; simpl; try lia; intuition discriminate.
Qed.

Lemma twoLogStore_unique : uniqueDomainNames twoLogStore /\ uniqueActivities twoLogStore.
Proof.
  unfold uniqueDomainNames, uniqueActivities. simpl.
  split; repeat constructor; simpl; intuition discriminate.
Qed.

(** A run of [saveLogEntry] that succeeds: the domain "Health" and the
    activity "Running" are created with the ids 2 and 2. *)
Lemma healthRun_saved :
  saveLogEntry (SM := asciiStrings) (SC := lenientStorage) healthPayload twoLogStore
  = (Saved 2 2, healthStore).
Proof. reflexivity. Defined.

Lemma saveLogEntry_keeps_keys_witness :
  wellFormed twoLogStore
  /\ wellFormed healthStore.
Proof.
  split; [exact twoLogStore_wellFormed|].
  exact (proj1 (saveLogEntry_keeps_keys (SM := asciiStrings) (SC := lenientStorage)
                  healthPayload twoLogStore twoLogStore_wellFormed
                  (proj1 twoLogStore_unique) (proj2 twoLogStore_unique))).
Defined.

Lemma saveLogEntry_activity_under_domain_witness :
  exists drow arow,
    In drow (domains healthStore) /\ DomainRow.id drow = 2
    /\ DomainRow.name drow = "Health"
    /\ In arow (activities healthStore) /\ ActivityRow.id arow = 2
    /\ ActivityRow.domainId arow = Some 2.
Proof.
  destruct (saveLogEntry_activity_under_domain (SM := asciiStrings) (SC := lenientStorage)
              healthPayload twoLogStore healthStore 2 2 healthRun_saved)
    as (drow & arow & lrow & Hd1 & Hd2 & Hd3 & Ha1 & Ha2 & _ & Ha4 & _).
  exists drow, arow. auto 10.
Defined.

Lemma saveLogEntry_then_getAllLogs_witness :
  wellFormed twoLogStore
  /\ length (fst (getAllLogs healthStore)) = 3%nat.
Proof.
  split; [exact twoLogStore_wellFormed|].
  exact (proj1 (saveLogEntry_then_getAllLogs (SM := asciiStrings) (SC := lenientStorage)
                  healthPayload twoLogStore healthStore 2 2
                  twoLogStore_wellFormed healthRun_saved)).
Defined.

Lemma domain_colour_by_canonical_name_witness :
  JS.isAscii " hEALTH " = true
  /\ ~ In (capitalized (SM := asciiStrings) " hEALTH ")
         (List.map DomainRow.name (domains twoLogStore))
  /\ fst (getOrCreateDomain (SM := asciiStrings) (SC := lenientStorage)
            " hEALTH " twoLogStore) = Returned 2
  /\ exists row,
       domains (snd (getOrCreateDomain (SM := asciiStrings) (SC := lenientStorage)
                       " hEALTH " twoLogStore))
       = (domains twoLogStore ++ [row])%list
       /\ DomainRow.id row = 2
       /\ DomainRow.name row = "Health"
       /\ DomainRow.color row = Some (Hex "#EF4444").
Proof.
  assert (Habsent : ~ In (capitalized (SM := asciiStrings) " hEALTH ")
                      (List.map DomainRow.name (domains twoLogStore))).
  { simpl. intros [H|[]]. discriminate H. }
  split; [reflexivity|]. split; [exact Habsent|]. split; [reflexivity|].
  destruct (proj1 (domain_colour_by_canonical_name (SM := asciiStrings)
                     (SC := lenientStorage) " hEALTH " twoLogStore 2
                     eq_refl Habsent eq_refl))
    as (row & Hid & _ & Hdom & Hname & _ & Hpreset).
  exists row. split; [exact Hdom|]. split; [exact Hid|]. split; [exact Hname|].
  apply Hpreset. right. left. reflexivity.
Defined.

Lemma blankRun_saved :
  saveLogEntry (SM := asciiStrings) (SC := lenientStorage)
    (classifiedPayload "note" (Some "  ") (Some "Walk")) emptyStore
  = (Saved 1 1,
     snd (saveLogEntry (SM := asciiStrings) (SC := lenientStorage)
            (classifiedPayload "note" (Some "  ") (Some "Walk")) emptyStore)).
Proof. reflexivity. Defined.

Lemma blank_names_resolve_to_empty_witness :
  trim (StringMethods := asciiStrings) "  " = EmptyString
  /\ exists drow,
       In drow (domains (snd (saveLogEntry (SM := asciiStrings) (SC := lenientStorage)
                                (classifiedPayload "note" (Some "  ") (Some "Walk"))
                                emptyStore)))
       /\ DomainRow.id drow = 1
       /\ DomainRow.name drow = EmptyString.
Proof.
  split; [reflexivity|].
  exact (proj1 (blank_names_resolve_to_empty (SM := asciiStrings) (SC := lenientStorage)
                  (classifiedPayload "note" (Some "  ") (Some "Walk")) emptyStore _ 1 1
                  blankRun_saved)
           (IncomingLogData.mkClassification (Some "  ") (Some "Walk")) "  "
           eq_refl eq_refl ltac:(discriminate) eq_refl).
Defined.

Lemma getOrCreateActivity_keyed_by_name_and_domain_witness :
  trim (StringMethods := asciiStrings) " Coding"
  = trim (StringMethods := asciiStrings) "Coding "
  /\ fst (getOrCreateActivity (SM := asciiStrings) (SC := lenientStorage) "Coding " 1
            (snd (getOrCreateActivity (SM := asciiStrings) (SC := lenientStorage)
                    " Coding" 1 twoLogStore)))
     = fst (getOrCreateActivity (SM := asciiStrings) (SC := lenientStorage)
              " Coding" 1 twoLogStore).
Proof.
  split; [reflexivity|].
  exact (proj1 (getOrCreateActivity_keyed_by_name_and_domain (SM := asciiStrings)
                  (SC := lenientStorage) " Coding" "Coding " 1 twoLogStore eq_refl)).
Defined.

Lemma getRecentLogs_grows_with_days_witness :
  recentDatesValid 0 sampleNow 2 /\ recentDatesValid 0 sampleNow 3 /\ 2 <= 3
  /\ forall e, In e (fst (getRecentLogs 0 sampleNow 2 twoLogStore)) ->
               In e (fst (getRecentLogs 0 sampleNow 3 twoLogStore)).
Proof.
  assert (Hle : 2 <= 3) by lia.
  assert (H2 : recentDatesValid 0 sampleNow 2).
  { unfold recentDatesValid, validTime. vm_compute. intuition discriminate. }
  assert (H3 : recentDatesValid 0 sampleNow 3).
  { unfold recentDatesValid, validTime. vm_compute. intuition discriminate. }
  split; [exact H2|]. split; [exact H3|]. split; [exact Hle|].
  exact (proj1 (getRecentLogs_grows_with_days 0 sampleNow 2 3 twoLogStore H2 H3 Hle)).
Defined.

Lemma getLogsWithPagination_pages_witness :
  1 <= 2 /\ 1 <= 1
  /\ Page.logs (fst (getLogsWithPagination (Some 2) (Some 1) twoLogStore))
     = take 1 (drop 1 (fst (getAllLogs twoLogStore))).
Proof.
  assert (Hp : 1 <= 2) by lia. assert (Hl : 1 <= 1) by lia.
  split; [exact Hp|]. split; [exact Hl|].
  exact (proj1 (getLogsWithPagination_pages 2 1 twoLogStore Hp Hl)).
Defined.

Lemma getLogsWithPagination_rejected_witness :
  ((0 < 1 /\ 0 < 20) \/ (1 < 0 /\ 20 < 0))
  /\ getLogsWithPagination (Some 0) (Some 20) twoLogStore
     = (Page.mk [] 0 1 20 (Some 0), send (Select "logs") twoLogStore).
Proof.
  assert (Hbad : (0 < 1 /\ 0 < 20) \/ (1 < 0 /\ 20 < 0)) by (left; lia).
  split; [exact Hbad|].
  exact (proj1 (getLogsWithPagination_rejected 0 20 twoLogStore Hbad)).
Defined.

Lemma getLogsByDomain_newest_of_domain_witness :
  0 <= 1
  /\ Z.of_nat (length (fst (getLogsByDomain "Work" (Some 1) twoLogStore))) <= 1.
Proof.
  assert (Hl : 0 <= 1) by lia.
  split; [exact Hl|].
  exact (proj1 (getLogsByDomain_newest_of_domain "Work" 1 twoLogStore Hl)).
Defined.

Lemma saveLogEntry_then_getLogsByDomain_witness :
  wellFormed twoLogStore /\ Z.of_nat (length (logs twoLogStore)) < 10
  /\ exists r,
       In r (fst (getLogsByDomain "Health" (Some 10) healthStore))
       /\ LogRow.id r = 9.
Proof.
  assert (Hlimit : Z.of_nat (length (logs twoLogStore)) < 10) by (simpl; lia).
  split; [exact twoLogStore_wellFormed|]. split; [exact Hlimit|].
  destruct (saveLogEntry_then_getLogsByDomain (SM := asciiStrings) (SC := lenientStorage)
              healthPayload twoLogStore healthStore 2 2 10
              twoLogStore_wellFormed Hlimit healthRun_saved)
    as (r & Hin & Hid & _).
  exists r. split; [exact Hin|exact Hid].
Defined.

Lemma getOrCreateDomain_same_form_same_id_witness :
  uniqueDomainNames emptyStore
  /\ capitalized (SM := asciiStrings) "  WORK " = capitalized (SM := asciiStrings) "work"
  /\ fst (getOrCreateDomain (SM := asciiStrings) (SC := lenientStorage) "work"
            (snd (getOrCreateDomain (SM := asciiStrings) (SC := lenientStorage)
                    "  WORK " emptyStore)))
     = Returned 1.
Proof.
  assert (Huniq : uniqueDomainNames emptyStore) by constructor.
  split; [exact Huniq|]. split; [reflexivity|].
  destruct (proj1 (getOrCreateDomain_same_form_same_id (SM := asciiStrings)
                     (SC := lenientStorage)
                     emptyStore "  WORK " "work" Huniq eq_refl) 1 eq_refl)
    as (Hsecond & _).
  exact (f_equal fst Hsecond).
Defined.

Lemma saveLogEntry_stores_the_record_witness :
  exists row,
    logs healthStore = (logs twoLogStore ++ [row])%list
    /\ LogRow.id row = 9
    /\ InsertData.description (LogRow.values row) = "ran 5 km".
Proof.
  destruct (saveLogEntry_stores_the_record (SM := asciiStrings) (SC := lenientStorage)
              healthPayload twoLogStore healthStore 2 2 healthRun_saved)
    as (row & Hlogs & Hid & _ & _ & _ & Hdesc & _).
  exists row. split; [exact Hlogs|]. split; [exact Hid|exact Hdesc].
Defined.

Lemma chat_search_uses_long_keywords_witness :
  extractKeywords "Gym, run?" = ["gym"; "run"]
  /\ searchTerms (searchQueryOf "Gym, run?") = EmptyString.
Proof.
  split; [reflexivity|].
  exact (proj1 (chat_search_uses_long_keywords "Gym, run?" ltac:(discriminate))).
Defined.

(** ** Further runs of the model *)

Example extractKeywords_example :
  extractKeywords "What did I do about the Parser-bug last week?" = ["parser"; "bug"]
  /\ searchQueryOf "What did I do about the Parser-bug last week?" = "parser bug"
  /\ searchTerms "parser bug" = "parser".
Proof. repeat split. Qed.

Example stop_words_are_searched :
  extractKeywords "what about that" = []
  /\ searchTerms (searchQueryOf "what about that") = "what | about | that".
Proof. repeat split. Qed.

Example splitWhite_examples :
  splitWhite false " a  b " = [EmptyString; "a"; "b"; EmptyString]
  /\ splitWhite false EmptyString = [EmptyString].
Proof. repeat split. Qed.

Example pagination_example :
  List.map LogEntry.id
    (Page.logs (fst (getLogsWithPagination (Some 2) (Some 1) twoLogStore))) = [8]
  /\ Page.totalPages (fst (getLogsWithPagination (Some 2) (Some 1) twoLogStore)) = Some 2
  /\ Page.totalPages (fst (getLogsWithPagination None None twoLogStore)) = Some 1.
Proof. vm_compute. auto. Qed.

